(** * youtube-playlist: a shallow embedding of the playlist automation

    The Python program aggregates the recent uploads of a set of channels and
    appends them to a playlist through the YouTube Data API.  The first part
    of this file embeds [config.py], [video_search.py], [playlist_manager.py]
    and [main.py] as Rocq functions, together with the vocabulary of the
    statements and an in-memory platform on which the program can be run; the
    second part proves the properties.

    Conventions of the embedding.
    - A Python [str] is a [string]; each [ascii] stands for one character.
    - A Python [int] is a [Z]; [len] is [length] injected into [Z].
    - A Python [set] of strings is a [gset string].
    - The remote API is an environment: a state of an arbitrary type [W] and
      one transition per endpoint that the program calls.  [request.execute()]
      either returns the decoded response or raises [HttpError]; transport
      faults below the HTTP layer are outside the model.
    - Every API call is appended to a trace, so that statements can speak
      about which requests were issued and in which order.
    - The two [while] loops that page through a listing take a fuel argument;
      running out of fuel is the outcome [OutOfFuel], distinct from returning
      and from raising.
    - Log statements have no effect on any result and are left out: the
      [logging] module swallows the errors of its handlers.
    - [print] and [webbrowser.open] are calls to the environment that can
      fail, and then raise; what they write or open is not kept in the
      state. *)

From Stdlib Require Import ZArith String Ascii List Lia Bool Sorted Permutation.
From stdpp Require Import base decidable countable gmap strings.
Import ListNotations.

Local Open Scope string_scope.
Local Open Scope Z_scope.

(** ** Outcomes, exceptions and the monad of the program *)

Inductive exn : Type :=
| HttpError
| KeyError (key : string)
| IndexError
| ValueError
| OverflowError
| UnicodeEncodeError
| WebbrowserError
| SystemExit (code : Z).

Inductive outcome (A : Type) : Type :=
| Ok (a : A)
| Raise (e : exn)
| OutOfFuel.

Arguments Ok {A} a.
Arguments Raise {A} e.
Arguments OutOfFuel {A}.

(** What [request.execute()] gives back. *)
Inductive reply (A : Type) : Type :=
| Response (a : A)
| Failure.

Arguments Response {A} a.
Arguments Failure {A}.

(** One entry per request issued, with the parameters the code passes. *)
Inductive call : Type :=
| PlaylistsList (maxResults : Z)
| PlaylistsInsert (title description privacy_status : string)
| PlaylistItemsList (playlistId : string) (maxResults : Z) (pageToken : option string)
| PlaylistItemsInsert (playlistId videoId : string)
| SearchChannel (q : string) (maxResults : Z)
| SearchVideo (channelId publishedAfter publishedBefore : string)
              (maxResults : Z) (pageToken : option string).

(** The lines that [main] prints.  Their texts begin with characters outside
    ASCII; a line is identified by its statement and by the values that are
    interpolated into it. *)
Inductive line : Type :=
| NoVideosFound
| FailedToCreateOrFind
| AddedNewVideos (successful : Z)
| NoNewVideosFound (skipped : Z)
| NoVideosAdded
| PlaylistLink (playlist_url : option string)
| OpeningBrowser
| ErrorLine (e : exn).

(** Python truthiness of [response.get('nextPageToken')] and of ids:
    [None] and the empty string are false. *)
Definition truthy (o : option string) : bool :=
  match o with
  | Some s => negb (String.eqb s "")
  | None => false
  end.

(** ** Response shapes *)

Record PlaylistResource := {
  pl_id : string;
  pl_snippet_title : string
}.

Record PlaylistItemResource := {
  pi_contentDetails_videoId : string
}.

Record SearchResult := {
  sr_id_videoId : string;
  sr_snippet_title : string;
  sr_snippet_publishedAt : string;
  sr_snippet_channelTitle : string;
  sr_snippet_description : string
}.

Record ChannelResult := {
  cr_snippet_channelId : string
}.

Record Page (A : Type) := {
  items : list A;
  nextPageToken : option string
}.

Arguments items {A} p.
Arguments nextPageToken {A} p.

(** ** Civil dates and instants *)

Record date := { year : Z; month : Z; day : Z }.

(** An aware UTC [datetime], as microseconds since 0001-01-01T00:00:00Z. *)
Definition datetime := Z.

(** ** The environment *)

Record Service (W : Type) := {
  playlists_list : Z -> W -> reply (Page PlaylistResource) * W;
  playlists_insert : string -> string -> string -> W -> reply string * W;
  playlistItems_list :
    string -> Z -> option string -> W -> reply (Page PlaylistItemResource) * W;
  playlistItems_insert : string -> string -> W -> reply unit * W;
  search_channel : string -> Z -> W -> reply (Page ChannelResult) * W;
  search_video :
    string -> string -> string -> Z -> option string -> W ->
    reply (Page SearchResult) * W;
  (** [datetime.now(timezone.utc)] *)
  clock_now : W -> datetime * W;
  (** [date.today()], the local calendar date *)
  clock_today : W -> date * W;
  (** whether [sys.stdout] takes the line that [print] writes *)
  stdout_write : line -> W -> reply unit;
  (** whether [webbrowser.open(url)] returns *)
  webbrowser_open : option string -> W -> reply unit
}.

Arguments playlists_list {W} s.
Arguments playlists_insert {W} s.
Arguments playlistItems_list {W} s.
Arguments playlistItems_insert {W} s.
Arguments search_channel {W} s.
Arguments search_video {W} s.
Arguments clock_now {W} s.
Arguments clock_today {W} s.
Arguments stdout_write {W} s.
Arguments webbrowser_open {W} s.

Record world (W : Type) := {
  remote : W;
  trace : list call
}.

Arguments remote {W} w.
Arguments trace {W} w.

Definition M (W A : Type) : Type := world W -> outcome A * world W.

Definition ret {W A} (a : A) : M W A := fun w => (Ok a, w).

Definition bind {W A B} (c : M W A) (k : A -> M W B) : M W B :=
  fun w =>
    match c w with
    | (Ok a, w') => k a w'
    | (Raise e, w') => (Raise e, w')
    | (OutOfFuel, w') => (OutOfFuel, w')
    end.

Definition raise {W A} (e : exn) : M W A := fun w => (Raise e, w).

Definition out_of_fuel {W A} : M W A := fun w => (OutOfFuel, w).

(** [try: c  except HttpError: h] *)
Definition try_except_HttpError {W A} (c : M W A) (h : M W A) : M W A :=
  fun w =>
    match c w with
    | (Raise HttpError, w') => h w'
    | r => r
    end.

(** [request.execute()]: log the request, step the environment, raise
    [HttpError] on a failed reply. *)
Definition execute {W A} (rq : call) (step : W -> reply A * W) : M W A :=
  fun w =>
    let (r, s') := step (remote w) in
    let w' := {| remote := s'; trace := trace w ++ [rq] |} in
    match r with
    | Response a => (Ok a, w')
    | Failure => (Raise HttpError, w')
    end.

(** A clock read: steps the environment, issues no request. *)
Definition read_clock {W A} (rd : W -> A * W) : M W A :=
  fun w =>
    let (a, s') := rd (remote w) in
    (Ok a, {| remote := s'; trace := trace w |}).

Declare Scope py_scope.
Delimit Scope py_scope with py.
Notation "x <- c ;; k" := (bind c (fun x => k))
  (at level 100, c at next level, right associativity) : py_scope.
Local Open Scope py_scope.

(** ** Python string operations used by the program *)

Module PyStr.

(** [s.lstrip('@')] *)
Fixpoint lstrip_at (s : string) : string :=
  match s with
  | String "@"%char rest => lstrip_at rest
  | _ => s
  end.

(** [sep.join(ls)] *)
Definition join (sep : string) (ls : list string) : string := String.concat sep ls.

(** [s[:n]] for a non-negative [n] *)
Definition slice_to (n : nat) (s : string) : string := String.substring 0 n s.

(** [len(s)] *)
Definition len (s : string) : Z := Z.of_nat (String.length s).

(** [s.replace(old, new)] for a non-empty [old]: [skip] counts the characters
    of a match that are still to be dropped. *)
Fixpoint replace_go (old new : string) (skip : nat) (s : string) : string :=
  match s with
  | EmptyString => EmptyString
  | String c s' =>
      match skip with
      | S k => replace_go old new k s'
      | O =>
          if String.prefix old s
          then new ++ replace_go old new (String.length old - 1) s'
          else String c (replace_go old new 0 s')
      end
  end.

Definition replace (old new s : string) : string := replace_go old new 0 s.

(** *** [str.format] with keyword arguments only

    The scanner follows CPython's [MarkupIterator_next] and [parse_field]:
    literal text with the doubled-brace escapes, then a replacement field made
    of a field name, an optional [!conversion] and an optional [:format_spec]
    in which braces nest.  The machine below reads one character at a time and
    renders a field when its closing brace is read, so errors surface in the
    order in which Python raises them.  Rendering follows [output_markup]:
    the argument is looked up, the rest of the field name is followed and the
    conversion applied, a format spec that holds a brace is itself formatted
    with the same arguments, one level down, and the object is formatted with
    the result.  [build_string] starts with two levels and refuses to go
    below. *)

Inductive pyval : Type :=
| VStr (s : string)
| VInt (z : Z).

(** What a call into the Python runtime gives: a value or an exception. *)
Inductive result (A : Type) : Type :=
| Returns (a : A)
| Raises (e : exn).

Arguments Returns {A} a.
Arguments Raises {A} e.

Definition of_result {A : Type} (r : result A) : outcome A :=
  match r with
  | Returns a => Ok a
  | Raises e => Raise e
  end.

Inductive fstate : Type :=
| Text
| SawOpen
| SawClose
| FieldName (name : string)
| Bracket (name : string)
| Conv (name : string)
| ConvDone (name : string) (conversion : ascii)
| Spec (name : string) (conversion : option ascii) (spec : string) (depth : nat).

Definition snoc (s : string) (c : ascii) : string := s ++ String c EmptyString.

(** The first component of a field name: everything before the first
    ['.'] or ['[']. *)
Fixpoint arg_name (field_name : string) : string :=
  match field_name with
  | EmptyString => EmptyString
  | String c rest =>
      if (Ascii.eqb c "."%char || Ascii.eqb c "["%char)%bool
      then EmptyString
      else String c (arg_name rest)
  end.

Definition is_digit (c : ascii) : bool :=
  ((48 <=? Z.of_N (N_of_ascii c))%Z && (Z.of_N (N_of_ascii c) <=? 57)%Z)%bool.

Fixpoint all_digits (s : string) : bool :=
  match s with
  | EmptyString => true
  | String c rest => (is_digit c && all_digits rest)%bool
  end.

(** The index written by a numeric argument name. *)
Fixpoint decimal_value (acc : Z) (s : string) : Z :=
  match s with
  | EmptyString => acc
  | String c rest => decimal_value (acc * 10 + (Z.of_N (N_of_ascii c) - 48)) rest
  end.

(** [PY_SSIZE_T_MAX] of a 64-bit build: a larger index is refused as
    "too many decimal digits". *)
Definition PY_SSIZE_T_MAX : Z := 9223372036854775807.

(** An empty or numeric argument name indexes the positional arguments, of
    which the program passes none. *)
Definition positional_error (a : string) : exn :=
  if PY_SSIZE_T_MAX <? decimal_value 0 a then ValueError else IndexError.

Fixpoint lookup_kw (kwargs : list (string * pyval)) (k : string) : option pyval :=
  match kwargs with
  | [] => None
  | (k', v) :: rest => if String.eqb k' k then Some v else lookup_kw rest k
  end.

(** [format_spec_needs_expanding]: the spec holds an opening brace. *)
Fixpoint has_open_brace (s : string) : bool :=
  match s with
  | EmptyString => false
  | String c rest => (Ascii.eqb c "{"%char || has_open_brace rest)%bool
  end.

Section Format.
(** [str(v)] for an [int] belongs to the Python runtime and is taken as
    given.  So is the treatment of a field that carries an attribute or
    index path, a conversion or a format spec, in the two steps of
    [output_markup]: the path is followed and the conversion applied, which
    gives an object or raises; the object is then formatted with the
    (expanded) spec, which gives the text or raises.  The object is
    represented by what formatting it gives. *)
Context (str_of_int : Z -> string).
Context (render_extended :
           pyval -> string -> option ascii ->
           result (option string -> result string)).

Definition str_of (v : pyval) : string :=
  match v with
  | VStr s => s
  | VInt z => str_of_int z
  end.

Section Scanner.
(** The formatting of a nested format spec, one level down. *)
Context (expand : string -> outcome string).

Definition expand_spec (spec : option string) : outcome (option string) :=
  match spec with
  | Some sp =>
      if has_open_brace sp
      then match expand sp with
           | Ok sp' => Ok (Some sp')
           | Raise e => Raise e
           | OutOfFuel => OutOfFuel
           end
      else Ok (Some sp)
  | None => Ok None
  end.

(** A complete field: find the argument, then render it. *)
Definition render_field (kwargs : list (string * pyval)) (field_name : string)
    (conversion : option ascii) (spec : option string) : outcome string :=
  let a := arg_name field_name in
  if all_digits a then Raise (positional_error a)
  else
    match lookup_kw kwargs a with
    | None => Raise (KeyError a)
    | Some v =>
        match conversion, spec, String.eqb a field_name with
        | None, None, true => Ok (str_of v)
        | _, _, _ =>
            match render_extended v
                    (String.substring (String.length a)
                       (String.length field_name - String.length a) field_name)
                    conversion with
            | Returns format_object =>
                match expand_spec spec with
                | Ok spec' => of_result (format_object spec')
                | Raise e => Raise e
                | OutOfFuel => OutOfFuel
                end
            | Raises e => Raise e
            end
        end
    end.

Definition emit (kwargs : list (string * pyval)) (out : string) (field_name : string)
    (conversion : option ascii) (spec : option string) : outcome (fstate * string) :=
  match render_field kwargs field_name conversion spec with
  | Ok s => Ok (Text, out ++ s)
  | Raise e => Raise e
  | OutOfFuel => OutOfFuel
  end.

(** One character of a field name ([parse_field], first loop). *)
Definition field_char (kwargs : list (string * pyval)) (out name : string) (c : ascii)
  : outcome (fstate * string) :=
  if Ascii.eqb c "{"%char then Raise ValueError
  else if Ascii.eqb c "["%char then Ok (Bracket (snoc name c), out)
  else if Ascii.eqb c "}"%char then emit kwargs out name None None
  else if Ascii.eqb c ":"%char then Ok (Spec name None EmptyString 1, out)
  else if Ascii.eqb c "!"%char then Ok (Conv name, out)
  else Ok (FieldName (snoc name c), out).

Definition step (kwargs : list (string * pyval)) (st : fstate) (out : string) (c : ascii)
  : outcome (fstate * string) :=
  match st with
  | Text =>
      if Ascii.eqb c "{"%char then Ok (SawOpen, out)
      else if Ascii.eqb c "}"%char then Ok (SawClose, out)
      else Ok (Text, snoc out c)
  | SawOpen =>
      if Ascii.eqb c "{"%char then Ok (Text, snoc out c)
      else field_char kwargs out EmptyString c
  | SawClose =>
      if Ascii.eqb c "}"%char then Ok (Text, snoc out c)
      else Raise ValueError
  | FieldName name => field_char kwargs out name c
  | Bracket name =>
      if Ascii.eqb c "]"%char then Ok (FieldName (snoc name c), out)
      else Ok (Bracket (snoc name c), out)
  | Conv name => Ok (ConvDone name c, out)
  | ConvDone name conversion =>
      if Ascii.eqb c "}"%char then emit kwargs out name (Some conversion) None
      else if Ascii.eqb c ":"%char then Ok (Spec name (Some conversion) EmptyString 1, out)
      else Raise ValueError
  | Spec name conversion spec depth =>
      if Ascii.eqb c "{"%char then Ok (Spec name conversion (snoc spec c) (S depth), out)
      else if Ascii.eqb c "}"%char then
        match depth with
        | 0%nat | 1%nat => emit kwargs out name conversion (Some spec)
        | S d => Ok (Spec name conversion (snoc spec c) d, out)
        end
      else Ok (Spec name conversion (snoc spec c) depth, out)
  end.

Fixpoint run (kwargs : list (string * pyval)) (st : fstate) (out : string) (s : string)
  : outcome (fstate * string) :=
  match s with
  | EmptyString => Ok (st, out)
  | String c s' =>
      match step kwargs st out c with
      | Ok (st', out') => run kwargs st' out' s'
      | Raise e => Raise e
      | OutOfFuel => OutOfFuel
      end
  end.

End Scanner.

(** The end of the string must be reached outside any field and outside a
    pending single brace. *)
Definition finish (r : outcome (fstate * string)) : outcome string :=
  match r with
  | Ok (Text, out) => Ok out
  | Ok (_, _) => Raise ValueError
  | Raise e => Raise e
  | OutOfFuel => OutOfFuel
  end.

(** [build_string]: "Max string recursion exceeded" at depth 0. *)
Fixpoint build_string (recursion_depth : nat) (kwargs : list (string * pyval))
    (input : string) : outcome string :=
  match recursion_depth with
  | O => Raise ValueError
  | S d => finish (run (build_string d kwargs) kwargs Text EmptyString input)
  end.

(** [template.format] applied to keyword arguments. *)
Definition format (template : string) (kwargs : list (string * pyval)) : outcome string :=
  build_string 2 kwargs template.

End Format.
End PyStr.

(** ** config.py *)

Module Config.

Record ChannelConfig := {
  name : string;
  channel_id : option string;
  handle : option string
}.

Record CategoryConfig := {
  channels : option (list string);
  hours_back : option Z
}.

Definition CHANNELS : list (string * ChannelConfig) :=
  [ ("CNBC",
     {| name := "CNBC";
        channel_id := Some "UCrp_UI8XtuYfpiqluWLD7Lw";
        handle := Some "@CNBCtelevision" |}) ].

Definition CATEGORIES : list (string * CategoryConfig) :=
  [ ("news", {| channels := Some ["CNBC"]; hours_back := Some 7 |});
    ("dev", {| channels := Some []; hours_back := Some 24 |}) ].

Record PlaylistConfig := {
  privacy_status : string;
  name_template : string;
  description_template : string
}.

Definition PLAYLIST_CONFIG : PlaylistConfig :=
  {| privacy_status := "unlisted";
     name_template := "{category}_{date}";
     description_template := "{category} videos from {channels} uploaded on {date}" |}.

(** [d.get(k)] on the two registries *)
Fixpoint dict_get {A : Type} (d : list (string * A)) (k : string) : option A :=
  match d with
  | [] => None
  | (k', v) :: rest => if String.eqb k' k then Some v else dict_get rest k
  end.

(** *** Calendar arithmetic of the [datetime] module *)

Definition date_eqb (a b : date) : bool :=
  (year a =? year b) && (month a =? month b) && (day a =? day b).

Definition is_leap (y : Z) : bool :=
  (y mod 4 =? 0) && (negb (y mod 100 =? 0) || (y mod 400 =? 0)).

Definition days_before_year (y : Z) : Z :=
  let p := y - 1 in p * 365 + p / 4 - p / 100 + p / 400.

Definition days_before_month (y m : Z) : Z :=
  nth (Z.to_nat (m - 1)) [0; 31; 59; 90; 120; 151; 181; 212; 243; 273; 304; 334] 0
  + (if (2 <? m) && is_leap y then 1 else 0).

(** [d.toordinal()]: day 1 is 0001-01-01 *)
Definition toordinal (d : date) : Z :=
  days_before_year (year d) + days_before_month (year d) (month d) + day d.

Definition us_per_hour : Z := 3600000000.
Definition us_per_day : Z := 86400000000.

(** [datetime.min.time()] and [datetime.max.time()], as microseconds of the day *)
Definition time_min : Z := 0.
Definition time_max : Z := us_per_day - 1.

(** [datetime.combine(d, t).replace(tzinfo=timezone.utc)] *)
Definition combine (d : date) (t : Z) : datetime := (toordinal d - 1) * us_per_day + t.

(** [datetime.max], 9999-12-31T23:59:59.999999 *)
Definition datetime_max : datetime :=
  combine {| year := 9999; month := 12; day := 31 |} time_max.

(** [timedelta(hours=h)]: the day count of a [timedelta] is limited to
    999999999 in absolute value. *)
Definition timedelta_hours (h : Z) : outcome Z :=
  if (-999999999 <=? h / 24) && (h / 24 <=? 999999999)
  then Ok (h * us_per_hour)
  else Raise OverflowError.

(** [t - delta] on a [datetime]: the result must be a representable instant. *)
Definition datetime_sub (t : datetime) (delta : Z) : outcome datetime :=
  if (0 <=? t - delta) && (t - delta <=? datetime_max)
  then Ok (t - delta)
  else Raise OverflowError.

Record DateConfig := {
  target_date : date;
  dc_hours_back : option Z
}.

(** Truthiness of [self.hours_back]: [None] and [0] are false. *)
Definition hours_back_set (h : option Z) : option Z :=
  match h with
  | Some z => if z =? 0 then None else Some z
  | None => None
  end.

(** The body of [get_date_range] once the two clock reads are made:
    [end_time] is [datetime.now(timezone.utc)], [today] is [date.today()]. *)
Definition date_range (cfg : DateConfig) (end_time : datetime) (today : date)
  : outcome (datetime * datetime) :=
  let end_time :=
    if negb (date_eqb (target_date cfg) today)
    then combine (target_date cfg) time_max
    else end_time in
  match hours_back_set (dc_hours_back cfg) with
  | Some h =>
      match timedelta_hours h with
      | Ok delta =>
          match datetime_sub end_time delta with
          | Ok start_time => Ok (start_time, end_time)
          | Raise e => Raise e
          | OutOfFuel => OutOfFuel
          end
      | Raise e => Raise e
      | OutOfFuel => OutOfFuel
      end
  | None => Ok (combine (target_date cfg) time_min, end_time)
  end.

Section WithService.
Context {W : Type} (youtube : Service W).
(** [datetime.isoformat()] of an aware UTC instant *)
Context (isoformat : datetime -> string).

Definition lift {A : Type} (o : outcome A) : M W A := fun w => (o, w).

(** [DateConfig(target_date, hours_back)] *)
Definition DateConfig_init (target_date : option date) (hours_back : option Z)
  : M W DateConfig :=
  d <- match target_date with
       | Some d => ret d
       | None => read_clock (clock_today youtube)
       end ;;
  ret {| target_date := d; dc_hours_back := hours_back |}.

Definition get_date_range (self : DateConfig) : M W (datetime * datetime) :=
  end_time <- read_clock (clock_now youtube) ;;
  today <- read_clock (clock_today youtube) ;;
  lift (date_range self end_time today).

Definition get_iso_format (self : DateConfig) : M W (string * string) :=
  range <- get_date_range self ;;
  ret (PyStr.replace "+00:00" "Z" (isoformat (fst range)),
       PyStr.replace "+00:00" "Z" (isoformat (snd range))).

End WithService.
End Config.

(** ** video_search.py *)

(** The dictionary built for each search result, before it is tagged. *)
Record VideoData := {
  vd_video_id : string;
  vd_title : string;
  vd_published_at : string;
  vd_channel_title : string;
  vd_description : string
}.

(** The same dictionary once [source_channel] has been added; this is what
    the playlist manager receives. *)
Record Video := {
  video_id : string;
  title : string;
  published_at : string;
  channel_title : string;
  description : string;
  source_channel : string
}.

Module VideoSearcher.

(** [description[:100] + '...' if len(description) > 100 else description] *)
Definition stored_description (description : string) : string :=
  if PyStr.len description >? 100
  then PyStr.slice_to 100 description ++ "..."
  else description.

Definition video_data_of (item : SearchResult) : VideoData :=
  {| vd_video_id := sr_id_videoId item;
     vd_title := sr_snippet_title item;
     vd_published_at := sr_snippet_publishedAt item;
     vd_channel_title := sr_snippet_channelTitle item;
     vd_description := stored_description (sr_snippet_description item) |}.

(** [video['source_channel'] = channel_config['name']] *)
Definition tag (source : string) (v : VideoData) : Video :=
  {| video_id := vd_video_id v;
     title := vd_title v;
     published_at := vd_published_at v;
     channel_title := vd_channel_title v;
     description := vd_description v;
     source_channel := source |}.

(** [list.sort(key=...)] is stable and compares keys with [<] only:
    an element is placed before the first later element whose key is not
    smaller than its own. *)
Fixpoint insert_by_key (x : Video) (l : list Video) : list Video :=
  match l with
  | [] => [x]
  | y :: l' =>
      if String.ltb (published_at y) (published_at x)
      then y :: insert_by_key x l'
      else x :: l
  end.

Fixpoint sort_by_published_at (l : list Video) : list Video :=
  match l with
  | [] => []
  | x :: l' => insert_by_key x (sort_by_published_at l')
  end.

Section WithService.
Context {W : Type} (youtube : Service W).

Definition get_channel_id_from_handle (handle : string) : M W (option string) :=
  try_except_HttpError
    (let clean_handle := PyStr.lstrip_at handle in
     response <- execute (SearchChannel clean_handle 1)
                   (search_channel youtube clean_handle 1) ;;
     match items response with
     | first :: _ => ret (Some (cr_snippet_channelId first))
     | [] => ret None
     end)
    (ret None).

(** The [while len(videos) < max_results] loop. *)
Fixpoint search_channel_videos_loop (fuel : nat)
    (channel_id published_after published_before : string) (max_results : Z)
    (videos : list VideoData) (next_page_token : option string)
  : M W (list VideoData) :=
  if Z.of_nat (length videos) <? max_results then
    match fuel with
    | O => out_of_fuel
    | S fuel' =>
        let n := Z.min 50 (max_results - Z.of_nat (length videos)) in
        response <-
          execute (SearchVideo channel_id published_after published_before n next_page_token)
            (search_video youtube channel_id published_after published_before n
               next_page_token) ;;
        let videos' := (videos ++ map video_data_of (items response))%list in
        let next_page_token' := nextPageToken response in
        if truthy next_page_token'
        then search_channel_videos_loop fuel' channel_id published_after published_before
               max_results videos' next_page_token'
        else ret videos'
    end
  else ret videos.

Definition search_channel_videos (fuel : nat)
    (channel_id published_after published_before : string) (max_results : Z)
  : M W (list VideoData) :=
  try_except_HttpError
    (search_channel_videos_loop fuel channel_id published_after published_before
       max_results [] None)
    (ret []).

(** The head of the loop body of [search_multiple_channels]: the id to search,
    or [None] when the iteration ends with [continue]. *)
Definition resolve_channel_id (channel_config : Config.ChannelConfig)
  : M W (option string) :=
  if truthy (Config.channel_id channel_config)
  then ret (Config.channel_id channel_config)
  else
    match Config.handle channel_config with
    | None => raise (KeyError "handle")
    | Some handle =>
        channel_id <- get_channel_id_from_handle handle ;;
        if truthy channel_id then ret channel_id else ret None
    end.

(** The [for channel_config in channel_configs] loop. *)
Fixpoint collect_channels (fuel : nat) (channel_configs : list Config.ChannelConfig)
    (published_after published_before : string) (max_results_per_channel : Z)
    (all_videos : list Video) : M W (list Video) :=
  match channel_configs with
  | [] => ret all_videos
  | channel_config :: rest =>
      resolved <- resolve_channel_id channel_config ;;
      match resolved with
      | None =>
          collect_channels fuel rest published_after published_before
            max_results_per_channel all_videos
      | Some channel_id =>
          videos <- search_channel_videos fuel channel_id published_after
                      published_before max_results_per_channel ;;
          collect_channels fuel rest published_after published_before
            max_results_per_channel
            (all_videos ++ map (tag (Config.name channel_config)) videos)%list
      end
  end.

Definition search_multiple_channels (fuel : nat)
    (channel_configs : list Config.ChannelConfig)
    (published_after published_before : string) (max_results_per_channel : Z)
  : M W (list Video) :=
  all_videos <- collect_channels fuel channel_configs published_after published_before
                  max_results_per_channel [] ;;
  ret (sort_by_published_at all_videos).

End WithService.
End VideoSearcher.

(** ** playlist_manager.py *)

Module PlaylistManager.

Definition _get_playlist_url (playlist_id : string) : string :=
  "https://www.youtube.com/playlist?list=" ++ playlist_id.

(** [for item in response['items']: if item['snippet']['title'] == title:
    return id, url], then [return None, None]. *)
Fixpoint first_with_title (title : string) (l : list PlaylistResource)
  : option string * option string :=
  match l with
  | [] => (None, None)
  | item :: rest =>
      if String.eqb (pl_snippet_title item) title
      then (Some (pl_id item), Some (_get_playlist_url (pl_id item)))
      else first_with_title title rest
  end.

(** [for item in response['items']: video_ids.add(item[...]['videoId'])] *)
Definition add_all (video_ids : gset string) (l : list PlaylistItemResource)
  : gset string :=
  fold_left (fun s item => s ∪ {[ pi_contentDetails_videoId item ]}) l video_ids.

Definition nl : string := String (ascii_of_nat 10) EmptyString.

Section WithService.
Context {W : Type} (youtube : Service W).
(** [d.strftime(fmt)], [str(n)] and the rendering of decorated fields are
    the Python runtime's. *)
Context (strftime : string -> date -> string).
Context (str_of_int : Z -> string).
Context (render_extended :
           PyStr.pyval -> string -> option ascii ->
           PyStr.result (option string -> PyStr.result string)).

Definition find_existing_playlist (title : string)
  : M W (option string * option string) :=
  try_except_HttpError
    (response <- execute (PlaylistsList 50) (playlists_list youtube 50) ;;
     ret (first_with_title title (items response)))
    (ret (None, None)).

(** The [while True] loop of [get_playlist_video_ids]. *)
Fixpoint get_playlist_video_ids_loop (fuel : nat) (playlist_id : string)
    (video_ids : gset string) (next_page_token : option string)
  : M W (gset string) :=
  match fuel with
  | O => out_of_fuel
  | S fuel' =>
      response <- execute (PlaylistItemsList playlist_id 50 next_page_token)
                    (playlistItems_list youtube playlist_id 50 next_page_token) ;;
      let video_ids' := add_all video_ids (items response) in
      let next_page_token' := nextPageToken response in
      if truthy next_page_token'
      then get_playlist_video_ids_loop fuel' playlist_id video_ids' next_page_token'
      else ret video_ids'
  end.

Definition get_playlist_video_ids (fuel : nat) (playlist_id : string)
  : M W (gset string) :=
  try_except_HttpError
    (get_playlist_video_ids_loop fuel playlist_id ∅ None)
    (ret ∅).

Definition create_playlist (title description privacy_status : string)
  : M W (option string * option string) :=
  try_except_HttpError
    (playlist_id <- execute (PlaylistsInsert title description privacy_status)
                      (playlists_insert youtube title description privacy_status) ;;
     ret (Some playlist_id, Some (_get_playlist_url playlist_id)))
    (ret (None, None)).

Definition get_or_create_playlist (title description privacy_status : string)
  : M W (option string * option string * bool) :=
  found <- find_existing_playlist title ;;
  if truthy (fst found)
  then ret (fst found, snd found, true)
  else
    created <- create_playlist title description privacy_status ;;
    ret (fst created, snd created, false).

Definition add_video_to_playlist (playlist_id video_id : string) : M W bool :=
  try_except_HttpError
    (_ <- execute (PlaylistItemsInsert playlist_id video_id)
            (playlistItems_insert youtube playlist_id video_id) ;;
     ret true)
    (ret false).

Record Counters := {
  successful_adds : Z;
  failed_adds : Z;
  skipped_duplicates : Z
}.

(** The [for video in videos] loop, threading the three counters. *)
Fixpoint add_videos_loop (playlist_id : string) (skip_duplicates : bool)
    (existing_video_ids : gset string) (videos : list Video) (n : Counters)
  : M W Counters :=
  match videos with
  | [] => ret n
  | video :: rest =>
      if skip_duplicates && bool_decide (video_id video ∈ existing_video_ids)
      then
        add_videos_loop playlist_id skip_duplicates existing_video_ids rest
          {| successful_adds := successful_adds n;
             failed_adds := failed_adds n;
             skipped_duplicates := skipped_duplicates n + 1 |}
      else
        added <- add_video_to_playlist playlist_id (video_id video) ;;
        if (added : bool)
        then
          add_videos_loop playlist_id skip_duplicates existing_video_ids rest
            {| successful_adds := successful_adds n + 1;
               failed_adds := failed_adds n;
               skipped_duplicates := skipped_duplicates n |}
        else
          add_videos_loop playlist_id skip_duplicates existing_video_ids rest
            {| successful_adds := successful_adds n;
               failed_adds := failed_adds n + 1;
               skipped_duplicates := skipped_duplicates n |}
  end.

(** Returns [(successful_adds, failed_adds, skipped_duplicates)]. *)
Definition add_videos_to_playlist (fuel : nat) (playlist_id : string)
    (videos : list Video) (skip_duplicates : bool) : M W Counters :=
  existing_video_ids <-
    (if skip_duplicates
     then get_playlist_video_ids fuel playlist_id
     else ret ∅) ;;
  add_videos_loop playlist_id skip_duplicates existing_video_ids videos
    {| successful_adds := 0; failed_adds := 0; skipped_duplicates := 0 |}.

Definition title_kwargs (category : string) (channels : list Config.ChannelConfig)
    (target_date : date) : list (string * PyStr.pyval) :=
  [ ("category", PyStr.VStr category);
    ("date", PyStr.VStr (strftime "%Y%m%d" target_date));
    ("channels", PyStr.VStr (PyStr.join ", " (map Config.name channels))) ].

Definition generate_playlist_title (category : string)
    (channels : list Config.ChannelConfig) (target_date : date) (template : string)
  : outcome string :=
  PyStr.format str_of_int render_extended template
    (title_kwargs category channels target_date).

Definition description_kwargs (category : string) (channels : list Config.ChannelConfig)
    (target_date : date) (video_count : Z) : list (string * PyStr.pyval) :=
  [ ("category", PyStr.VStr category);
    ("date", PyStr.VStr (strftime "%Y-%m-%d" target_date));
    ("channels", PyStr.VStr (PyStr.join ", " (map Config.name channels)));
    ("count", PyStr.VInt video_count) ].

Definition generate_playlist_description (category : string)
    (channels : list Config.ChannelConfig) (target_date : date) (video_count : Z)
    (template : string) : M W string :=
  description <-
    Config.lift (PyStr.format str_of_int render_extended template
                   (description_kwargs category channels target_date video_count)) ;;
  let description :=
    description ++ nl ++ nl ++ "Total videos: " ++ str_of_int video_count in
  today <- read_clock (clock_today youtube) ;;
  ret (description ++ nl ++ "Generated automatically on " ++ strftime "%Y-%m-%d" today).

End WithService.
End PlaylistManager.

(** ** main.py *)

Module Main.
Section WithService.
Context {W : Type} (youtube : Service W).
Context (strftime : string -> date -> string).
Context (str_of_int : Z -> string).
Context (render_extended :
           PyStr.pyval -> string -> option ascii ->
           PyStr.result (option string -> PyStr.result string)).
Context (isoformat : datetime -> string).
(** [datetime.strptime(s, '%Y-%m-%d').date()]; [None] stands for [ValueError]. *)
Context (strptime_date : string -> option date).
(** [auth.get_authenticated_service()]: credential handling lies outside
    this development; whatever it does, it yields the client or raises. *)
Context (get_authenticated_service : M W unit).

(** [sys.exit(code)] *)
Definition sys_exit {A : Type} (code : Z) : M W A := raise (SystemExit code).

(** [try: c  except Exception as e: h]; [SystemExit] is not an [Exception]. *)
Definition try_except_Exception {A : Type} (c : M W A) (h : exn -> M W A) : M W A :=
  fun w =>
    match c w with
    | (Raise (SystemExit code), w') => (Raise (SystemExit code), w')
    | (Raise e, w') => h e w'
    | r => r
    end.

(** [print(...)] of one of the lines of [main]. *)
Definition print (l : line) : M W unit :=
  fun w =>
    match stdout_write youtube l (remote w) with
    | Response _ => (Ok tt, w)
    | Failure => (Raise UnicodeEncodeError, w)
    end.

(** [webbrowser.open(url)] *)
Definition open_browser (url : option string) : M W unit :=
  fun w =>
    match webbrowser_open youtube url (remote w) with
    | Response _ => (Ok tt, w)
    | Failure => (Raise WebbrowserError, w)
    end.

(** [[CHANNELS[name] for name in names if name in CHANNELS]] *)
Fixpoint known_channels (names : list string) : list Config.ChannelConfig :=
  match names with
  | [] => []
  | n :: rest =>
      match Config.dict_get Config.CHANNELS n with
      | Some c => c :: known_channels rest
      | None => known_channels rest
      end
  end.

(** Lines 135 to 205 of [main]: name the playlist, resolve it, fill it,
    report. *)
Definition publish (fuel : nat) (category : string)
    (channel_configs : list Config.ChannelConfig) (target_date : date)
    (videos : list Video) : M W unit :=
  title <- Config.lift
             (PlaylistManager.generate_playlist_title strftime str_of_int render_extended
                category channel_configs target_date
                (Config.name_template Config.PLAYLIST_CONFIG)) ;;
  description <-
    PlaylistManager.generate_playlist_description youtube strftime str_of_int
      render_extended category channel_configs target_date (Z.of_nat (length videos))
      (Config.description_template Config.PLAYLIST_CONFIG) ;;
  resolved <-
    PlaylistManager.get_or_create_playlist youtube title description
      (Config.privacy_status Config.PLAYLIST_CONFIG) ;;
  let playlist_url := snd (fst resolved) in
  match fst (fst resolved) with
  | Some playlist_id =>
      if String.eqb playlist_id ""
      then print FailedToCreateOrFind
      else
        n <- PlaylistManager.add_videos_to_playlist youtube fuel playlist_id videos true ;;
        _ <- (if 0 <? PlaylistManager.successful_adds n
              then print (AddedNewVideos (PlaylistManager.successful_adds n))
              else if 0 <? PlaylistManager.skipped_duplicates n
                   then print (NoNewVideosFound (PlaylistManager.skipped_duplicates n))
                   else print NoVideosAdded) ;;
        _ <- print (PlaylistLink playlist_url) ;;
        try_except_Exception
          (_ <- open_browser playlist_url ;; print OpeningBrowser)
          (fun _ => ret tt)
  | None => print FailedToCreateOrFind
  end.

(** The body of the [try] block of [main]. *)
Definition main_body (fuel : nat) (args_category : string) (args_date : option string)
  : M W unit :=
  today <- read_clock (clock_today youtube) ;;
  target_date <-
    match args_date with
    | Some s =>
        if String.eqb s "" then ret today
        else match strptime_date s with
             | Some d => ret d
             | None => sys_exit 1
             end
    | None => ret today
    end ;;
  match Config.dict_get Config.CATEGORIES args_category with
  | None => sys_exit 1
  | Some category_config =>
      let category_channel_names :=
        match Config.channels category_config with
        | Some l => l
        | None => []
        end in
      let hours_back := Config.hours_back category_config in
      match category_channel_names with
      | [] => sys_exit 1
      | _ :: _ =>
          let channel_configs := known_channels category_channel_names in
          match channel_configs with
          | [] => sys_exit 1
          | _ :: _ =>
              date_config <- Config.DateConfig_init youtube (Some target_date) hours_back ;;
              iso <- Config.get_iso_format youtube isoformat date_config ;;
              _ <- get_authenticated_service ;;
              videos <- VideoSearcher.search_multiple_channels youtube fuel channel_configs
                          (fst iso) (snd iso) 50 ;;
              match videos with
              | [] => print NoVideosFound
              | _ :: _ => publish fuel args_category channel_configs target_date videos
              end
          end
      end
  end.

(** [main]: the [try] block and its handler, which reports the error and
    exits with status 1. *)
Definition main (fuel : nat) (args_category : string) (args_date : option string)
  : M W unit :=
  try_except_Exception (main_body fuel args_category args_date)
    (fun e => _ <- print (ErrorLine e) ;; sys_exit 1).

(** The status with which the interpreter leaves after [main()]. *)
Definition exit_status (r : outcome unit) : option Z :=
  match r with
  | Ok _ => Some 0
  | Raise (SystemExit code) => Some code
  | Raise _ => Some 1
  | OutOfFuel => None
  end.

End WithService.
End Main.

(** ** An in-memory platform

    A concrete environment on which the program can be run: playlists and
    their members are lists, search results are served from a table, a page
    token is the offset of the next item written in unary, and [rejects] says
    which requests the platform answers with an error. *)

Module Platform.

Record state := {
  playlists : list PlaylistResource;
  members : list (string * string);
  uploads : list (string * list SearchResult);
  handles : list (string * string);
  rejects : call -> bool;
  now : datetime;
  today : date
}.

Definition offset_of (tok : option string) : nat :=
  match tok with
  | Some t => String.length t
  | None => 0%nat
  end.

Fixpoint unary (n : nat) : string :=
  match n with
  | O => EmptyString
  | S k => String "p"%char (unary k)
  end.

Definition page_of {A : Type} (l : list A) (maxResults : Z) (tok : option string)
  : Page A :=
  let rest := skipn (offset_of tok) l in
  let n := Z.to_nat maxResults in
  {| items := firstn n rest;
     nextPageToken :=
       if (n <? length rest)%nat then Some (unary (offset_of tok + n)) else None |}.

Definition answer {A : Type} (rq : call) (a : A) (s s' : state) : reply A * state :=
  if rejects s rq then (Failure, s) else (Response a, s').

Definition members_of (playlistId : string) (s : state) : list PlaylistItemResource :=
  map (fun m => {| pi_contentDetails_videoId := snd m |})
    (List.filter (fun m => String.eqb (fst m) playlistId) (members s)).

Definition with_members (s : state) (m : list (string * string)) : state :=
  {| playlists := playlists s; members := m; uploads := uploads s;
     handles := handles s; rejects := rejects s; now := now s; today := today s |}.

Definition with_playlists (s : state) (p : list PlaylistResource) : state :=
  {| playlists := p; members := members s; uploads := uploads s;
     handles := handles s; rejects := rejects s; now := now s; today := today s |}.

Definition service : Service state :=
  {| playlists_list := fun n s =>
       answer (PlaylistsList n) (page_of (playlists s) n None) s s;
     playlists_insert := fun t d p s =>
       answer (PlaylistsInsert t d p) ("PL-" ++ t)
         s (with_playlists s (playlists s ++ [{| pl_id := "PL-" ++ t; pl_snippet_title := t |}]));
     playlistItems_list := fun pid n tok s =>
       answer (PlaylistItemsList pid n tok) (page_of (members_of pid s) n tok) s s;
     playlistItems_insert := fun pid vid s =>
       answer (PlaylistItemsInsert pid vid) tt s (with_members s (members s ++ [(pid, vid)]));
     search_channel := fun q n s =>
       answer (SearchChannel q n)
         (page_of (match Config.dict_get (handles s) q with
                   | Some cid => [{| cr_snippet_channelId := cid |}]
                   | None => []
                   end) n None) s s;
     search_video := fun cid a b n tok s =>
       answer (SearchVideo cid a b n tok)
         (page_of (match Config.dict_get (uploads s) cid with
                   | Some l => l
                   | None => []
                   end) n tok) s s;
     clock_now := fun s => (now s, s);
     clock_today := fun s => (today s, s);
     stdout_write := fun _ _ => Response tt;
     webbrowser_open := fun _ _ => Response tt |}.

(** The same platform, except that it answers a video search with all the
    uploads of the channel in one page, whatever [maxResults] asks for. *)
Definition unbounded_service : Service state :=
  {| playlists_list := playlists_list service;
     playlists_insert := playlists_insert service;
     playlistItems_list := playlistItems_list service;
     playlistItems_insert := playlistItems_insert service;
     search_channel := search_channel service;
     search_video := fun cid a b n tok s =>
       answer (SearchVideo cid a b n tok)
         {| items := match Config.dict_get (uploads s) cid with
                     | Some l => l
                     | None => []
                     end;
            nextPageToken := None |} s s;
     clock_now := clock_now service;
     clock_today := clock_today service;
     stdout_write := stdout_write service;
     webbrowser_open := webbrowser_open service |}.


Definition digit (n : Z) : string :=
  String (ascii_of_nat (48 + Z.to_nat (n mod 10))) EmptyString.

Definition pad2 (n : Z) : string := digit (n / 10) ++ digit n.

Definition pad4 (n : Z) : string := digit (n / 1000) ++ digit (n / 100) ++ pad2 n.

(** The two formats the program uses, for four-digit years. *)
Definition strftime (fmt : string) (d : date) : string :=
  if String.eqb fmt "%Y%m%d" then pad4 (year d) ++ pad2 (month d) ++ pad2 (day d)
  else if String.eqb fmt "%Y-%m-%d"
       then pad4 (year d) ++ "-" ++ pad2 (month d) ++ "-" ++ pad2 (day d)
       else fmt.

Fixpoint digits (fuel : nat) (n : Z) (acc : string) : string :=
  match fuel with
  | O => acc
  | S k => if n <? 10 then digit n ++ acc else digits k (n / 10) (digit n ++ acc)
  end.

Definition str_of_int (n : Z) : string :=
  if n <? 0 then "-" ++ digits (S (Z.to_nat (Z.log2 (- n)))) (- n) EmptyString
  else digits (S (Z.to_nat (Z.log2 n))) n EmptyString.

(** A stand-in for the runtime: it renders a text without path, with no
    conversion or with [!s], and with an empty format spec. *)
Definition render_extended (v : PyStr.pyval) (path : string) (conversion : option ascii)
  : PyStr.result (option string -> PyStr.result string) :=
  match v, path, conversion with
  | PyStr.VStr s, EmptyString, (None | Some "s"%char) =>
      PyStr.Returns (fun spec =>
        match spec with
        | None | Some EmptyString => PyStr.Returns s
        | Some _ => PyStr.Raises ValueError
        end)
  | _, _, _ => PyStr.Raises ValueError
  end.

(** A stand-in for [isoformat]: the instant in microseconds, followed by the
    UTC offset. *)
Definition isoformat (t : datetime) : string := str_of_int t ++ "+00:00".

Definition strptime_date (s : string) : option date :=
  if String.eqb s "2024-05-01" then Some {| year := 2024; month := 5; day := 1 |}
  else None.

Definition start (s : state) : world state := {| remote := s; trace := [] |}.

Definition video (id published : string) : Video :=
  {| video_id := id; title := "t-" ++ id; published_at := published;
     channel_title := "CNBC Television"; description := ""; source_channel := "CNBC" |}.

Definition result (id published description : string) : SearchResult :=
  {| sr_id_videoId := id; sr_snippet_title := "t-" ++ id;
     sr_snippet_publishedAt := published; sr_snippet_channelTitle := "CNBC Television";
     sr_snippet_description := description |}.

Definition empty : state :=
  {| playlists := []; members := []; uploads := []; handles := [];
     rejects := fun _ => false; now := 0;
     today := {| year := 2024; month := 5; day := 1 |} |}.

End Platform.

(** ** Vocabulary of the statements *)

(** The sum of the three counters. *)
Definition total (n : PlaylistManager.Counters) : Z :=
  PlaylistManager.successful_adds n + PlaylistManager.failed_adds n
  + PlaylistManager.skipped_duplicates n.

(** One insert request per video, in the order of the list. *)
Definition insert_requests (playlist_id : string) (videos : list Video) : list call :=
  map (fun v => PlaylistItemsInsert playlist_id (video_id v)) videos.

(** ** Runs on the in-memory platform *)

Module Runs.

Definition three_videos : list Video :=
  [ Platform.video "a" "2024-05-01T01:00:00Z";
    Platform.video "b" "2024-05-01T02:00:00Z";
    Platform.video "c" "2024-05-01T03:00:00Z" ].

(** A playlist that already holds [a], on a platform that refuses to
    insert [c]. *)
Definition holds_a_refuses_c : Platform.state :=
  {| Platform.playlists := [];
     Platform.members := [("PL", "a")];
     Platform.uploads := [];
     Platform.handles := [];
     Platform.rejects := fun rq =>
       match rq with
       | PlaylistItemsInsert _ v => String.eqb v "c"
       | _ => false
       end;
     Platform.now := 0;
     Platform.today := {| year := 2024; month := 5; day := 1 |} |}.

(** The world left by a first sync of [three_videos] into an empty playlist. *)
Definition after_first_sync : world Platform.state :=
  snd (PlaylistManager.add_videos_to_playlist Platform.service 1 "PL" three_videos true
         (Platform.start Platform.empty)).

(** A playlist that already holds [a], on a platform whose membership
    listing fails. *)
Definition holds_a_listing_fails : Platform.state :=
  {| Platform.playlists := [];
     Platform.members := [("PL", "a")];
     Platform.uploads := [];
     Platform.handles := [];
     Platform.rejects := fun rq =>
       match rq with
       | PlaylistItemsList _ _ _ => true
       | _ => false
       end;
     Platform.now := 0;
     Platform.today := {| year := 2024; month := 5; day := 1 |} |}.

(** A channel with 130 uploads. *)
Definition busy_channel : Platform.state :=
  {| Platform.playlists := [];
     Platform.members := [];
     Platform.uploads :=
       [("UC-busy",
         map (fun i => Platform.result (Platform.unary i) "2024-05-01T00:00:00Z" "")
           (seq 0 130))];
     Platform.handles := [];
     Platform.rejects := fun _ => false;
     Platform.now := 0;
     Platform.today := {| year := 2024; month := 5; day := 1 |} |}.

(** Four descriptors: one resolved by id, one by handle, one whose handle is
    unknown to the platform, one whose video search the platform refuses. *)
Definition first_channel : Config.ChannelConfig :=
  {| Config.name := "First"; Config.channel_id := Some "UC-a"; Config.handle := None |}.

Definition second_channel : Config.ChannelConfig :=
  {| Config.name := "Second"; Config.channel_id := None;
     Config.handle := Some "@second" |}.

Definition ghost_channel : Config.ChannelConfig :=
  {| Config.name := "Ghost"; Config.channel_id := None; Config.handle := Some "@ghost" |}.

Definition down_channel : Config.ChannelConfig :=
  {| Config.name := "Down"; Config.channel_id := Some "UC-down"; Config.handle := None |}.

Definition two_channels : Platform.state :=
  {| Platform.playlists := [];
     Platform.members := [];
     Platform.uploads :=
       [("UC-a", [Platform.result "a1" "2024-05-01T02:00:00Z" "";
                  Platform.result "a2" "2024-05-01T01:00:00Z" ""]);
        ("UC-b", [Platform.result "b1" "2024-05-01T01:00:00Z" "";
                  Platform.result "b2" "2024-05-01T02:00:00Z" ""]);
        ("UC-down", [Platform.result "d1" "2024-05-01T00:00:00Z" ""])];
     Platform.handles := [("second", "UC-b")];
     Platform.rejects := fun rq =>
       match rq with
       | SearchVideo cid _ _ _ _ => String.eqb cid "UC-down"
       | _ => false
       end;
     Platform.now := 0;
     Platform.today := {| year := 2024; month := 5; day := 1 |} |}.

Definition tagged (source id published : string) : Video :=
  {| video_id := id; title := "t-" ++ id; published_at := published;
     channel_title := "CNBC Television"; description := ""; source_channel := source |}.

Definition may_first : date := {| year := 2024; month := 5; day := 1 |}.

(** 2024-05-01T12:00:00Z *)
Definition may_first_noon : datetime := Config.combine may_first (12 * Config.us_per_hour).

(** A quiet platform, at noon (UTC) of the first of May. *)
Definition at_noon : Platform.state :=
  {| Platform.playlists := [];
     Platform.members := [];
     Platform.uploads := [];
     Platform.handles := [];
     Platform.rejects := fun _ => false;
     Platform.now := may_first_noon;
     Platform.today := may_first |}.

(** The same platform a day later. *)
Definition a_day_later : Platform.state :=
  {| Platform.playlists := [];
     Platform.members := [];
     Platform.uploads := [];
     Platform.handles := [];
     Platform.rejects := fun _ => false;
     Platform.now := may_first_noon + Config.us_per_day;
     Platform.today := {| year := 2024; month := 5; day := 2 |} |}.

Definition cnbc : list Config.ChannelConfig :=
  [ {| Config.name := "CNBC";
       Config.channel_id := Some "UCrp_UI8XtuYfpiqluWLD7Lw";
       Config.handle := Some "@CNBCtelevision" |} ].

Definition cnbc_uploads : list (string * list SearchResult) :=
  [("UCrp_UI8XtuYfpiqluWLD7Lw",
    [Platform.result "v1" "2024-05-01T06:00:00Z" "";
     Platform.result "v2" "2024-05-01T07:00:00Z" ""])].

(** A platform on which the playlist cannot be created. *)
Definition creation_refused : Platform.state :=
  {| Platform.playlists := [];
     Platform.members := [];
     Platform.uploads := cnbc_uploads;
     Platform.handles := [];
     Platform.rejects := fun rq =>
       match rq with
       | PlaylistsInsert _ _ _ => true
       | _ => false
       end;
     Platform.now := may_first_noon;
     Platform.today := may_first |}.

(** A platform on which the playlists cannot be listed. *)
Definition lookup_refused : Platform.state :=
  {| Platform.playlists := [];
     Platform.members := [];
     Platform.uploads := cnbc_uploads;
     Platform.handles := [];
     Platform.rejects := fun rq =>
       match rq with
       | PlaylistsList _ => true
       | _ => false
       end;
     Platform.now := may_first_noon;
     Platform.today := may_first |}.

Definition found_videos : list Video :=
  [ tagged "CNBC" "v1" "2024-05-01T06:00:00Z"; tagged "CNBC" "v2" "2024-05-01T07:00:00Z" ].

(** The text that [main] gives to a playlist of two videos on that day. *)
Definition description_of_two : string :=
  ("news videos from CNBC uploaded on 2024-05-01" ++ PlaylistManager.nl
   ++ PlaylistManager.nl ++ "Total videos: 2" ++ PlaylistManager.nl
   ++ "Generated automatically on 2024-05-01")%string.

(** Three playlists whose titles differ by case or not at all. *)
Definition three_playlists : Platform.state :=
  {| Platform.playlists :=
       [ {| pl_id := "PL1"; pl_snippet_title := "News" |};
         {| pl_id := "PL2"; pl_snippet_title := "news" |};
         {| pl_id := "PL3"; pl_snippet_title := "news" |} ];
     Platform.members := [];
     Platform.uploads := [];
     Platform.handles := [];
     Platform.rejects := fun _ => false;
     Platform.now := 0;
     Platform.today := {| year := 2024; month := 5; day := 1 |} |}.

(** An input in which [b] comes twice, around [a]. *)
Definition b_a_b : list Video :=
  [ Platform.video "b" "2024-05-01T02:00:00Z";
    Platform.video "a" "2024-05-01T01:00:00Z";
    Platform.video "b" "2024-05-01T02:00:00Z" ].

(** A playlist that holds [a], on a platform that refuses nothing. *)
Definition holds_a : Platform.state :=
  {| Platform.playlists := [];
     Platform.members := [("PL", "a")];
     Platform.uploads := [];
     Platform.handles := [];
     Platform.rejects := fun _ => false;
     Platform.now := 0;
     Platform.today := {| year := 2024; month := 5; day := 1 |} |}.

(** A playlist of 120 members. *)
Definition long_playlist : Platform.state :=
  {| Platform.playlists := [];
     Platform.members := map (fun i => ("PL", Platform.unary i)) (seq 0 120);
     Platform.uploads := [];
     Platform.handles := [];
     Platform.rejects := fun _ => false;
     Platform.now := 0;
     Platform.today := {| year := 2024; month := 5; day := 1 |} |}.

(** A descriptor with neither an id nor a handle. *)
Definition bare_channel : Config.ChannelConfig :=
  {| Config.name := "Bare"; Config.channel_id := None; Config.handle := None |}.

(** The quiet platform a week later. *)
Definition a_week_later : Platform.state :=
  {| Platform.playlists := [];
     Platform.members := [];
     Platform.uploads := [];
     Platform.handles := [];
     Platform.rejects := fun _ => false;
     Platform.now := may_first_noon + 7 * Config.us_per_day;
     Platform.today := {| year := 2024; month := 5; day := 8 |} |}.

End Runs.

(** *** The search, as the specification words it

    What one channel contributes, and the list of the contributions of all
    channels in iteration order. *)

Module SearchSpec.
Section WithService.
Context {W : Type} (youtube : Service W).

Definition channel_results (fuel : nat) (channel_config : Config.ChannelConfig)
    (published_after published_before : string) (max_results_per_channel : Z)
  : M W (list Video) :=
  resolved <- VideoSearcher.resolve_channel_id youtube channel_config ;;
  match resolved with
  | None => ret []
  | Some channel_id =>
      videos <- VideoSearcher.search_channel_videos youtube fuel channel_id
                  published_after published_before max_results_per_channel ;;
      ret (map (VideoSearcher.tag (Config.name channel_config)) videos)
  end.

Fixpoint each_channel (fuel : nat) (channel_configs : list Config.ChannelConfig)
    (published_after published_before : string) (max_results_per_channel : Z)
  : M W (list (list Video)) :=
  match channel_configs with
  | [] => ret []
  | channel_config :: rest =>
      r <- channel_results fuel channel_config published_after published_before
             max_results_per_channel ;;
      rs <- each_channel fuel rest published_after published_before
              max_results_per_channel ;;
      ret (r :: rs)
  end.

End WithService.

(** Order of the sort keys: Python's [<=] on [str]. *)
Definition key_le (a b : Video) : Prop :=
  String.leb (published_at a) (published_at b) = true.

Definition has_key (k : string) (v : Video) : bool := String.eqb (published_at v) k.

End SearchSpec.

(** *** Paging, as the specification words it

    [paging videos tok s rqs r s'] describes the run of the page loop that
    starts with [videos] accumulated records and the page token [tok] on a
    platform in state [s]: [rqs] are the requests issued, in order, [r] is
    the accumulated list at the end, or [None] when a request was answered
    with an error, and [s'] is the state in which the platform is left.  No
    request is issued once [max_results] records are there; otherwise the
    next request asks for [min(50, max_results - len(videos))] items, what
    the platform answers to it is accumulated, and the run goes on, with the
    token of that answer, only when the answer carries a next-page token. *)

Module PagingSpec.
Section Paging.
Context {W : Type} (youtube : Service W).
Context (channel_id published_after published_before : string) (max_results : Z).

Definition page_request (videos : list VideoData) (tok : option string) : call :=
  SearchVideo channel_id published_after published_before
    (Z.min 50 (max_results - Z.of_nat (length videos))) tok.

(** What the platform, in state [s], answers to that request. *)
Definition page_reply (videos : list VideoData) (tok : option string) (s : W)
  : reply (Page SearchResult) * W :=
  search_video youtube channel_id published_after published_before
    (Z.min 50 (max_results - Z.of_nat (length videos))) tok s.

Definition accumulate (videos : list VideoData) (page : Page SearchResult)
  : list VideoData :=
  (videos ++ map VideoSearcher.video_data_of (items page))%list.

Inductive paging : list VideoData -> option string -> W -> list call ->
                   option (list VideoData) -> W -> Prop :=
| paging_bound_reached (videos : list VideoData) (tok : option string) (s : W) :
    max_results <= Z.of_nat (length videos) ->
    paging videos tok s [] (Some videos) s
| paging_error (videos : list VideoData) (tok : option string) (s s' : W) :
    Z.of_nat (length videos) < max_results ->
    page_reply videos tok s = (Failure, s') ->
    paging videos tok s [page_request videos tok] None s'
| paging_no_token (videos : list VideoData) (tok : option string) (s s' : W)
    (page : Page SearchResult) :
    Z.of_nat (length videos) < max_results ->
    page_reply videos tok s = (Response page, s') ->
    truthy (nextPageToken page) = false ->
    paging videos tok s [page_request videos tok] (Some (accumulate videos page)) s'
| paging_next (videos : list VideoData) (tok : option string) (s s' s'' : W)
    (page : Page SearchResult) (rqs : list call) (r : option (list VideoData)) :
    Z.of_nat (length videos) < max_results ->
    page_reply videos tok s = (Response page, s') ->
    truthy (nextPageToken page) = true ->
    paging (accumulate videos page) (nextPageToken page) s' rqs r s'' ->
    paging videos tok s (page_request videos tok :: rqs) r s''.

End Paging.

(** The platform answers a video search for [maxResults >= 1] items with at
    most that many. *)
Definition honours_maxResults {W : Type} (youtube : Service W) : Prop :=
  forall (cid a b : string) (n : Z) (tok : option string) (s s' : W)
         (page : Page SearchResult),
    1 <= n ->
    search_video youtube cid a b n tok s = (Response page, s') ->
    Z.of_nat (length (items page)) <= n.

(** A page that announces a further page is not empty. *)
Definition pages_make_progress {W : Type} (youtube : Service W) : Prop :=
  forall (cid a b : string) (n : Z) (tok : option string) (s s' : W)
         (page : Page SearchResult),
    1 <= n ->
    search_video youtube cid a b n tok s = (Response page, s') ->
    truthy (nextPageToken page) = true ->
    items page <> [].

End PagingSpec.

(** A descriptor names its channel by id or carries a handle. *)
Definition resolvable (c : Config.ChannelConfig) : Prop :=
  truthy (Config.channel_id c) = true \/ Config.handle c <> None.

(** A handle lookup that does not lead to a channel id: the request fails,
    finds nothing, or finds an entry with an empty id. *)
Definition lookup_fails (r : reply (Page ChannelResult)) : Prop :=
  match r with
  | Failure => True
  | Response page =>
      match items page with
      | [] => True
      | first :: _ => cr_snippet_channelId first = EmptyString
      end
  end.

(** The attempt on one channel fails and takes the world from [w1] to [w2]:
    the descriptor has no usable id and the lookup of its handle does not
    lead to one, or the video search of the channel is answered with an
    error (on whichever page). *)
Definition channel_fails {W : Type} (youtube : Service W) (fuel : nat)
    (published_after published_before : string) (max_results : Z)
    (c : Config.ChannelConfig) (w1 w2 : world W) : Prop :=
  (truthy (Config.channel_id c) = false
   /\ exists (h : string) (r : reply (Page ChannelResult)) (s' : W),
        Config.handle c = Some h
        /\ search_channel youtube (PyStr.lstrip_at h) 1 (remote w1) = (r, s')
        /\ lookup_fails r
        /\ w2 = {| remote := s';
                   trace := (trace w1 ++ [SearchChannel (PyStr.lstrip_at h) 1])%list |})
  \/ (exists (cid : string) (wr : world W),
        VideoSearcher.resolve_channel_id youtube c w1 = (Ok (Some cid), wr)
        /\ VideoSearcher.search_channel_videos_loop youtube fuel cid published_after
             published_before max_results [] None wr = (Raise HttpError, w2)).

(** The end of the window: the current instant when the target date is
    today, the last microsecond of the target date otherwise. *)
Definition window_end (cfg : Config.DateConfig) (now : datetime) (today : date)
  : datetime :=
  if Config.date_eqb (Config.target_date cfg) today
  then now
  else Config.combine (Config.target_date cfg) Config.time_max.

(** A placeholder name without any of the characters that structure a
    replacement field. *)
Definition plain_char (c : ascii) : bool :=
  negb (Ascii.eqb c "{"%char || Ascii.eqb c "}"%char || Ascii.eqb c "["%char
        || Ascii.eqb c ":"%char || Ascii.eqb c "!"%char || Ascii.eqb c "."%char).

Fixpoint plain_name (s : string) : bool :=
  match s with
  | EmptyString => true
  | String c rest => plain_char c && plain_name rest
  end.

(** A character that ends the argument name of a replacement field: the
    closing brace, or the start of a conversion, of a format spec, of an
    attribute or of an index. *)
Definition ends_arg_name (c : ascii) : bool :=
  Ascii.eqb c "}"%char || Ascii.eqb c "!"%char || Ascii.eqb c ":"%char
  || Ascii.eqb c "."%char || Ascii.eqb c "["%char.

(** The scanner is in literal text, where a brace opens a replacement field
    or an escape, or it has failed already. *)
Definition literal_position (r : outcome (PyStr.fstate * string)) : Prop :=
  match r with
  | Ok (PyStr.Text, _) | Raise _ => True
  | _ => False
  end.

(** No keyword argument answers to the name: it is not among the keywords,
    or it is empty or numeric and indexes the empty positional tuple. *)
Definition unknown_arg (kwargs : list (string * PyStr.pyval)) (a : string) : Prop :=
  PyStr.all_digits a = true \/ PyStr.lookup_kw kwargs a = None.

(** The scanner is inside a replacement field whose argument name is
    complete and answers to no argument. *)
Definition doomed (kwargs : list (string * PyStr.pyval)) (st : PyStr.fstate) : Prop :=
  match st with
  | PyStr.FieldName n | PyStr.Bracket n =>
      PyStr.arg_name n <> n /\ unknown_arg kwargs (PyStr.arg_name n)
  | PyStr.Conv n | PyStr.ConvDone n _ | PyStr.Spec n _ _ _ =>
      unknown_arg kwargs (PyStr.arg_name n)
  | _ => False
  end.

(** The template has a replacement field with the argument name [name]:
    it reads [pre {name c ...], where [c] ends the argument name, and the
    brace opens a field.  Either the scanner of the template is in literal
    text after [pre]; or it is in the format spec of a field, and the
    scanner of that spec, which [str.format] formats in turn, is in literal
    text after the part [spec] of the spec that [pre] holds. *)
Definition has_placeholder (str_of_int : Z -> string)
    (render_extended :
       PyStr.pyval -> string -> option ascii ->
       PyStr.result (option string -> PyStr.result string))
    (kwargs : list (string * PyStr.pyval)) (name template : string) : Prop :=
  exists (pre : string) (c : ascii) (post : string),
    template = (pre ++ String "{"%char (name ++ String c post))%string
    /\ plain_name name = true
    /\ ends_arg_name c = true
    /\ let scan :=
         PyStr.run str_of_int render_extended
           (PyStr.build_string str_of_int render_extended 1 kwargs) kwargs
           PyStr.Text EmptyString pre in
       literal_position scan
       \/ exists (field_name : string) (conversion : option ascii) (spec : string)
                 (depth : nat) (out : string),
            scan = Ok (PyStr.Spec field_name conversion spec depth, out)
            /\ literal_position
                 (PyStr.run str_of_int render_extended
                    (PyStr.build_string str_of_int render_extended 0 kwargs) kwargs
                    PyStr.Text EmptyString spec).

(** A template in which the placeholder [{name}] follows the text [pre]. *)
Definition with_placeholder (pre name post : string) : string :=
  (pre ++ String "{"%char (name ++ String "}"%char post))%string.

(** What looking up an unknown placeholder raises. *)
Definition unknown_placeholder_error (name : string) : exn :=
  if PyStr.all_digits name then PyStr.positional_error name else KeyError name.

(** A platform state in which no request is refused. *)
Definition accepts_everything (s : Platform.state) : Prop :=
  forall rq : call, Platform.rejects s rq = false.

(** The ids that the platform lists for a playlist. *)
Definition listed_ids (playlist_id : string) (s : Platform.state) : gset string :=
  list_to_set (map pi_contentDetails_videoId (Platform.members_of playlist_id s)).

(** The videos for which [add_videos_to_playlist] asks an insert: those it
    does not take for members, in input order, repetitions included. *)
Definition to_insert (skip_duplicates : bool) (ids : gset string) (videos : list Video)
  : list Video :=
  List.filter
    (fun v => negb (skip_duplicates && bool_decide (video_id v ∈ ids))) videos.

(** No playlist of the list bears the title. *)
Definition none_titled (title : string) (l : list PlaylistResource) : Prop :=
  List.Forall (fun p => pl_snippet_title p <> title) l.

(** A request that the search engine may issue for the window
    [published_after .. published_before]: a handle lookup for one result, or
    a page of between one and fifty videos of that window. *)
Definition search_request (published_after published_before : string) (rq : call) : Prop :=
  match rq with
  | SearchChannel q n => n = 1 /\ PyStr.lstrip_at q = q
  | SearchVideo _ a b n _ => a = published_after /\ b = published_before /\ 1 <= n <= 50
  | _ => False
  end.

(** A request for a page of videos. *)
Definition video_page (rq : call) : Prop :=
  match rq with
  | SearchVideo _ _ _ _ _ => True
  | _ => False
  end.

(** The record carries the name of one of the descriptors. *)
Definition tagged_from (channel_configs : list Config.ChannelConfig) (v : Video) : Prop :=
  In (source_channel v) (map Config.name channel_configs).

(** The text has no [+] sign. *)
Fixpoint no_plus (s : string) : bool :=
  match s with
  | EmptyString => true
  | String c rest => negb (Ascii.eqb c "+"%char) && no_plus rest
  end.

(** The text with every brace doubled, as a template that stands for it. *)
Fixpoint escape (s : string) : string :=
  match s with
  | EmptyString => EmptyString
  | String c rest =>
      if (Ascii.eqb c "{"%char || Ascii.eqb c "}"%char)%bool
      then String c (String c (escape rest))
      else String c (escape rest)
  end.


(** The text has no brace. *)
Fixpoint brace_free (s : string) : bool :=
  match s with
  | EmptyString => true
  | String c rest =>
      negb (Ascii.eqb c "{"%char || Ascii.eqb c "}"%char) && brace_free rest
  end.

(** The two lines that close every description. *)
Definition trailer (count : string) (generated : string) : string :=
  (PlaylistManager.nl ++ PlaylistManager.nl ++ "Total videos: " ++ count
   ++ PlaylistManager.nl ++ "Generated automatically on " ++ generated)%string.


(** * Properties *)

(** ** The collection synchronizer *)

Section SynchronizerFacts.
Context {W : Type} (youtube : Service W).

(** A single insert never raises: it answers [True] or [False] and issues
    exactly one request. *)
Lemma add_video_to_playlist_returns (playlist_id vid : string) (w : world W) :
  exists (b : bool) (w' : world W),
    PlaylistManager.add_video_to_playlist youtube playlist_id vid w = (Ok b, w')
    /\ trace w' = (trace w ++ [PlaylistItemsInsert playlist_id vid])%list.
Proof.
  unfold PlaylistManager.add_video_to_playlist, try_except_HttpError, bind, execute, ret.
  destruct (playlistItems_insert youtube playlist_id vid (remote w)) as [[[]|] s'];
    cbn; eauto.
Qed.

(** The loop over the videos always runs to its end, and each iteration
    moves exactly one counter by one. *)
Lemma add_videos_loop_returns (playlist_id : string) (skip : bool) (ids : gset string)
    (videos : list Video) :
  forall (n : PlaylistManager.Counters) (w : world W),
  exists (n' : PlaylistManager.Counters) (w' : world W),
    PlaylistManager.add_videos_loop youtube playlist_id skip ids videos n w = (Ok n', w')
    /\ total n' = total n + Z.of_nat (length videos)
    /\ 0 <= PlaylistManager.skipped_duplicates n' - PlaylistManager.skipped_duplicates n.
Proof.
  induction videos as [|v rest IH]; intros n w; simpl.
  - exists n, w. unfold ret. repeat split; lia.
  - destruct (skip && bool_decide (video_id v ∈ ids)).
    + edestruct IH as (n' & w' & -> & Ht & Hs).
      exists n', w'. split; [reflexivity|]. unfold total in *; cbn in *. lia.
    + unfold bind.
      destruct (add_video_to_playlist_returns playlist_id (video_id v) w)
        as (b & w1 & -> & _).
      destruct b; edestruct IH as (n' & w' & -> & Ht & Hs);
        exists n', w'; (split; [reflexivity|]); unfold total in *; cbn in *; lia.
Qed.

(** When nothing is known to be in the playlist, no video is skipped and one
    insert is issued per video, in input order. *)
Lemma add_videos_loop_no_existing (playlist_id : string) (skip : bool)
    (videos : list Video) :
  forall (n : PlaylistManager.Counters) (w : world W),
  exists (n' : PlaylistManager.Counters) (w' : world W),
    PlaylistManager.add_videos_loop youtube playlist_id skip ∅ videos n w = (Ok n', w')
    /\ PlaylistManager.skipped_duplicates n' = PlaylistManager.skipped_duplicates n
    /\ PlaylistManager.successful_adds n' + PlaylistManager.failed_adds n'
       = PlaylistManager.successful_adds n + PlaylistManager.failed_adds n
         + Z.of_nat (length videos)
    /\ trace w' = (trace w ++ insert_requests playlist_id videos)%list.
Proof.
  induction videos as [|v rest IH]; intros n w; simpl.
  - exists n, w. unfold ret. rewrite app_nil_r. repeat split; lia.
  - rewrite bool_decide_eq_false_2 by set_solver. rewrite andb_false_r.
    unfold bind.
    destruct (add_video_to_playlist_returns playlist_id (video_id v) w)
      as (b & w1 & -> & Htr).
    destruct b; edestruct IH as (n' & w' & -> & Hs & Ha & Ht);
      exists n', w'; (split; [reflexivity|]); cbn in *;
      rewrite Ht, Htr, <- app_assoc; repeat split; first [lia | reflexivity].
Qed.

(** When every video is already a member, the loop only counts. *)
Lemma add_videos_loop_all_members (playlist_id : string) (ids : gset string)
    (videos : list Video) :
  (forall v, In v videos -> video_id v ∈ ids) ->
  forall (n : PlaylistManager.Counters) (w : world W),
    PlaylistManager.add_videos_loop youtube playlist_id true ids videos n w
    = (Ok {| PlaylistManager.successful_adds := PlaylistManager.successful_adds n;
             PlaylistManager.failed_adds := PlaylistManager.failed_adds n;
             PlaylistManager.skipped_duplicates :=
               PlaylistManager.skipped_duplicates n + Z.of_nat (length videos) |}, w).
Proof.
  induction videos as [|v rest IH]; intros Hin n w.
  - simpl. unfold ret. destruct n; cbn. do 3 f_equal. lia.
  - cbn [PlaylistManager.add_videos_loop].
    rewrite bool_decide_eq_true_2 by (apply Hin; left; reflexivity).
    cbn [andb]. rewrite IH by (intros; apply Hin; right; assumption).
    cbn [PlaylistManager.successful_adds PlaylistManager.failed_adds
         PlaylistManager.skipped_duplicates length].
    rewrite Nat2Z.inj_succ. do 3 f_equal. lia.
Qed.

(** The paging loop raises nothing but [HttpError]. *)
Lemma get_playlist_video_ids_loop_outcome (fuel : nat) (playlist_id : string) :
  forall (ids : gset string) (tok : option string) (w : world W),
    let r := PlaylistManager.get_playlist_video_ids_loop youtube fuel playlist_id ids tok w in
    (exists ids', fst r = Ok ids') \/ fst r = Raise HttpError \/ fst r = OutOfFuel.
Proof.
  induction fuel as [|fuel IH]; intros ids tok w; simpl.
  - right; right; reflexivity.
  - unfold bind, execute.
    destruct (playlistItems_list youtube playlist_id 50 tok (remote w)) as [[p|] s'].
    + destruct (truthy (nextPageToken p)).
      * apply IH.
      * left. unfold ret. simpl. eauto.
    + right; left; reflexivity.
Qed.

(** The listing either returns a set, or runs out of fuel: a remote error is
    turned into the empty set. *)
Lemma get_playlist_video_ids_outcome (fuel : nat) (playlist_id : string) (w : world W) :
  (exists ids w', PlaylistManager.get_playlist_video_ids youtube fuel playlist_id w
                  = (Ok ids, w'))
  \/ (exists w', PlaylistManager.get_playlist_video_ids youtube fuel playlist_id w
                 = (OutOfFuel, w')).
Proof.
  unfold PlaylistManager.get_playlist_video_ids, try_except_HttpError.
  pose proof (get_playlist_video_ids_loop_outcome fuel playlist_id ∅ None w) as H.
  cbv zeta in H.
  destruct (PlaylistManager.get_playlist_video_ids_loop youtube fuel playlist_id ∅ None w)
    as [r w']; simpl in H.
  destruct H as [[ids' ->]|[->| ->]]; unfold ret; eauto.
Qed.

End SynchronizerFacts.

Section SynchronizerClaims.
Context {W : Type} (youtube : Service W).

(** C2. Whatever the videos, the known members and the replies to the
    inserts, the three counters returned by [add_videos_to_playlist] add up
    to [len(videos)].  The call returns as soon as the membership listing
    does (the listing is only made when [skip_duplicates] is set). *)
Theorem counters_sum_to_len_videos (fuel : nat) (playlist_id : string)
    (videos : list Video) (skip_duplicates : bool) (w : world W) :
  (skip_duplicates = true ->
   fst (PlaylistManager.get_playlist_video_ids youtube fuel playlist_id w) <> OutOfFuel) ->
  exists (n : PlaylistManager.Counters) (w' : world W),
    PlaylistManager.add_videos_to_playlist youtube fuel playlist_id videos skip_duplicates w
    = (Ok n, w')
    /\ PlaylistManager.successful_adds n + PlaylistManager.failed_adds n
       + PlaylistManager.skipped_duplicates n = Z.of_nat (length videos).
Proof.
  intros Hlist. unfold PlaylistManager.add_videos_to_playlist, bind.
  destruct skip_duplicates.
  - destruct (get_playlist_video_ids_outcome youtube fuel playlist_id w)
      as [(ids & w1 & E)|(w1 & E)].
    + rewrite E.
      destruct (add_videos_loop_returns youtube playlist_id true ids videos
                  {| PlaylistManager.successful_adds := 0;
                     PlaylistManager.failed_adds := 0;
                     PlaylistManager.skipped_duplicates := 0 |} w1)
        as (n & w' & -> & Ht & _).
      exists n, w'. split; [reflexivity|]. unfold total in Ht. cbn in Ht. lia.
    + exfalso. apply Hlist; [reflexivity|]. rewrite E. reflexivity.
  - unfold ret.
    destruct (add_videos_loop_returns youtube playlist_id false ∅ videos
                {| PlaylistManager.successful_adds := 0;
                   PlaylistManager.failed_adds := 0;
                   PlaylistManager.skipped_duplicates := 0 |} w)
      as (n & w' & -> & Ht & _).
    exists n, w'. split; [reflexivity|]. unfold total in Ht. cbn in Ht. lia.
Qed.

(** C1. When the membership listing succeeds and shows every video of the
    input, as it does after a sync of the same videos in which every insert
    succeeded, [add_videos_to_playlist] with [skip_duplicates=True] adds
    nothing, fails nothing, skips [len(videos)] and issues no insert: the
    world it leaves is the one the listing left. *)
Theorem second_sync_skips_every_video (fuel : nat) (playlist_id : string)
    (videos : list Video) (w w1 : world W) (ids : gset string) :
  PlaylistManager.get_playlist_video_ids youtube fuel playlist_id w = (Ok ids, w1) ->
  (forall v, In v videos -> video_id v ∈ ids) ->
  PlaylistManager.add_videos_to_playlist youtube fuel playlist_id videos true w
  = (Ok {| PlaylistManager.successful_adds := 0;
           PlaylistManager.failed_adds := 0;
           PlaylistManager.skipped_duplicates := Z.of_nat (length videos) |}, w1).
Proof.
  intros Hlist Hmem. unfold PlaylistManager.add_videos_to_playlist, bind.
  rewrite Hlist. rewrite add_videos_loop_all_members by assumption. reflexivity.
Qed.

(** C10. When a request of the membership listing is answered with an
    error, [get_playlist_video_ids] returns the empty set, and
    [add_videos_to_playlist] with [skip_duplicates=True] then skips nothing
    and issues one insert per input video, in input order, whether or not
    the video is already in the playlist. *)
Theorem failed_listing_is_an_empty_playlist (fuel : nat) (playlist_id : string)
    (videos : list Video) (w w1 : world W) :
  PlaylistManager.get_playlist_video_ids_loop youtube fuel playlist_id ∅ None w
  = (Raise HttpError, w1) ->
  PlaylistManager.get_playlist_video_ids youtube fuel playlist_id w = (Ok ∅, w1)
  /\ exists (n : PlaylistManager.Counters) (w2 : world W),
       PlaylistManager.add_videos_to_playlist youtube fuel playlist_id videos true w
       = (Ok n, w2)
       /\ PlaylistManager.skipped_duplicates n = 0
       /\ PlaylistManager.successful_adds n + PlaylistManager.failed_adds n
          = Z.of_nat (length videos)
       /\ trace w2 = (trace w1 ++ insert_requests playlist_id videos)%list.
Proof.
  intros Hfail.
  assert (Hids : PlaylistManager.get_playlist_video_ids youtube fuel playlist_id w
                 = (Ok ∅, w1)).
  { unfold PlaylistManager.get_playlist_video_ids, try_except_HttpError.
    rewrite Hfail. reflexivity. }
  split; [exact Hids|].
  unfold PlaylistManager.add_videos_to_playlist, bind. rewrite Hids.
  destruct (add_videos_loop_no_existing youtube playlist_id true videos
              {| PlaylistManager.successful_adds := 0;
                 PlaylistManager.failed_adds := 0;
                 PlaylistManager.skipped_duplicates := 0 |} w1)
    as (n & w2 & -> & Hs & Ha & Ht).
  exists n, w2. cbn in Hs, Ha. repeat split; try assumption; lia.
Qed.

End SynchronizerClaims.

(** A run with one record of each kind: [a] is skipped, [b] is added, the
    insert of [c] fails. *)
Lemma counters_sum_to_len_videos_witness :
  (true = true ->
   fst (PlaylistManager.get_playlist_video_ids Platform.service 1 "PL"
          (Platform.start Runs.holds_a_refuses_c)) <> OutOfFuel)
  /\ exists n w',
       PlaylistManager.add_videos_to_playlist Platform.service 1 "PL" Runs.three_videos
         true (Platform.start Runs.holds_a_refuses_c) = (Ok n, w')
       /\ PlaylistManager.successful_adds n + PlaylistManager.failed_adds n
          + PlaylistManager.skipped_duplicates n = 3.
Proof.
  assert (H : true = true ->
              fst (PlaylistManager.get_playlist_video_ids Platform.service 1 "PL"
                     (Platform.start Runs.holds_a_refuses_c)) <> OutOfFuel).
  { intros _. vm_compute. discriminate. }
  split; [exact H|].
  exact (counters_sum_to_len_videos Platform.service 1 "PL" Runs.three_videos true
           (Platform.start Runs.holds_a_refuses_c) H).
Defined.

(** The first sync of three videos into an empty playlist adds all three;
    the second, run from the world the first one left, skips all three. *)
Lemma second_sync_skips_every_video_witness :
  fst (PlaylistManager.add_videos_to_playlist Platform.service 1 "PL" Runs.three_videos
         true (Platform.start Platform.empty))
  = Ok {| PlaylistManager.successful_adds := 3;
          PlaylistManager.failed_adds := 0;
          PlaylistManager.skipped_duplicates := 0 |}
  /\ PlaylistManager.add_videos_to_playlist Platform.service 1 "PL" Runs.three_videos
       true Runs.after_first_sync
     = (Ok {| PlaylistManager.successful_adds := 0;
              PlaylistManager.failed_adds := 0;
              PlaylistManager.skipped_duplicates := 3 |},
        snd (PlaylistManager.get_playlist_video_ids Platform.service 1 "PL"
               Runs.after_first_sync)).
Proof.
  split; [vm_compute; reflexivity|].
  apply (second_sync_skips_every_video Platform.service 1 "PL" Runs.three_videos
           Runs.after_first_sync _ ({[ "a" ]} ∪ {[ "b" ]} ∪ {[ "c" ]})).
  - vm_compute. reflexivity.
  - intros v [<-|[<-|[<-|[]]]]; refine (bool_decide_unpack _ _); vm_compute; exact I.
Defined.

(** The listing fails although [a] is in the playlist: [a] is inserted a
    second time. *)
Lemma failed_listing_is_an_empty_playlist_witness :
  PlaylistManager.get_playlist_video_ids_loop Platform.service 1 "PL" ∅ None
    (Platform.start Runs.holds_a_listing_fails)
  = (Raise HttpError,
     {| remote := Runs.holds_a_listing_fails;
        trace := [PlaylistItemsList "PL" 50 None] |})
  /\ exists n w2,
       PlaylistManager.add_videos_to_playlist Platform.service 1 "PL" Runs.three_videos
         true (Platform.start Runs.holds_a_listing_fails) = (Ok n, w2)
       /\ PlaylistManager.skipped_duplicates n = 0
       /\ trace w2 = [PlaylistItemsList "PL" 50 None; PlaylistItemsInsert "PL" "a";
                      PlaylistItemsInsert "PL" "b"; PlaylistItemsInsert "PL" "c"]
       /\ Platform.members (remote w2)
          = [("PL", "a"); ("PL", "a"); ("PL", "b"); ("PL", "c")]%string.
Proof.
  assert (H : PlaylistManager.get_playlist_video_ids_loop Platform.service 1 "PL" ∅ None
                (Platform.start Runs.holds_a_listing_fails)
              = (Raise HttpError,
                 {| remote := Runs.holds_a_listing_fails;
                    trace := [PlaylistItemsList "PL" 50 None] |})).
  { vm_compute. reflexivity. }
  split; [exact H|].
  destruct (failed_listing_is_an_empty_playlist Platform.service 1 "PL" Runs.three_videos
              _ _ H) as (_ & n & w2 & E & Hs & _ & Ht).
  exists n, w2. repeat split; try assumption.
  replace w2 with (snd (PlaylistManager.add_videos_to_playlist Platform.service 1 "PL"
                          Runs.three_videos true (Platform.start Runs.holds_a_listing_fails)))
    by (rewrite E; reflexivity).
  vm_compute. reflexivity.
Defined.

(** ** Two syncs in a row on the in-memory platform *)

Lemma add_all_union (l : list PlaylistItemResource) :
  forall ids : gset string,
    PlaylistManager.add_all ids l
    = ids ∪ list_to_set (map pi_contentDetails_videoId l).
Proof.
  unfold PlaylistManager.add_all.
  induction l as [|x l IH]; intros ids; simpl.
  - now rewrite (right_id_L ∅ (∪)).
  - rewrite IH. cbn [map list_to_set]. now rewrite (assoc_L (∪)).
Qed.

Lemma length_unary (n : nat) : String.length (Platform.unary n) = n.
Proof. induction n as [|n IH]; simpl; congruence. Qed.

(** From offset [off] on, the listing loop collects the rest of the members,
    fifty at a time, and leaves the platform as it was. *)
Lemma platform_listing_loop (playlist_id : string) (fuel : nat) :
  forall (off : nat) (tok : option string) (ids : gset string)
         (w : world Platform.state),
    accepts_everything (remote w) ->
    Platform.offset_of tok = off ->
    (length (skipn off (Platform.members_of playlist_id (remote w))) < 50 * fuel)%nat ->
    exists tr,
      PlaylistManager.get_playlist_video_ids_loop Platform.service fuel playlist_id ids tok w
      = (Ok (ids ∪ list_to_set
                     (map pi_contentDetails_videoId
                        (skipn off (Platform.members_of playlist_id (remote w))))),
         {| remote := remote w; trace := tr |}).
Proof.
  induction fuel as [|fuel IH]; intros off tok ids w Hacc Hoff Hlen; [lia|].
  cbn [PlaylistManager.get_playlist_video_ids_loop].
  unfold bind, execute. cbn [playlistItems_list Platform.service].
  unfold Platform.answer. rewrite Hacc.
  unfold Platform.page_of. cbn [items nextPageToken]. rewrite Hoff.
  change (Z.to_nat 50) with 50%nat.
  set (rest := skipn off (Platform.members_of playlist_id (remote w))) in *.
  destruct (Nat.ltb_spec 50 (length rest)) as [Hmore|Hlast].
  - change (truthy (Some (Platform.unary (off + 50))))
      with (negb (String.eqb (Platform.unary (off + 50)) EmptyString)).
    replace (off + 50)%nat with (S (off + 49)) by lia. cbn [Platform.unary String.eqb negb].
    change (String "p"%char (Platform.unary (off + 49)))
      with (Platform.unary (S (off + 49))).
    edestruct (IH (S (off + 49)) (Some (Platform.unary (S (off + 49))))
                 (PlaylistManager.add_all ids (firstn 50 rest))
                 {| remote := remote w;
                    trace := (trace w ++ [PlaylistItemsList playlist_id 50 tok])%list |})
      as (tr & ->).
    + exact Hacc.
    + cbn [Platform.offset_of]. apply length_unary.
    + cbn [remote]. replace (S (off + 49)) with (50 + off)%nat by lia.
      rewrite <- skipn_skipn. fold rest. rewrite length_skipn. lia.
    + exists tr. cbn [remote]. f_equal. f_equal.
      rewrite add_all_union.
      replace (S (off + 49)) with (50 + off)%nat by lia.
      rewrite <- skipn_skipn. fold rest.
      rewrite <- (firstn_skipn 50 rest) at 3. rewrite map_app, list_to_set_app_L.
      now rewrite (assoc_L (∪)).
  - cbn [truthy]. unfold ret. eexists. f_equal. f_equal.
    rewrite add_all_union, firstn_all2 by lia. reflexivity.
Qed.

Lemma platform_listing (playlist_id : string) (fuel : nat) (w : world Platform.state) :
  accepts_everything (remote w) ->
  (length (Platform.members (remote w)) < 50 * fuel)%nat ->
  exists tr,
    PlaylistManager.get_playlist_video_ids Platform.service fuel playlist_id w
    = (Ok (listed_ids playlist_id (remote w)), {| remote := remote w; trace := tr |}).
Proof.
  intros Hacc Hlen.
  unfold PlaylistManager.get_playlist_video_ids, try_except_HttpError.
  destruct (platform_listing_loop playlist_id fuel 0 None ∅ w Hacc eq_refl) as (tr & ->).
  - rewrite drop_0. unfold Platform.members_of. rewrite length_map.
    pose proof (filter_length_le
                  (fun m => String.eqb (fst m) playlist_id) (Platform.members (remote w))).
    lia.
  - exists tr. unfold listed_ids. rewrite drop_0. f_equal. f_equal.
    now rewrite (left_id_L ∅ (∪)).
Qed.

(** On a platform that refuses nothing, the loop over the videos fails no
    insert, and afterwards every video of the input is listed. *)
Lemma platform_add_videos_loop (playlist_id : string) (videos : list Video) :
  forall (ids : gset string) (n : PlaylistManager.Counters) (w : world Platform.state),
    accepts_everything (remote w) ->
    ids ⊆ listed_ids playlist_id (remote w) ->
    exists n' w',
      PlaylistManager.add_videos_loop Platform.service playlist_id true ids videos n w
      = (Ok n', w')
      /\ PlaylistManager.failed_adds n' = PlaylistManager.failed_adds n
      /\ accepts_everything (remote w')
      /\ (length (Platform.members (remote w'))
          <= length (Platform.members (remote w)) + length videos)%nat
      /\ listed_ids playlist_id (remote w) ⊆ listed_ids playlist_id (remote w')
      /\ forall v, In v videos ->
           video_id v ∈ ids \/ video_id v ∈ listed_ids playlist_id (remote w').
Proof.
  induction videos as [|v rest IH]; intros ids n w Hacc Hsub.
  - exists n, w. cbn. unfold ret. repeat split; try done. lia.
  - cbn [PlaylistManager.add_videos_loop andb].
    destruct (bool_decide (video_id v ∈ ids)) eqn:Emem.
    + apply bool_decide_eq_true_1 in Emem.
      destruct (IH ids
                  {| PlaylistManager.successful_adds := PlaylistManager.successful_adds n;
                     PlaylistManager.failed_adds := PlaylistManager.failed_adds n;
                     PlaylistManager.skipped_duplicates :=
                       PlaylistManager.skipped_duplicates n + 1 |} w Hacc Hsub)
        as (n' & w' & -> & Hf & Hacc' & Hlen & Hmono & Hcov).
      exists n', w'. repeat split; try assumption.
      * cbn [length]. lia.
      * intros x [<-|Hx]; [left; exact Emem | apply Hcov, Hx].
    + unfold bind, PlaylistManager.add_video_to_playlist, try_except_HttpError, bind,
        execute, ret.
      cbn [playlistItems_insert Platform.service]. unfold Platform.answer. rewrite Hacc.
      set (w1 := {| remote := Platform.with_members (remote w)
                                (Platform.members (remote w)
                                 ++ [(playlist_id, video_id v)]);
                    trace := (trace w
                              ++ [PlaylistItemsInsert playlist_id (video_id v)])%list |}).
      assert (Hlisted : listed_ids playlist_id (remote w1)
                        = listed_ids playlist_id (remote w) ∪ {[ video_id v ]}).
      { unfold listed_ids, Platform.members_of. cbn [remote w1 Platform.with_members
          Platform.members].
        rewrite List.filter_app, !map_app, list_to_set_app_L.
        cbn [List.filter fst]. rewrite String.eqb_refl.
        cbn [map list_to_set snd pi_contentDetails_videoId].
        now rewrite (right_id_L ∅ (∪)). }
      destruct (IH ids
                  {| PlaylistManager.successful_adds := PlaylistManager.successful_adds n + 1;
                     PlaylistManager.failed_adds := PlaylistManager.failed_adds n;
                     PlaylistManager.skipped_duplicates :=
                       PlaylistManager.skipped_duplicates n |} w1)
        as (n' & w' & -> & Hf & Hacc' & Hlen & Hmono & Hcov).
      * exact Hacc.
      * rewrite Hlisted. etrans; [exact Hsub | apply union_subseteq_l].
      * exists n', w'. repeat split; try assumption.
        -- cbn [remote w1 Platform.with_members Platform.members] in Hlen.
           rewrite length_app in Hlen. cbn [length] in *. lia.
        -- rewrite Hlisted in Hmono. etrans; [apply union_subseteq_l | exact Hmono].
        -- intros x [<-|Hx]; [|apply Hcov, Hx].
           right. apply Hmono. rewrite Hlisted.
           apply elem_of_union_r, elem_of_singleton. reflexivity.
Qed.

(** A sync on a platform that refuses nothing, followed by a sync of the
    same videos: the first fails no insert, the second adds nothing and skips
    every video. *)
Lemma platform_second_sync (fuel : nat) (playlist_id : string) (videos : list Video)
    (s : Platform.state) :
  accepts_everything s ->
  (length (Platform.members s) + length videos < 50 * fuel)%nat ->
  exists n1 w1 w2,
    PlaylistManager.add_videos_to_playlist Platform.service fuel playlist_id videos true
      (Platform.start s) = (Ok n1, w1)
    /\ PlaylistManager.failed_adds n1 = 0
    /\ PlaylistManager.add_videos_to_playlist Platform.service fuel playlist_id videos true w1
       = (Ok {| PlaylistManager.successful_adds := 0;
                PlaylistManager.failed_adds := 0;
                PlaylistManager.skipped_duplicates := Z.of_nat (length videos) |}, w2)
    /\ remote w2 = remote w1.
Proof.
  intros Hacc Hlen.
  unfold PlaylistManager.add_videos_to_playlist at 1. unfold bind.
  destruct (platform_listing playlist_id fuel (Platform.start s) Hacc) as (tr0 & ->);
    [cbn [remote Platform.start]; lia|].
  cbn [remote Platform.start].
  destruct (platform_add_videos_loop playlist_id videos (listed_ids playlist_id s)
              {| PlaylistManager.successful_adds := 0;
                 PlaylistManager.failed_adds := 0;
                 PlaylistManager.skipped_duplicates := 0 |}
              {| remote := s; trace := tr0 |} Hacc)
    as (n1 & w1 & -> & Hf & Hacc1 & Hlen1 & Hmono & Hcov); [done|].
  cbn [remote] in *.
  destruct (platform_listing playlist_id fuel w1 Hacc1) as (tr1 & Hlist1); [lia|].
  exists n1, w1, {| remote := remote w1; trace := tr1 |}.
  split; [reflexivity|]. split; [exact Hf|]. split; [|reflexivity].
  unfold PlaylistManager.add_videos_to_playlist, bind. rewrite Hlist1.
  rewrite add_videos_loop_all_members; [reflexivity|].
  intros v Hv. destruct (Hcov v Hv) as [H|H]; [apply Hmono, H | exact H].
Qed.

(** ** Strings *)

Lemma append_cons (c : ascii) (s1 s2 : string) :
  (String c s1 ++ s2)%string = String c (s1 ++ s2).
Proof. reflexivity. Qed.

Lemma append_empty_l (s : string) : (EmptyString ++ s)%string = s.
Proof. reflexivity. Qed.

Lemma length_append (s1 s2 : string) :
  String.length (s1 ++ s2) = (String.length s1 + String.length s2)%nat.
Proof.
  induction s1 as [|c s1 IH]; [reflexivity|].
  rewrite append_cons. simpl. now rewrite IH.
Qed.

Lemma append_assoc (s1 s2 s3 : string) : ((s1 ++ s2) ++ s3 = s1 ++ (s2 ++ s3))%string.
Proof.
  induction s1 as [|c s1 IH]; [reflexivity|].
  rewrite !append_cons. now rewrite IH.
Qed.

Lemma append_empty_r (s : string) : (s ++ EmptyString)%string = s.
Proof.
  induction s as [|c s IH]; [reflexivity|].
  rewrite append_cons. now rewrite IH.
Qed.

Lemma length_slice_to (n : nat) :
  forall s : string, (n <= String.length s)%nat -> String.length (PyStr.slice_to n s) = n.
Proof.
  unfold PyStr.slice_to.
  induction n as [|n IH]; intros [|c s] H; simpl in *; try reflexivity; try lia.
  rewrite IH by lia. reflexivity.
Qed.

Lemma slice_to_is_prefix (n : nat) :
  forall s : string, exists rest : string, s = (PyStr.slice_to n s ++ rest)%string.
Proof.
  unfold PyStr.slice_to.
  induction n as [|n IH]; intros [|c s]; simpl.
  - exists EmptyString. reflexivity.
  - exists (String c s). reflexivity.
  - exists EmptyString. reflexivity.
  - destruct (IH s) as [rest E]. exists rest. rewrite append_cons. now rewrite <- E.
Qed.

(** ** The search engine: stored descriptions *)

(** C7. The description stored in a video record: a raw description of more
    than 100 characters is stored as its first 100 characters followed by
    three dots, 103 characters in all; a raw description of at most 100
    characters is stored as it is. *)
Theorem description_is_capped (item : SearchResult) :
  let raw := sr_snippet_description item in
  let stored := vd_description (VideoSearcher.video_data_of item) in
  (100 < PyStr.len raw ->
   PyStr.len stored = 103
   /\ stored = (PyStr.slice_to 100 raw ++ "...")%string
   /\ PyStr.len (PyStr.slice_to 100 raw) = 100
   /\ exists rest : string, raw = (PyStr.slice_to 100 raw ++ rest)%string)
  /\ (PyStr.len raw <= 100 -> stored = raw).
Proof.
  cbv zeta. cbn [VideoSearcher.video_data_of vd_description].
  unfold VideoSearcher.stored_description, PyStr.len.
  split; intros H.
  - replace (Z.of_nat (String.length (sr_snippet_description item)) >? 100) with true
      by (symmetry; apply Z.gtb_lt; lia).
    assert (L : String.length (PyStr.slice_to 100 (sr_snippet_description item)) = 100%nat)
      by (apply length_slice_to; lia).
    repeat split.
    + rewrite length_append, L. reflexivity.
    + rewrite L. reflexivity.
    + apply slice_to_is_prefix.
  - replace (Z.of_nat (String.length (sr_snippet_description item)) >? 100) with false
      by (symmetry; rewrite Z.gtb_ltb; apply Z.ltb_ge; lia).
    reflexivity.
Qed.

(** A description of 101 characters is cut to 100 and marked; a short one is
    kept. *)
Lemma description_is_capped_witness :
  100 < PyStr.len (Platform.unary 101)
  /\ vd_description (VideoSearcher.video_data_of (Platform.result "a" "t" (Platform.unary 101)))
     = (Platform.unary 100 ++ "...")%string
  /\ vd_description (VideoSearcher.video_data_of (Platform.result "a" "t" "short"))
     = "short"%string.
Proof.
  assert (H : 100 < PyStr.len (Platform.unary 101)) by (vm_compute; reflexivity).
  split; [exact H|]. split.
  - exact (proj1 (proj2 (proj1 (description_is_capped
                                  (Platform.result "a" "t" (Platform.unary 101))) H))).
  - apply (proj2 (description_is_capped (Platform.result "a" "t" "short"))).
    vm_compute. discriminate.
Defined.

(** ** The search engine: ordering of the merged result *)

Lemma compare_refl (s : string) : String.compare s s = Eq.
Proof.
  induction s as [|c s IH]; simpl; [reflexivity|].
  unfold Ascii.compare. now rewrite N.compare_refl.
Qed.

Lemma ltb_irrefl (s : string) : String.ltb s s = false.
Proof. unfold String.ltb. now rewrite compare_refl. Qed.

Lemma ltb_false_leb (s1 s2 : string) : String.ltb s1 s2 = false -> String.leb s2 s1 = true.
Proof.
  unfold String.ltb, String.leb. rewrite (String.compare_antisym s1 s2).
  destruct (String.compare s2 s1); simpl; intros H; first [reflexivity | discriminate H].
Qed.

Lemma ltb_true_leb (s1 s2 : string) : String.ltb s1 s2 = true -> String.leb s1 s2 = true.
Proof.
  unfold String.ltb, String.leb.
  destruct (String.compare s1 s2); intros H; first [reflexivity | discriminate H].
Qed.

Lemma leb_trans (s1 s2 s3 : string) :
  String.leb s1 s2 = true -> String.leb s2 s3 = true -> String.leb s1 s3 = true.
Proof.
  intros H12 H23. apply Is_true_true.
  apply (@transitivity _ String.le _ s1 s2 s3); apply Is_true_true; assumption.
Qed.

Lemma insert_by_key_perm (x : Video) (l : list Video) :
  Permutation (VideoSearcher.insert_by_key x l) (x :: l).
Proof.
  induction l as [|y l IH]; simpl; [reflexivity|].
  destruct (String.ltb (published_at y) (published_at x)).
  - rewrite IH. apply perm_swap.
  - reflexivity.
Qed.

Lemma sort_by_published_at_perm (l : list Video) :
  Permutation (VideoSearcher.sort_by_published_at l) l.
Proof.
  induction l as [|x l IH]; simpl; [reflexivity|].
  rewrite insert_by_key_perm. now constructor.
Qed.

Lemma insert_by_key_sorted (x : Video) (l : list Video) :
  StronglySorted SearchSpec.key_le l ->
  StronglySorted SearchSpec.key_le (VideoSearcher.insert_by_key x l).
Proof.
  induction 1 as [|y l Hs IH Hall]; simpl.
  - constructor; constructor.
  - destruct (String.ltb (published_at y) (published_at x)) eqn:E.
    + constructor; [exact IH|].
      rewrite Forall_forall. intros z Hz.
      rewrite insert_by_key_perm in Hz. apply elem_of_cons in Hz as [->|Hz].
      * apply ltb_true_leb, E.
      * rewrite Forall_forall in Hall. apply Hall, Hz.
    + apply ltb_false_leb in E.
      constructor; [constructor; assumption|].
      constructor; [exact E|].
      rewrite Forall_forall in *. intros z Hz.
      unfold SearchSpec.key_le in *. eapply leb_trans; [exact E|]. apply Hall, Hz.
Qed.

Lemma sort_by_published_at_sorted (l : list Video) :
  StronglySorted SearchSpec.key_le (VideoSearcher.sort_by_published_at l).
Proof.
  induction l as [|x l IH]; simpl; [constructor|].
  apply insert_by_key_sorted, IH.
Qed.

(** Records that share a key keep their relative order: an inserted record
    only moves past records with a strictly smaller key. *)
Lemma insert_by_key_stable (k : string) (x : Video) (l : list Video) :
  List.filter (SearchSpec.has_key k) (VideoSearcher.insert_by_key x l)
  = List.filter (SearchSpec.has_key k) (x :: l).
Proof.
  induction l as [|y l IH]; [reflexivity|].
  cbn [VideoSearcher.insert_by_key].
  destruct (String.ltb (published_at y) (published_at x)) eqn:E; [|reflexivity].
  cbn [List.filter]. rewrite IH. cbn [List.filter].
  destruct (SearchSpec.has_key k y) eqn:Hy; [|reflexivity].
  destruct (SearchSpec.has_key k x) eqn:Hx; [|reflexivity].
  unfold SearchSpec.has_key in Hy, Hx.
  apply String.eqb_eq in Hy. apply String.eqb_eq in Hx.
  rewrite Hy, Hx, ltb_irrefl in E. discriminate.
Qed.

Lemma sort_by_published_at_stable (k : string) (l : list Video) :
  List.filter (SearchSpec.has_key k) (VideoSearcher.sort_by_published_at l)
  = List.filter (SearchSpec.has_key k) l.
Proof.
  induction l as [|x l IH]; [reflexivity|].
  cbn [VideoSearcher.sort_by_published_at]. rewrite insert_by_key_stable.
  cbn [List.filter]. now rewrite IH.
Qed.

(** ** The search engine: paging through one channel *)

Section PagingFacts.
Context {W : Type} (youtube : Service W).
Context (channel_id published_after published_before : string) (max_results : Z).

Local Abbreviation loop fuel :=
  (VideoSearcher.search_channel_videos_loop youtube fuel channel_id published_after
     published_before max_results).
Local Abbreviation paging :=
  (PagingSpec.paging youtube channel_id published_after published_before max_results).

(** From given records, token and platform state there is one run. *)
Lemma paging_functional (videos : list VideoData) (tok : option string) (s : W)
    (rqs1 : list call) (r1 : option (list VideoData)) (s1 : W) :
  paging videos tok s rqs1 r1 s1 ->
  forall (rqs2 : list call) (r2 : option (list VideoData)) (s2 : W),
    paging videos tok s rqs2 r2 s2 -> rqs1 = rqs2 /\ r1 = r2 /\ s1 = s2.
Proof.
  induction 1 as [videos tok s Hge
                 |videos tok s s' Hlt Hreply
                 |videos tok s s' page Hlt Hreply Htok
                 |videos tok s s' s'' page rqs r Hlt Hreply Htok Hrest IH];
    intros rqs2 r2 s2 H2; inversion H2; subst; try lia;
    try match goal with
        | E1 : PagingSpec.page_reply _ _ _ _ _ ?v ?t ?s = _,
          E2 : PagingSpec.page_reply _ _ _ _ _ ?v ?t ?s = _ |- _ =>
            rewrite E1 in E2; inversion E2; subst; clear E2
        end;
    try congruence.
  - auto.
  - auto.
  - auto.
  - match goal with
    | Hp : PagingSpec.paging _ _ _ _ _ _ _ _ _ _ _ |- _ =>
        destruct (IH _ _ _ Hp) as (-> & -> & ->)
    end.
    auto.
Qed.

(** Every run of the page loop that ends is the run of [paging] from the
    state of the platform, and the trace grows by exactly its requests. *)
Lemma search_channel_videos_loop_paging (fuel : nat) :
  forall (videos : list VideoData) (tok : option string) (w : world W),
    match loop fuel videos tok w with
    | (Ok vs, w') =>
        exists rqs, paging videos tok (remote w) rqs (Some vs) (remote w')
                    /\ trace w' = (trace w ++ rqs)%list
    | (Raise e, w') =>
        e = HttpError
        /\ exists rqs, paging videos tok (remote w) rqs None (remote w')
                       /\ trace w' = (trace w ++ rqs)%list
    | (OutOfFuel, _) => True
    end.
Proof.
  induction fuel as [|fuel IH]; intros videos tok w; simpl.
  - destruct (Z.ltb_spec (Z.of_nat (length videos)) max_results) as [Hlt|Hge].
    + exact I.
    + unfold ret. exists []. rewrite app_nil_r. split; [|reflexivity].
      constructor. assumption.
  - destruct (Z.ltb_spec (Z.of_nat (length videos)) max_results) as [Hlt|Hge].
    + unfold bind, execute.
      destruct (search_video youtube channel_id published_after published_before
                  (Z.min 50 (max_results - Z.of_nat (length videos))) tok (remote w))
        as [[page|] s'] eqn:Ereply.
      * destruct (truthy (nextPageToken page)) eqn:Etok.
        -- specialize (IH (PagingSpec.accumulate videos page) (nextPageToken page)
                          {| remote := s';
                             trace := (trace w
                                       ++ [PagingSpec.page_request channel_id published_after
                                             published_before max_results videos tok])%list |}).
           unfold PagingSpec.accumulate, PagingSpec.page_request in IH.
           destruct (loop fuel _ _ _) as [[vs|e|] w'].
           ++ destruct IH as (rqs & Hp & Ht). cbn [trace remote] in Ht, Hp.
              eexists. split; [eapply PagingSpec.paging_next; eassumption|].
              rewrite Ht, <- app_assoc. reflexivity.
           ++ destruct IH as (-> & rqs & Hp & Ht). cbn [trace remote] in Ht, Hp.
              split; [reflexivity|].
              eexists. split; [eapply PagingSpec.paging_next; eassumption|].
              rewrite Ht, <- app_assoc. reflexivity.
           ++ exact I.
        -- unfold ret. eexists. split.
           ++ apply (PagingSpec.paging_no_token youtube _ _ _ _ videos tok (remote w) s' page);
                assumption.
           ++ reflexivity.
      * split; [reflexivity|]. eexists. split.
        -- apply PagingSpec.paging_error; assumption.
        -- reflexivity.
    + unfold ret. exists []. rewrite app_nil_r. split; [|reflexivity].
      constructor. assumption.
Qed.

(** On a platform that honours [maxResults], the loop never accumulates more
    than [max_results] records. *)
Lemma search_channel_videos_loop_bounded (fuel : nat) :
  PagingSpec.honours_maxResults youtube ->
  forall (videos : list VideoData) (tok : option string) (w : world W) vs w',
    Z.of_nat (length videos) <= Z.max 0 max_results ->
    loop fuel videos tok w = (Ok vs, w') ->
    Z.of_nat (length vs) <= Z.max 0 max_results.
Proof.
  intros Hon.
  induction fuel as [|fuel IH]; intros videos tok w vs w' Hlen; simpl.
  - destruct (Z.ltb_spec (Z.of_nat (length videos)) max_results) as [Hlt|Hge].
    + discriminate.
    + unfold ret. intros [= <- <-]. assumption.
  - destruct (Z.ltb_spec (Z.of_nat (length videos)) max_results) as [Hlt|Hge].
    + unfold bind, execute.
      destruct (search_video youtube channel_id published_after published_before
                  (Z.min 50 (max_results - Z.of_nat (length videos))) tok (remote w))
        as [[page|] s'] eqn:Ecall; [|discriminate].
      apply Hon in Ecall; [|lia].
      assert (Hacc : Z.of_nat (length (videos ++ map VideoSearcher.video_data_of
                                                    (items page)))
                     <= Z.max 0 max_results).
      { rewrite length_app, length_map. lia. }
      destruct (truthy (nextPageToken page)).
      * intros E. eapply IH; eassumption.
      * unfold ret. intros [= <- <-]. assumption.
    + unfold ret. intros [= <- <-]. assumption.
Qed.

(** When every page that announces a successor brings at least one record,
    [max_results] rounds of fuel are enough. *)
Lemma search_channel_videos_loop_terminates (fuel : nat) :
  PagingSpec.pages_make_progress youtube ->
  forall (videos : list VideoData) (tok : option string) (w : world W),
    (Z.to_nat (max_results - Z.of_nat (length videos)) <= fuel)%nat ->
    fst (loop fuel videos tok w) <> OutOfFuel.
Proof.
  intros Hpr.
  induction fuel as [|fuel IH]; intros videos tok w Hfuel; simpl.
  - destruct (Z.ltb_spec (Z.of_nat (length videos)) max_results) as [Hlt|Hge].
    + lia.
    + discriminate.
  - destruct (Z.ltb_spec (Z.of_nat (length videos)) max_results) as [Hlt|Hge].
    + unfold bind, execute.
      destruct (search_video youtube channel_id published_after published_before
                  (Z.min 50 (max_results - Z.of_nat (length videos))) tok (remote w))
        as [[page|] s'] eqn:Ecall; [|discriminate].
      destruct (truthy (nextPageToken page)) eqn:Etok; [|discriminate].
      apply IH. rewrite length_app, length_map.
      assert (Hn : 1 <= Z.min 50 (max_results - Z.of_nat (length videos))) by lia.
      pose proof (Hpr _ _ _ _ _ _ _ _ Hn Ecall Etok) as Hne.
      destruct (items page); [congruence|]. simpl length. lia.
    + discriminate.
Qed.

(** [search_channel_videos] raises nothing: an error reply gives []. *)
Lemma search_channel_videos_outcome (fuel : nat) (w : world W) :
  match VideoSearcher.search_channel_videos youtube fuel channel_id published_after
          published_before max_results w with
  | (Ok _, _) | (OutOfFuel, _) => True
  | (Raise _, _) => False
  end.
Proof.
  unfold VideoSearcher.search_channel_videos, try_except_HttpError.
  pose proof (search_channel_videos_loop_paging fuel [] None w) as H.
  destruct (loop fuel [] None w) as [[vs|e|] w']; try exact I.
  destruct H as (-> & _). unfold ret. exact I.
Qed.

End PagingFacts.

Section PagingClaim.
Context {W : Type} (youtube : Service W).

(** C6, amended.  One channel's search on a platform that answers a page
    request with at most the number of items asked for and whose pages with
    a next-page token are not empty: with [max_results] rounds of fuel
    [search_channel_videos] returns, with at most [max(0, max_results)]
    records.  The requests it issued are those of the one run of [paging]
    from the state in which the platform was: each asks for
    [min(50, max_results - len(videos))] items, [videos] being what the
    answers before it brought; none is issued once the bound is reached or
    an answer comes without a token.  The result is what that run
    accumulated, or [[]] when a request failed. *)
Theorem search_channel_videos_pages (fuel : nat)
    (channel_id published_after published_before : string) (max_results : Z)
    (w : world W) :
  PagingSpec.honours_maxResults youtube ->
  PagingSpec.pages_make_progress youtube ->
  (Z.to_nat max_results <= fuel)%nat ->
  exists (videos : list VideoData) (w' : world W) (rqs : list call)
         (r : option (list VideoData)),
    VideoSearcher.search_channel_videos youtube fuel channel_id published_after
      published_before max_results w = (Ok videos, w')
    /\ Z.of_nat (length videos) <= Z.max 0 max_results
    /\ PagingSpec.paging youtube channel_id published_after published_before max_results
         [] None (remote w) rqs r (remote w')
    /\ trace w' = (trace w ++ rqs)%list
    /\ videos = match r with Some vs => vs | None => [] end
    /\ forall (rqs' : list call) (r' : option (list VideoData)) (s' : W),
         PagingSpec.paging youtube channel_id published_after published_before
           max_results [] None (remote w) rqs' r' s' ->
         rqs' = rqs /\ r' = r /\ s' = remote w'.
Proof.
  intros Hon Hpr Hfuel.
  unfold VideoSearcher.search_channel_videos, try_except_HttpError.
  pose proof (search_channel_videos_loop_paging youtube channel_id published_after
                published_before max_results fuel [] None w) as Hrun.
  pose proof (search_channel_videos_loop_bounded youtube channel_id published_after
                published_before max_results fuel Hon [] None w) as Hbound.
  pose proof (search_channel_videos_loop_terminates youtube channel_id published_after
                published_before max_results fuel Hpr [] None w) as Hterm.
  destruct (VideoSearcher.search_channel_videos_loop youtube fuel channel_id
              published_after published_before max_results [] None w)
    as [[vs|e|] w'].
  - destruct Hrun as (rqs & Hp & Ht).
    exists vs, w', rqs, (Some vs).
    split; [reflexivity|]. split.
    { apply (Hbound vs w'); [simpl length; lia | reflexivity]. }
    split; [exact Hp|]. split; [exact Ht|]. split; [reflexivity|].
    intros rqs' r' s' Hp'.
    destruct (paging_functional youtube _ _ _ _ _ _ _ _ _ _ Hp _ _ _ Hp') as (-> & -> & ->).
    auto.
  - destruct Hrun as (-> & rqs & Hp & Ht).
    exists [], w', rqs, None. unfold ret.
    split; [reflexivity|]. split; [simpl length; lia|].
    split; [exact Hp|]. split; [exact Ht|]. split; [reflexivity|].
    intros rqs' r' s' Hp'.
    destruct (paging_functional youtube _ _ _ _ _ _ _ _ _ _ Hp _ _ _ Hp') as (-> & -> & ->).
    auto.
  - exfalso. apply Hterm; [simpl length; lia | reflexivity].
Qed.

End PagingClaim.

Lemma platform_honours_maxResults : PagingSpec.honours_maxResults Platform.service.
Proof.
  intros cid a b n tok s s' page Hn. cbn. unfold Platform.answer.
  destruct (Platform.rejects s _); [discriminate|].
  intros [= <- _]. cbn. rewrite length_firstn. lia.
Qed.

Lemma platform_pages_make_progress : PagingSpec.pages_make_progress Platform.service.
Proof.
  intros cid a b n tok s s' page Hn. cbn. unfold Platform.answer.
  destruct (Platform.rejects s _); [discriminate|].
  intros [= <- _]. unfold Platform.page_of. cbn [items nextPageToken].
  destruct (_ <? _)%nat eqn:E; [|intros Hf; discriminate Hf].
  apply Nat.ltb_lt in E. intros _ Hnil.
  apply (f_equal (@length SearchResult)) in Hnil.
  rewrite length_firstn in Hnil. simpl in Hnil. lia.
Qed.

(** C6, as the specification states it, fails on a platform that sends more
    than it is asked for: the code appends every page whole.  Asked for 50
    of a bound of 120, the platform sends the 130 uploads of the channel in
    one page, and all 130 are returned. *)
Lemma search_channel_videos_keeps_an_overfull_page :
  exists (videos : list VideoData) (w' : world Platform.state),
    VideoSearcher.search_channel_videos Platform.unbounded_service 120 "UC-busy" "a" "b" 120
      (Platform.start Runs.busy_channel) = (Ok videos, w')
    /\ trace w' = [SearchVideo "UC-busy" "a" "b" 50 None]
    /\ Z.of_nat (length videos) = 130
    /\ ~ Z.of_nat (length videos) <= 120.
Proof.
  eexists. eexists. split; [vm_compute; reflexivity|].
  split; [reflexivity|]. split; [vm_compute; reflexivity|].
  vm_compute. intros H. apply H. reflexivity.
Qed.

(** A bound of 120 on a channel that has 130 uploads. *)
Lemma search_channel_videos_pages_witness :
  (Z.to_nat 120 <= 120)%nat
  /\ exists videos w' rqs r,
       VideoSearcher.search_channel_videos Platform.service 120 "UC-busy" "a" "b" 120
         (Platform.start Runs.busy_channel) = (Ok videos, w')
       /\ Z.of_nat (length videos) <= Z.max 0 120
       /\ PagingSpec.paging Platform.service "UC-busy" "a" "b" 120 [] None
            (remote (Platform.start Runs.busy_channel)) rqs r (remote w')
       /\ trace w' = (trace (Platform.start Runs.busy_channel) ++ rqs)%list
       /\ videos = match r with Some vs => vs | None => [] end
       /\ forall rqs' r' s',
            PagingSpec.paging Platform.service "UC-busy" "a" "b" 120 [] None
              (remote (Platform.start Runs.busy_channel)) rqs' r' s' ->
            rqs' = rqs /\ r' = r /\ s' = remote w'.
Proof.
  assert (H1 : (Z.to_nat 120 <= 120)%nat) by (vm_compute; lia).
  split; [exact H1|].
  exact (search_channel_videos_pages Platform.service 120 "UC-busy" "a" "b" 120
           (Platform.start Runs.busy_channel)
           platform_honours_maxResults platform_pages_make_progress H1).
Defined.

(** The requests of that run: 50, 50 and 20 items, then the bound is reached. *)
Example busy_channel_requests :
  trace (snd (VideoSearcher.search_channel_videos Platform.service 120 "UC-busy" "a" "b" 120
                (Platform.start Runs.busy_channel)))
  = [ SearchVideo "UC-busy" "a" "b" 50 None;
      SearchVideo "UC-busy" "a" "b" 50 (Some (Platform.unary 50));
      SearchVideo "UC-busy" "a" "b" 20 (Some (Platform.unary 100)) ].
Proof. vm_compute. reflexivity. Qed.

(** ** The search engine: merging the channels *)

Section MergeFacts.
Context {W : Type} (youtube : Service W).

(** The accumulating loop of [search_multiple_channels] appends, channel by
    channel, what each channel contributes. *)
Lemma collect_channels_each_channel (fuel : nat) (cs : list Config.ChannelConfig)
    (a b : string) (max_results : Z) :
  forall (acc : list Video) (w : world W),
    VideoSearcher.collect_channels youtube fuel cs a b max_results acc w
    = bind (SearchSpec.each_channel youtube fuel cs a b max_results)
        (fun per => ret (acc ++ concat per)%list) w.
Proof.
  induction cs as [|c rest IH]; intros acc w.
  - cbn. unfold bind, ret. now rewrite app_nil_r.
  - cbn [VideoSearcher.collect_channels SearchSpec.each_channel].
    unfold SearchSpec.channel_results, bind, ret in IH |- *.
    destruct (VideoSearcher.resolve_channel_id youtube c w) as [[[cid|]|e|] w1];
      try reflexivity.
    + destruct (VideoSearcher.search_channel_videos youtube fuel cid a b max_results w1)
        as [[videos|e|] w2]; try reflexivity.
      rewrite IH.
      destruct (SearchSpec.each_channel youtube fuel rest a b max_results w2)
        as [[rs|e|] w3]; try reflexivity.
      cbn [concat]. now rewrite app_assoc.
    + rewrite IH.
      destruct (SearchSpec.each_channel youtube fuel rest a b max_results w1)
        as [[rs|e|] w3]; reflexivity.
Qed.

(** The loop over a list in two parts is the loop over the second part,
    started with what the first part accumulated. *)
Lemma collect_channels_app (fuel : nat) (a b : string) (max_results : Z)
    (pre post : list Config.ChannelConfig) :
  forall (acc : list Video) (w : world W),
    VideoSearcher.collect_channels youtube fuel (pre ++ post) a b max_results acc w
    = match VideoSearcher.collect_channels youtube fuel pre a b max_results acc w with
      | (Ok acc', w1) =>
          VideoSearcher.collect_channels youtube fuel post a b max_results acc' w1
      | (Raise e, w1) => (Raise e, w1)
      | (OutOfFuel, w1) => (OutOfFuel, w1)
      end.
Proof.
  induction pre as [|c rest IH]; intros acc w; [reflexivity|].
  cbn [app VideoSearcher.collect_channels]. unfold bind.
  destruct (VideoSearcher.resolve_channel_id youtube c w) as [[[cid|]|e|] w1];
    try reflexivity.
  - destruct (VideoSearcher.search_channel_videos youtube fuel cid a b max_results w1)
      as [[videos|e|] w2]; try reflexivity. apply IH.
  - apply IH.
Qed.

(** What the loop returns does not depend on what it started with, except
    that it comes first. *)
Lemma collect_channels_acc (fuel : nat) (a b : string) (max_results : Z)
    (cs : list Config.ChannelConfig) (acc more : list Video) (w w' : world W) :
  VideoSearcher.collect_channels youtube fuel cs a b max_results [] w = (Ok more, w') ->
  VideoSearcher.collect_channels youtube fuel cs a b max_results acc w
  = (Ok (acc ++ more)%list, w').
Proof.
  rewrite !collect_channels_each_channel. unfold bind, ret.
  destruct (SearchSpec.each_channel youtube fuel cs a b max_results w) as [[per|e|] w0];
    try discriminate.
  cbn [app]. intros [= <- <-]. reflexivity.
Qed.

(** A failing channel leaves the accumulated list as it is. *)
Lemma collect_channels_skips_failure (fuel : nat) (a b : string) (max_results : Z)
    (c : Config.ChannelConfig) (post : list Config.ChannelConfig) (acc : list Video)
    (w1 w2 : world W) :
  channel_fails youtube fuel a b max_results c w1 w2 ->
  VideoSearcher.collect_channels youtube fuel (c :: post) a b max_results acc w1
  = VideoSearcher.collect_channels youtube fuel post a b max_results acc w2.
Proof.
  intros [(Hid & h & r & s' & Hh & Hcall & Hfail & ->)|(cid & wr & Hres & Hloop)];
    cbn [VideoSearcher.collect_channels]; unfold bind.
  - unfold VideoSearcher.resolve_channel_id. rewrite Hid, Hh.
    unfold bind, VideoSearcher.get_channel_id_from_handle, try_except_HttpError, bind,
      execute, ret.
    rewrite Hcall.
    destruct r as [page|]; cbn in Hfail.
    + destruct (items page) as [|first tl].
      * reflexivity.
      * rewrite Hfail. reflexivity.
    + reflexivity.
  - rewrite Hres.
    unfold VideoSearcher.search_channel_videos, try_except_HttpError.
    rewrite Hloop. unfold ret. cbn [map]. rewrite app_nil_r. reflexivity.
Qed.

End MergeFacts.

Section MergeClaims.
Context {W : Type} (youtube : Service W).

(** C5. [search_multiple_channels] returns the concatenation of the
    per-channel results, taken in channel order, sorted by [published_at]:
    the result is a permutation of that concatenation, non-decreasing in
    [published_at], and records with the same [published_at] stay in the
    order of the concatenation (channel order, then platform order). *)
Theorem search_is_stable_sorted_merge (fuel : nat) (cs : list Config.ChannelConfig)
    (a b : string) (max_results : Z) (w : world W) :
  VideoSearcher.search_multiple_channels youtube fuel cs a b max_results w
  = bind (SearchSpec.each_channel youtube fuel cs a b max_results)
      (fun per => ret (VideoSearcher.sort_by_published_at (concat per))) w
  /\ forall (per : list (list Video)) (w' : world W),
       SearchSpec.each_channel youtube fuel cs a b max_results w = (Ok per, w') ->
       exists out : list Video,
         VideoSearcher.search_multiple_channels youtube fuel cs a b max_results w
         = (Ok out, w')
         /\ Permutation out (concat per)
         /\ StronglySorted SearchSpec.key_le out
         /\ forall k : string,
              List.filter (SearchSpec.has_key k) out
              = List.filter (SearchSpec.has_key k) (concat per).
Proof.
  assert (E : VideoSearcher.search_multiple_channels youtube fuel cs a b max_results w
              = bind (SearchSpec.each_channel youtube fuel cs a b max_results)
                  (fun per => ret (VideoSearcher.sort_by_published_at (concat per))) w).
  { unfold VideoSearcher.search_multiple_channels.
    unfold bind at 1. rewrite collect_channels_each_channel.
    unfold bind, ret.
    destruct (SearchSpec.each_channel youtube fuel cs a b max_results w)
      as [[per|e|] w']; reflexivity. }
  split; [exact E|].
  intros per w' Hper. rewrite E. unfold bind, ret. rewrite Hper.
  exists (VideoSearcher.sort_by_published_at (concat per)).
  split; [reflexivity|]. split; [apply sort_by_published_at_perm|].
  split; [apply sort_by_published_at_sorted|].
  intros k. apply sort_by_published_at_stable.
Qed.

Lemma get_channel_id_from_handle_returns (h : string) (w : world W) :
  exists r w', VideoSearcher.get_channel_id_from_handle youtube h w = (Ok r, w').
Proof.
  unfold VideoSearcher.get_channel_id_from_handle, try_except_HttpError, bind, execute, ret.
  destruct (search_channel youtube (PyStr.lstrip_at h) 1 (remote w)) as [[page|] s'].
  - destruct (items page); eauto.
  - eauto.
Qed.

Lemma resolve_channel_id_returns (c : Config.ChannelConfig) (w : world W) :
  resolvable c ->
  exists r w', VideoSearcher.resolve_channel_id youtube c w = (Ok r, w').
Proof.
  intros Hres. unfold VideoSearcher.resolve_channel_id.
  destruct (truthy (Config.channel_id c)) eqn:Et.
  - unfold ret. eauto.
  - destruct Hres as [Hres|Hres]; [congruence|].
    destruct (Config.handle c) as [h|]; [|congruence].
    unfold bind.
    destruct (get_channel_id_from_handle_returns h w) as (r & w' & ->).
    destruct (truthy r); unfold ret; eauto.
Qed.

Lemma search_channel_videos_returns (fuel : nat) (cid a b : string) (max_results : Z)
    (w : world W) :
  PagingSpec.pages_make_progress youtube ->
  (Z.to_nat max_results <= fuel)%nat ->
  exists videos w',
    VideoSearcher.search_channel_videos youtube fuel cid a b max_results w
    = (Ok videos, w').
Proof.
  intros Hpr Hfuel.
  pose proof (search_channel_videos_outcome youtube cid a b max_results fuel w) as Hout.
  pose proof (search_channel_videos_loop_terminates youtube cid a b max_results fuel
                Hpr [] None w) as Hterm.
  unfold VideoSearcher.search_channel_videos, try_except_HttpError in *.
  destruct (VideoSearcher.search_channel_videos_loop youtube fuel cid a b max_results
              [] None w) as [[vs|e|] w'].
  - eauto.
  - destruct e; try contradiction. unfold ret. eauto.
  - exfalso. apply Hterm; [simpl length; lia | reflexivity].
Qed.

Lemma collect_channels_returns (fuel : nat) (a b : string) (max_results : Z)
    (cs : list Config.ChannelConfig) :
  PagingSpec.pages_make_progress youtube ->
  (Z.to_nat max_results <= fuel)%nat ->
  Forall resolvable cs ->
  forall (acc : list Video) (w : world W),
  exists all w',
    VideoSearcher.collect_channels youtube fuel cs a b max_results acc w = (Ok all, w').
Proof.
  intros Hpr Hfuel Hall.
  induction Hall as [|c rest Hc Hrest IH]; intros acc w; simpl.
  - unfold ret. eauto.
  - unfold bind.
    destruct (resolve_channel_id_returns c w Hc) as ([cid|] & w1 & ->).
    + destruct (search_channel_videos_returns fuel cid a b max_results w1 Hpr Hfuel)
        as (videos & w2 & ->).
      apply IH.
    + apply IH.
Qed.

(** C8. Wherever it stands in the list, a channel whose handle lookup fails
    or whose video search is answered with an error contributes nothing and
    does not stop the search: the loop goes on with the channels after it,
    from the world the failed attempt left, and still holds the records
    [found] of the channels before it.  When the remaining channels bring
    [more], the search returns [found ++ more], sorted.  With resolvable
    descriptors the search always returns a list (possibly empty) and
    raises nothing. *)
Theorem channel_failures_do_not_abort (fuel : nat) (a b : string) (max_results : Z) :
  (forall (pre : list Config.ChannelConfig) (c : Config.ChannelConfig)
          (post : list Config.ChannelConfig) (w w1 w2 : world W) (found : list Video),
      VideoSearcher.collect_channels youtube fuel pre a b max_results [] w
      = (Ok found, w1) ->
      channel_fails youtube fuel a b max_results c w1 w2 ->
      VideoSearcher.collect_channels youtube fuel (pre ++ c :: post) a b max_results [] w
      = VideoSearcher.collect_channels youtube fuel post a b max_results found w2
      /\ VideoSearcher.search_multiple_channels youtube fuel (pre ++ c :: post) a b
           max_results w
         = (all_videos <- VideoSearcher.collect_channels youtube fuel post a b
                            max_results found ;;
            ret (VideoSearcher.sort_by_published_at all_videos)) w2
      /\ forall (more : list Video) (w3 : world W),
           VideoSearcher.collect_channels youtube fuel post a b max_results [] w2
           = (Ok more, w3) ->
           VideoSearcher.search_multiple_channels youtube fuel (pre ++ c :: post) a b
             max_results w
           = (Ok (VideoSearcher.sort_by_published_at (found ++ more)), w3))
  /\ (forall (cs : list Config.ChannelConfig) (w : world W),
        Forall resolvable cs ->
        PagingSpec.pages_make_progress youtube ->
        (Z.to_nat max_results <= fuel)%nat ->
        exists videos w',
          VideoSearcher.search_multiple_channels youtube fuel cs a b max_results w
          = (Ok videos, w'))
  /\ (forall w : world W,
        VideoSearcher.search_multiple_channels youtube fuel [] a b max_results w
        = (Ok [], w)).
Proof.
  split; [|split].
  - intros pre c post w w1 w2 found Hpre Hfail.
    assert (Hloop :
      VideoSearcher.collect_channels youtube fuel (pre ++ c :: post) a b max_results [] w
      = VideoSearcher.collect_channels youtube fuel post a b max_results found w2).
    { rewrite collect_channels_app, Hpre.
      apply collect_channels_skips_failure. exact Hfail. }
    split; [exact Hloop|]. split.
    + unfold VideoSearcher.search_multiple_channels, bind. rewrite Hloop. reflexivity.
    + intros more w3 Hpost.
      unfold VideoSearcher.search_multiple_channels, bind. rewrite Hloop.
      rewrite (collect_channels_acc youtube fuel a b max_results post found more w2 w3 Hpost).
      reflexivity.
  - intros cs w Hall Hpr Hfuel.
    unfold VideoSearcher.search_multiple_channels, bind.
    destruct (collect_channels_returns fuel a b max_results cs Hpr Hfuel Hall [] w)
      as (all & w' & ->).
    unfold ret. eauto.
  - reflexivity.
Qed.

End MergeClaims.

(** Two channels whose records tie pairwise: each tie is resolved in favour
    of the channel that comes first, and within a channel nothing is
    reordered unless the keys demand it. *)
Lemma search_is_stable_sorted_merge_witness :
  SearchSpec.each_channel Platform.service 50 [Runs.first_channel; Runs.second_channel]
    "a" "b" 50 (Platform.start Runs.two_channels)
  = (Ok [ [Runs.tagged "First" "a1" "2024-05-01T02:00:00Z";
           Runs.tagged "First" "a2" "2024-05-01T01:00:00Z"];
          [Runs.tagged "Second" "b1" "2024-05-01T01:00:00Z";
           Runs.tagged "Second" "b2" "2024-05-01T02:00:00Z"] ],
     snd (SearchSpec.each_channel Platform.service 50
            [Runs.first_channel; Runs.second_channel] "a" "b" 50
            (Platform.start Runs.two_channels)))
  /\ exists out : list Video,
       fst (VideoSearcher.search_multiple_channels Platform.service 50
              [Runs.first_channel; Runs.second_channel] "a" "b" 50
              (Platform.start Runs.two_channels)) = Ok out
       /\ StronglySorted SearchSpec.key_le out
       /\ out = [ Runs.tagged "First" "a2" "2024-05-01T01:00:00Z";
                  Runs.tagged "Second" "b1" "2024-05-01T01:00:00Z";
                  Runs.tagged "First" "a1" "2024-05-01T02:00:00Z";
                  Runs.tagged "Second" "b2" "2024-05-01T02:00:00Z" ].
Proof.
  assert (H : SearchSpec.each_channel Platform.service 50
                [Runs.first_channel; Runs.second_channel] "a" "b" 50
                (Platform.start Runs.two_channels)
              = (Ok [ [Runs.tagged "First" "a1" "2024-05-01T02:00:00Z";
                       Runs.tagged "First" "a2" "2024-05-01T01:00:00Z"];
                      [Runs.tagged "Second" "b1" "2024-05-01T01:00:00Z";
                       Runs.tagged "Second" "b2" "2024-05-01T02:00:00Z"] ],
                 snd (SearchSpec.each_channel Platform.service 50
                        [Runs.first_channel; Runs.second_channel] "a" "b" 50
                        (Platform.start Runs.two_channels))))
    by (vm_compute; reflexivity).
  split; [exact H|].
  destruct (proj2 (search_is_stable_sorted_merge Platform.service 50
                     [Runs.first_channel; Runs.second_channel] "a" "b" 50
                     (Platform.start Runs.two_channels)) _ _ H)
    as (out & E & _ & Hsorted & _).
  exists out.
  assert (E1 : fst (VideoSearcher.search_multiple_channels Platform.service 50
                      [Runs.first_channel; Runs.second_channel] "a" "b" 50
                      (Platform.start Runs.two_channels)) = Ok out)
    by (rewrite E; reflexivity).
  split; [exact E1|]. split; [exact Hsorted|].
  revert E1. vm_compute. intros [= <-]. reflexivity.
Defined.

(** A healthy channel, then one with an unknown handle or one whose search
    is refused, then a healthy one: the records of the first are kept, the
    failure is skipped, and the last is searched. *)
Lemma channel_failures_do_not_abort_witness :
  VideoSearcher.search_multiple_channels Platform.service 50
    [Runs.first_channel; Runs.ghost_channel; Runs.second_channel] "a" "b" 50
    (Platform.start Runs.two_channels)
  = (Ok [ Runs.tagged "First" "a2" "2024-05-01T01:00:00Z";
          Runs.tagged "Second" "b1" "2024-05-01T01:00:00Z";
          Runs.tagged "First" "a1" "2024-05-01T02:00:00Z";
          Runs.tagged "Second" "b2" "2024-05-01T02:00:00Z" ],
     {| remote := Runs.two_channels;
        trace := [ SearchVideo "UC-a" "a" "b" 50 None; SearchChannel "ghost" 1;
                   SearchChannel "second" 1; SearchVideo "UC-b" "a" "b" 50 None ] |})
  /\ VideoSearcher.search_multiple_channels Platform.service 50
       [Runs.first_channel; Runs.down_channel; Runs.second_channel] "a" "b" 50
       (Platform.start Runs.two_channels)
     = (Ok [ Runs.tagged "First" "a2" "2024-05-01T01:00:00Z";
             Runs.tagged "Second" "b1" "2024-05-01T01:00:00Z";
             Runs.tagged "First" "a1" "2024-05-01T02:00:00Z";
             Runs.tagged "Second" "b2" "2024-05-01T02:00:00Z" ],
        {| remote := Runs.two_channels;
           trace := [ SearchVideo "UC-a" "a" "b" 50 None;
                      SearchVideo "UC-down" "a" "b" 50 None;
                      SearchChannel "second" 1; SearchVideo "UC-b" "a" "b" 50 None ] |})
  /\ exists videos w',
       VideoSearcher.search_multiple_channels Platform.service 50
         [Runs.ghost_channel; Runs.down_channel; Runs.second_channel] "a" "b" 50
         (Platform.start Runs.two_channels) = (Ok videos, w').
Proof.
  destruct (channel_failures_do_not_abort Platform.service 50 "a" "b" 50)
    as (Hskip & Hreturns & _).
  assert (Hfirst :
    VideoSearcher.collect_channels Platform.service 50 [Runs.first_channel] "a" "b" 50 []
      (Platform.start Runs.two_channels)
    = (Ok [ Runs.tagged "First" "a1" "2024-05-01T02:00:00Z";
            Runs.tagged "First" "a2" "2024-05-01T01:00:00Z" ],
       {| remote := Runs.two_channels;
          trace := [SearchVideo "UC-a" "a" "b" 50 None] |}))
    by (vm_compute; reflexivity).
  split; [|split].
  - destruct (Hskip [Runs.first_channel] Runs.ghost_channel [Runs.second_channel]
                _ _
                {| remote := Runs.two_channels;
                   trace := [SearchVideo "UC-a" "a" "b" 50 None; SearchChannel "ghost" 1] |}
                _ Hfirst) as (_ & _ & Hres).
    + left. split; [reflexivity|].
      exists "@ghost"%string, (Response {| items := []; nextPageToken := None |}),
        Runs.two_channels.
      split; [reflexivity|]. split; [vm_compute; reflexivity|].
      split; [exact I | reflexivity].
    + apply (Hres [ Runs.tagged "Second" "b1" "2024-05-01T01:00:00Z";
                    Runs.tagged "Second" "b2" "2024-05-01T02:00:00Z" ]).
      vm_compute. reflexivity.
  - destruct (Hskip [Runs.first_channel] Runs.down_channel [Runs.second_channel]
                _ _
                {| remote := Runs.two_channels;
                   trace := [ SearchVideo "UC-a" "a" "b" 50 None;
                              SearchVideo "UC-down" "a" "b" 50 None ] |}
                _ Hfirst) as (_ & _ & Hres).
    + right. exists "UC-down"%string,
        {| remote := Runs.two_channels; trace := [SearchVideo "UC-a" "a" "b" 50 None] |}.
      split; vm_compute; reflexivity.
    + apply (Hres [ Runs.tagged "Second" "b1" "2024-05-01T01:00:00Z";
                    Runs.tagged "Second" "b2" "2024-05-01T02:00:00Z" ]).
      vm_compute. reflexivity.
  - apply Hreturns.
    + constructor; [right; discriminate|].
      constructor; [left; reflexivity|].
      constructor; [right; discriminate|].
      constructor.
    + exact platform_pages_make_progress.
    + vm_compute. lia.
Defined.

(** What that search returns: the two records of the one channel that
    answered. *)
Example failing_channels_leave_the_rest :
  fst (VideoSearcher.search_multiple_channels Platform.service 50
         [Runs.ghost_channel; Runs.down_channel; Runs.second_channel] "a" "b" 50
         (Platform.start Runs.two_channels))
  = Ok [ Runs.tagged "Second" "b1" "2024-05-01T01:00:00Z";
         Runs.tagged "Second" "b2" "2024-05-01T02:00:00Z" ].
Proof. vm_compute. reflexivity. Qed.

(** ** The time window *)

Lemma us_per_hour_value : Config.us_per_hour = 3600000000.
Proof. reflexivity. Qed.

Lemma datetime_max_value : Config.datetime_max = 315537897599999999.
Proof. vm_compute. reflexivity. Qed.

(** The window computed from the two clock readings. *)
Lemma date_range_spec (cfg : Config.DateConfig) (now : datetime) (today : date) :
  (forall h : Z,
      Config.dc_hours_back cfg = Some h ->
      0 < h ->
      0 <= window_end cfg now today - h * Config.us_per_hour ->
      window_end cfg now today <= Config.datetime_max ->
      Config.date_range cfg now today
      = Ok (window_end cfg now today - h * Config.us_per_hour, window_end cfg now today))
  /\ (Config.hours_back_set (Config.dc_hours_back cfg) = None ->
      Config.date_range cfg now today
      = Ok (Config.combine (Config.target_date cfg) Config.time_min,
            window_end cfg now today)).
Proof.
  unfold Config.date_range, window_end. split.
  - intros h Hh Hpos Hlo Hhi. rewrite Hh. unfold Config.hours_back_set.
    replace (h =? 0) with false by (symmetry; apply Z.eqb_neq; lia).
    set (e := if negb (Config.date_eqb (Config.target_date cfg) today)
              then Config.combine (Config.target_date cfg) Config.time_max
              else now).
    assert (He : e = if Config.date_eqb (Config.target_date cfg) today
                     then now
                     else Config.combine (Config.target_date cfg) Config.time_max).
    { subst e. destruct (Config.date_eqb _ _); reflexivity. }
    rewrite <- He in Hlo, Hhi. rewrite <- He.
    rewrite us_per_hour_value in *. rewrite datetime_max_value in Hhi.
    unfold Config.timedelta_hours.
    replace ((-999999999 <=? h / 24) && (h / 24 <=? 999999999)) with true.
    2:{ symmetry. apply andb_true_intro. split; apply Z.leb_le.
        - apply Z.div_le_lower_bound; lia.
        - apply Z.div_le_upper_bound; lia. }
    unfold Config.datetime_sub. rewrite us_per_hour_value, datetime_max_value.
    replace ((0 <=? e - h * 3600000000) && (e - h * 3600000000 <=? 315537897599999999))
      with true
      by (symmetry; apply andb_true_intro; split; apply Z.leb_le; lia).
    reflexivity.
  - intros Hunset. rewrite Hunset.
    destruct (Config.date_eqb (Config.target_date cfg) today); reflexivity.
Qed.

(** [get_date_range] reads the clock twice and issues no request. *)
Lemma get_date_range_reads_the_clock {W : Type} (youtube : Service W)
    (cfg : Config.DateConfig) (w : world W) :
  Config.get_date_range youtube cfg w
  = (Config.date_range cfg (fst (clock_now youtube (remote w)))
       (fst (clock_today youtube (snd (clock_now youtube (remote w))))),
     {| remote := snd (clock_today youtube (snd (clock_now youtube (remote w))));
        trace := trace w |}).
Proof.
  unfold Config.get_date_range, bind, read_clock, Config.lift.
  destruct (clock_now youtube (remote w)) as [now s1]. cbn.
  destruct (clock_today youtube s1) as [today s2]. reflexivity.
Qed.

(** C4, as the specification states it, fails when [hours_back] is [0]: the
    value counts as not set, and the window of a run at noon starts at
    midnight, twelve hours before its end. *)
Lemma window_of_zero_hours_back_is_not_empty :
  fst (Config.get_date_range Platform.service
         {| Config.target_date := Runs.may_first; Config.dc_hours_back := Some 0 |}
         (Platform.start Runs.at_noon))
  = Ok (Config.combine Runs.may_first 0, Runs.may_first_noon)
  /\ Runs.may_first_noon - Config.combine Runs.may_first 0 <> 0 * Config.us_per_hour.
Proof. split; [vm_compute; reflexivity | vm_compute; discriminate]. Qed.

(** C4, amended.  Let [now] and [today] be the two clock readings of
    [get_date_range].  A positive [hours_back] gives a window that ends at
    [window_end] and is exactly that many hours long, hence not empty,
    provided its start is a representable instant.  Without an effective
    [hours_back] ([None] or [0]) the window starts at midnight of the target
    date and ends at [window_end], which lies after that midnight whenever
    the target date is not today. *)
Theorem date_range_window {W : Type} (youtube : Service W) (cfg : Config.DateConfig)
    (w : world W) :
  let now := fst (clock_now youtube (remote w)) in
  let today := fst (clock_today youtube (snd (clock_now youtube (remote w)))) in
  (forall h : Z,
      Config.dc_hours_back cfg = Some h ->
      0 < h ->
      0 <= window_end cfg now today - h * Config.us_per_hour ->
      window_end cfg now today <= Config.datetime_max ->
      exists start_time end_time,
        fst (Config.get_date_range youtube cfg w) = Ok (start_time, end_time)
        /\ end_time = window_end cfg now today
        /\ start_time < end_time
        /\ end_time - start_time = h * Config.us_per_hour)
  /\ (Config.hours_back_set (Config.dc_hours_back cfg) = None ->
      fst (Config.get_date_range youtube cfg w)
      = Ok (Config.combine (Config.target_date cfg) Config.time_min,
            window_end cfg now today)
      /\ (Config.date_eqb (Config.target_date cfg) today = false ->
          Config.combine (Config.target_date cfg) Config.time_min
          < window_end cfg now today)).
Proof.
  cbv zeta. rewrite get_date_range_reads_the_clock. cbn [fst].
  set (now := fst (clock_now youtube (remote w))).
  set (today := fst (clock_today youtube (snd (clock_now youtube (remote w))))).
  destruct (date_range_spec cfg now today) as [Hset Hunset].
  split.
  - intros h Hh Hpos Hlo Hhi. rewrite (Hset h Hh Hpos Hlo Hhi).
    eexists _, _. split; [reflexivity|]. rewrite us_per_hour_value.
    repeat split; lia.
  - intros Hnone. split; [apply Hunset, Hnone|].
    intros Hne. unfold window_end. rewrite Hne.
    unfold Config.combine, Config.time_min, Config.time_max.
    change Config.us_per_day with 86400000000. lia.
Qed.

(** Seven hours back from noon of the target date, which is today. *)
Lemma date_range_window_witness :
  exists start_time end_time,
    fst (Config.get_date_range Platform.service
           {| Config.target_date := Runs.may_first; Config.dc_hours_back := Some 7 |}
           (Platform.start Runs.at_noon)) = Ok (start_time, end_time)
    /\ end_time = Runs.may_first_noon
    /\ start_time < end_time
    /\ end_time - start_time = 7 * Config.us_per_hour.
Proof.
  apply (proj1 (date_range_window Platform.service
                  {| Config.target_date := Runs.may_first; Config.dc_hours_back := Some 7 |}
                  (Platform.start Runs.at_noon)) 7).
  - reflexivity.
  - lia.
  - vm_compute. discriminate.
  - vm_compute. discriminate.
Defined.

(** With the target date today and no [hours_back], the window is not empty
    only if the current UTC instant is past the midnight of the local date:
    on a machine east of Greenwich, early in its day, it is not. *)
Example window_of_today_may_be_reversed :
  Config.date_range
    {| Config.target_date := Runs.may_first; Config.dc_hours_back := None |}
    (Config.combine {| year := 2024; month := 4; day := 30 |} (18 * Config.us_per_hour))
    Runs.may_first
  = Ok (Config.combine Runs.may_first 0,
        Config.combine {| year := 2024; month := 4; day := 30 |} (18 * Config.us_per_hour))
  /\ Config.combine {| year := 2024; month := 4; day := 30 |} (18 * Config.us_per_hour)
     < Config.combine Runs.may_first 0.
Proof. split; vm_compute; reflexivity. Qed.

(** ** The formatter *)

Lemma plain_char_inv (c : ascii) :
  plain_char c = true ->
  Ascii.eqb c "{"%char = false /\ Ascii.eqb c "}"%char = false
  /\ Ascii.eqb c "["%char = false /\ Ascii.eqb c ":"%char = false
  /\ Ascii.eqb c "!"%char = false /\ Ascii.eqb c "."%char = false.
Proof.
  unfold plain_char. intros H. apply negb_true_iff in H.
  repeat (apply orb_false_elim in H; destruct H as [H ?]). auto 10.
Qed.

Lemma ends_arg_name_inv (c : ascii) :
  ends_arg_name c = true ->
  c = "}"%char \/ c = "!"%char \/ c = ":"%char \/ c = "."%char \/ c = "["%char.
Proof.
  unfold ends_arg_name. intros H.
  repeat (apply orb_true_iff in H; destruct H as [H|H]);
    apply Ascii.eqb_eq in H; auto 10.
Qed.

Lemma arg_name_plain (name : string) :
  plain_name name = true -> PyStr.arg_name name = name.
Proof.
  induction name as [|c name IH]; intros Hp; [reflexivity|].
  cbn in Hp. apply andb_prop in Hp as [Hc Hn].
  cbn [PyStr.arg_name].
  destruct (plain_char_inv c Hc) as (_ & _ & Hb & _ & _ & Hd).
  rewrite Hd, Hb. cbn. now rewrite IH.
Qed.

(** Once the argument name is closed by a dot or a bracket, what follows in
    the field name leaves it as it is. *)
Lemma arg_name_closed (n : string) (c : ascii) :
  PyStr.arg_name n <> n ->
  PyStr.arg_name (PyStr.snoc n c) = PyStr.arg_name n
  /\ PyStr.arg_name (PyStr.snoc n c) <> PyStr.snoc n c.
Proof.
  unfold PyStr.snoc. induction n as [|a n IH]; intros Hn; [now contradiction Hn|].
  rewrite append_cons. cbn [PyStr.arg_name] in *.
  destruct (Ascii.eqb a "."%char || Ascii.eqb a "["%char)%bool.
  - split; [reflexivity | discriminate].
  - assert (Hn' : PyStr.arg_name n <> n) by (intros E; apply Hn; now rewrite E).
    destruct (IH Hn') as [E1 E2]. split; [now rewrite E1|].
    intros E. injection E as E. contradiction.
Qed.

(** A plain name followed by a dot or a bracket is a closed argument name. *)
Lemma arg_name_plain_closed (name : string) (c : ascii) :
  plain_name name = true ->
  c = "."%char \/ c = "["%char ->
  PyStr.arg_name (PyStr.snoc name c) = name
  /\ PyStr.arg_name (PyStr.snoc name c) <> PyStr.snoc name c.
Proof.
  unfold PyStr.snoc. intros Hp Hc. induction name as [|a name IH].
  - rewrite append_empty_l. cbn [PyStr.arg_name].
    destruct Hc as [-> | ->]; cbn; split; [reflexivity | discriminate | reflexivity
                                          | discriminate].
  - cbn in Hp. apply andb_prop in Hp as [Ha Hn].
    destruct (plain_char_inv a Ha) as (_ & _ & Hb & _ & _ & Hd).
    rewrite append_cons. cbn [PyStr.arg_name]. rewrite Hd, Hb. cbn [orb].
    destruct (IH Hn) as [E1 E2]. split; [now rewrite E1|].
    intros E. injection E as E. contradiction.
Qed.

Lemma has_open_brace_app (s1 s2 : string) :
  PyStr.has_open_brace (s1 ++ s2)
  = (PyStr.has_open_brace s1 || PyStr.has_open_brace s2)%bool.
Proof.
  induction s1 as [|c s1 IH]; [now rewrite append_empty_l|].
  rewrite append_cons. cbn [PyStr.has_open_brace]. rewrite IH. now rewrite orb_assoc.
Qed.

Section FormatFacts.
Context (str_of_int : Z -> string).
Context (render_extended :
           PyStr.pyval -> string -> option ascii ->
           PyStr.result (option string -> PyStr.result string)).
Context (expand : string -> outcome string).
Context (kwargs : list (string * PyStr.pyval)).

Local Abbreviation run := (PyStr.run str_of_int render_extended expand kwargs).
Local Abbreviation step := (PyStr.step str_of_int render_extended expand kwargs).

Lemma run_app (s1 s2 : string) :
  forall (st : PyStr.fstate) (out : string),
    run st out (s1 ++ s2)
    = match run st out s1 with
      | Ok (st', out') => run st' out' s2
      | Raise e => Raise e
      | OutOfFuel => OutOfFuel
      end.
Proof.
  induction s1 as [|c s1 IH]; intros st out; [reflexivity|].
  rewrite append_cons. cbn [PyStr.run].
  destruct (step st out c) as [[st' out']|e|];
    [apply IH | reflexivity | reflexivity].
Qed.

Lemma field_char_plain (out name : string) (c : ascii) :
  plain_char c = true ->
  PyStr.field_char str_of_int render_extended expand kwargs out name c
  = Ok (PyStr.FieldName (PyStr.snoc name c), out).
Proof.
  intros H. destruct (plain_char_inv c H) as (H1 & H2 & H3 & H4 & H5 & _).
  unfold PyStr.field_char. now rewrite H1, H2, H3, H4, H5.
Qed.

Lemma run_plain_name (name : string) :
  plain_name name = true ->
  forall acc out : string,
    run (PyStr.FieldName acc) out name = Ok (PyStr.FieldName (acc ++ name), out).
Proof.
  induction name as [|c name IH]; intros Hp acc out.
  - now rewrite append_empty_r.
  - cbn in Hp. apply andb_prop in Hp as [Hc Hn].
    cbn [PyStr.run PyStr.step]. rewrite field_char_plain by assumption.
    rewrite IH by assumption. unfold PyStr.snoc. now rewrite append_assoc.
Qed.

Lemma emit_unknown (out name : string) :
  plain_name name = true ->
  PyStr.lookup_kw kwargs name = None ->
  PyStr.emit str_of_int render_extended expand kwargs out name None None
  = Raise (unknown_placeholder_error name).
Proof.
  intros Hp Hl. unfold PyStr.emit, PyStr.render_field, unknown_placeholder_error.
  rewrite arg_name_plain by assumption.
  destruct (PyStr.all_digits name); [reflexivity|]. now rewrite Hl.
Qed.

Lemma field_char_close (out name : string) :
  PyStr.field_char str_of_int render_extended expand kwargs out name "}"%char
  = PyStr.emit str_of_int render_extended expand kwargs out name None None.
Proof. reflexivity. Qed.

(** Reading an unknown placeholder, from the character after its opening
    brace, raises. *)
Lemma run_unknown_placeholder (out name post : string) :
  plain_name name = true ->
  PyStr.lookup_kw kwargs name = None ->
  run PyStr.SawOpen out (name ++ String "}"%char post)
  = Raise (unknown_placeholder_error name).
Proof.
  intros Hp Hl. destruct name as [|c name].
  - rewrite append_empty_l. cbn [PyStr.run PyStr.step].
    change (Ascii.eqb "}"%char "{"%char) with false. cbv iota.
    rewrite field_char_close, emit_unknown by assumption. reflexivity.
  - pose proof Hp as Hp'. cbn in Hp'. apply andb_prop in Hp' as [Hc Hn].
    rewrite append_cons. cbn [PyStr.run PyStr.step].
    destruct (plain_char_inv c Hc) as (Hbrace & _).
    rewrite Hbrace, field_char_plain by assumption.
    rewrite run_app, run_plain_name by assumption.
    cbn [PyStr.run PyStr.step].
    change (PyStr.snoc EmptyString c ++ name)%string with (String c name).
    rewrite field_char_close, emit_unknown by assumption. reflexivity.
Qed.

(** *** A field whose argument is unknown cannot be left without an error *)

Lemma emit_doomed (out n : string) (conversion : option ascii) (spec : option string) :
  unknown_arg kwargs (PyStr.arg_name n) ->
  exists e, PyStr.emit str_of_int render_extended expand kwargs out n conversion spec
            = Raise e.
Proof.
  intros [Hd|Hl]; unfold PyStr.emit, PyStr.render_field.
  - rewrite Hd. eauto.
  - destruct (PyStr.all_digits (PyStr.arg_name n)); [eauto|]. rewrite Hl. eauto.
Qed.

Lemma step_doomed (st : PyStr.fstate) (out : string) (c : ascii) :
  doomed kwargs st ->
  (exists e, step st out c = Raise e)
  \/ (exists st' out', step st out c = Ok (st', out') /\ doomed kwargs st').
Proof.
  destruct st as [| | |n|n|n|n cv|n cv sp k]; cbn [doomed]; try contradiction;
    cbn [PyStr.step]; unfold PyStr.field_char.
  - intros [Hclosed Hun].
    destruct (Ascii.eqb c "{"%char); [left; eauto|].
    destruct (Ascii.eqb c "["%char).
    { right. do 2 eexists. split; [reflexivity|]. cbn [doomed].
      destruct (arg_name_closed n c Hclosed) as [E1 E2].
      split; [exact E2 | rewrite E1; exact Hun]. }
    destruct (Ascii.eqb c "}"%char); [left; now apply emit_doomed|].
    destruct (Ascii.eqb c ":"%char); [right; do 2 eexists; split; [reflexivity | exact Hun]|].
    destruct (Ascii.eqb c "!"%char); [right; do 2 eexists; split; [reflexivity | exact Hun]|].
    right. do 2 eexists. split; [reflexivity|]. cbn [doomed].
    destruct (arg_name_closed n c Hclosed) as [E1 E2].
      split; [exact E2 | rewrite E1; exact Hun].
  - intros [Hclosed Hun].
    destruct (arg_name_closed n c Hclosed) as [E1 E2].
    destruct (Ascii.eqb c "]"%char); right; do 2 eexists; (split; [reflexivity|]);
      cbn [doomed]; (split; [exact E2 | rewrite E1; exact Hun]).
  - intros Hun. right. do 2 eexists. split; [reflexivity | exact Hun].
  - intros Hun.
    destruct (Ascii.eqb c "}"%char); [left; now apply emit_doomed|].
    destruct (Ascii.eqb c ":"%char); [|left; eauto].
    right. do 2 eexists. split; [reflexivity | exact Hun].
  - intros Hun.
    destruct (Ascii.eqb c "{"%char); [right; do 2 eexists; split; [reflexivity | exact Hun]|].
    destruct (Ascii.eqb c "}"%char);
      [|right; do 2 eexists; split; [reflexivity | exact Hun]].
    destruct k as [|[|k]];
      [left; now apply emit_doomed | left; now apply emit_doomed|].
    right. do 2 eexists. split; [reflexivity | exact Hun].
Qed.

Lemma run_doomed (s : string) :
  forall (st : PyStr.fstate) (out : string),
    doomed kwargs st ->
    (exists e, run st out s = Raise e)
    \/ (exists st' out', run st out s = Ok (st', out') /\ doomed kwargs st').
Proof.
  induction s as [|c s IH]; intros st out Hd.
  - right. exists st, out. split; [reflexivity | exact Hd].
  - cbn [PyStr.run].
    destruct (step_doomed st out c Hd) as [(e & ->)|(st' & out' & -> & Hd')].
    + left. eauto.
    + apply IH. exact Hd'.
Qed.

Lemma finish_doomed (st : PyStr.fstate) (out s : string) :
  doomed kwargs st -> exists e, PyStr.finish (run st out s) = Raise e.
Proof.
  intros Hd.
  destruct (run_doomed s st out Hd) as [(e & ->)|(st' & out' & -> & Hd')].
  - cbn. eauto.
  - destruct st'; cbn in Hd' |- *; try contradiction; eauto.
Qed.

(** The character that ends an unknown argument name raises, or leaves the
    scanner in a field that cannot end well. *)
Lemma field_char_ends_unknown (out name : string) (c : ascii) :
  plain_name name = true ->
  unknown_arg kwargs name ->
  ends_arg_name c = true ->
  (exists e, PyStr.field_char str_of_int render_extended expand kwargs out name c = Raise e)
  \/ (exists st' out',
        PyStr.field_char str_of_int render_extended expand kwargs out name c
        = Ok (st', out') /\ doomed kwargs st').
Proof.
  intros Hp Hun Hc.
  assert (Hun' : unknown_arg kwargs (PyStr.arg_name name))
    by (now rewrite arg_name_plain).
  destruct (ends_arg_name_inv c Hc) as [->|[->|[->|[->| ->]]]];
    unfold PyStr.field_char; cbn [Ascii.eqb Bool.eqb].
  - left. now apply emit_doomed.
  - right. do 2 eexists. split; [reflexivity | exact Hun'].
  - right. do 2 eexists. split; [reflexivity | exact Hun'].
  - right. do 2 eexists. split; [reflexivity|]. cbn [doomed].
    destruct (arg_name_plain_closed name "."%char Hp) as [E1 E2]; [auto|].
    split; [exact E2 | rewrite E1; exact Hun].
  - right. do 2 eexists. split; [reflexivity|]. cbn [doomed].
    destruct (arg_name_plain_closed name "["%char Hp) as [E1 E2]; [auto|].
    split; [exact E2 | rewrite E1; exact Hun].
Qed.

(** From literal text, [{name] leaves the scanner in the field, about to
    read what follows the name. *)
Lemma run_open_plain_name (out name : string) (c : ascii) (post : string) :
  plain_name name = true ->
  ends_arg_name c = true ->
  run PyStr.Text out (String "{"%char (name ++ String c post))
  = match PyStr.field_char str_of_int render_extended expand kwargs out name c with
    | Ok (st', out') => run st' out' post
    | Raise e => Raise e
    | OutOfFuel => OutOfFuel
    end.
Proof.
  intros Hp Hc. cbn [PyStr.run PyStr.step].
  change (Ascii.eqb "{"%char "{"%char) with true. cbv iota.
  destruct name as [|a name].
  - rewrite append_empty_l. cbn [PyStr.run PyStr.step].
    assert (Hbrace : Ascii.eqb c "{"%char = false).
    { destruct (ends_arg_name_inv c Hc) as [->|[->|[->|[->| ->]]]]; reflexivity. }
    rewrite Hbrace. reflexivity.
  - cbn in Hp. apply andb_prop in Hp as [Ha Hn].
    rewrite append_cons. cbn [PyStr.run PyStr.step].
    destruct (plain_char_inv a Ha) as (Hbrace & _).
    rewrite Hbrace, field_char_plain by assumption.
    rewrite run_app, run_plain_name by assumption.
    cbn [PyStr.run PyStr.step].
    change (PyStr.snoc EmptyString a ++ name)%string with (String a name).
    reflexivity.
Qed.

(** A replacement field with an unknown argument name, opened in literal
    text: the template cannot be formatted. *)
Lemma finish_unknown_field (pre name : string) (c : ascii) (post : string) :
  literal_position (run PyStr.Text EmptyString pre) ->
  plain_name name = true ->
  unknown_arg kwargs name ->
  ends_arg_name c = true ->
  exists e,
    PyStr.finish (run PyStr.Text EmptyString
                    (pre ++ String "{"%char (name ++ String c post)))
    = Raise e.
Proof.
  intros Hpre Hp Hun Hc. rewrite run_app.
  destruct (run PyStr.Text EmptyString pre) as [[st out]|e|]; cbn in Hpre;
    [|cbn; eauto|contradiction].
  destruct st; try contradiction.
  rewrite run_open_plain_name by assumption.
  destruct (field_char_ends_unknown out name c Hp Hun Hc)
    as [(e & ->)|(st' & out' & -> & Hd)].
  - cbn. eauto.
  - now apply finish_doomed.
Qed.

(** The same template cut after the name does not format either: the field
    is not closed. *)
Lemma finish_open_field (pre name : string) :
  literal_position (run PyStr.Text EmptyString pre) ->
  plain_name name = true ->
  exists e,
    PyStr.finish (run PyStr.Text EmptyString (pre ++ String "{"%char name)) = Raise e.
Proof.
  intros Hpre Hp. rewrite run_app.
  destruct (run PyStr.Text EmptyString pre) as [[st out]|e|]; cbn in Hpre;
    [|cbn; eauto|contradiction].
  destruct st; try contradiction.
  cbn [PyStr.run PyStr.step].
  change (Ascii.eqb "{"%char "{"%char) with true. cbv iota.
  destruct name as [|a name]; [cbn; eauto|].
  cbn in Hp. apply andb_prop in Hp as [Ha Hn].
  cbn [PyStr.run PyStr.step].
  destruct (plain_char_inv a Ha) as (Hbrace & _).
  rewrite Hbrace, field_char_plain by assumption.
  rewrite run_plain_name by assumption. cbn. eauto.
Qed.

(** *** A format spec that cannot be expanded *)

Lemma run_spec_plain (name : string) :
  plain_name name = true ->
  forall (f : string) (cv : option ascii) (sp : string) (k : nat) (out : string),
    run (PyStr.Spec f cv sp k) out name = Ok (PyStr.Spec f cv (sp ++ name) k, out).
Proof.
  induction name as [|c name IH]; intros Hp f cv sp k out.
  - now rewrite append_empty_r.
  - cbn in Hp. apply andb_prop in Hp as [Hc Hn].
    destruct (plain_char_inv c Hc) as (H1 & H2 & _).
    cbn [PyStr.run PyStr.step]. rewrite H1, H2.
    rewrite IH by assumption. unfold PyStr.snoc. now rewrite append_assoc.
Qed.

Lemma emit_spec_fails (out f : string) (cv : option ascii) (sp : string) :
  PyStr.has_open_brace sp = true ->
  (exists e, expand sp = Raise e) ->
  exists e, PyStr.emit str_of_int render_extended expand kwargs out f cv (Some sp)
            = Raise e.
Proof.
  intros Hb (e & He). unfold PyStr.emit, PyStr.render_field.
  destruct (PyStr.all_digits (PyStr.arg_name f)); [eauto|].
  destruct (PyStr.lookup_kw kwargs (PyStr.arg_name f)) as [v|]; [|eauto].
  assert (Hext :
    exists e', match render_extended v
                       (String.substring (String.length (PyStr.arg_name f))
                          (String.length f - String.length (PyStr.arg_name f)) f) cv with
               | PyStr.Returns format_object =>
                   match PyStr.expand_spec expand (Some sp) with
                   | Ok spec' => PyStr.of_result (format_object spec')
                   | Raise e0 => Raise e0
                   | OutOfFuel => OutOfFuel
                   end
               | PyStr.Raises e0 => Raise e0
               end = Raise e').
  { destruct (render_extended v _ cv) as [fo|e0]; [|eauto].
    unfold PyStr.expand_spec. rewrite Hb, He. eauto. }
  destruct Hext as (e' & Hext).
  destruct cv; [rewrite Hext; eauto|].
  destruct (String.eqb (PyStr.arg_name f) f); rewrite Hext; eauto.
Qed.

(** Inside a spec none of whose continuations can be expanded, the scanner
    raises or stays inside the spec. *)
Lemma run_spec_doomed (x : string) :
  forall (f : string) (cv : option ascii) (sp : string) (k : nat) (out : string),
    PyStr.has_open_brace sp = true ->
    (forall y, exists e, expand (sp ++ y) = Raise e) ->
    exists e, PyStr.finish (run (PyStr.Spec f cv sp k) out x) = Raise e.
Proof.
  induction x as [|c x IH]; intros f cv sp k out Hb Hexp; [cbn; eauto|].
  assert (Hnext : forall k', exists e,
            PyStr.finish (run (PyStr.Spec f cv (PyStr.snoc sp c) k') out x) = Raise e).
  { intros k'. apply IH.
    - unfold PyStr.snoc. rewrite has_open_brace_app, Hb. reflexivity.
    - intros y. unfold PyStr.snoc. rewrite append_assoc. apply Hexp. }
  assert (Hemit : exists e,
            PyStr.emit str_of_int render_extended expand kwargs out f cv (Some sp)
            = Raise e).
  { apply emit_spec_fails; [exact Hb|].
    specialize (Hexp EmptyString). now rewrite append_empty_r in Hexp. }
  cbn [PyStr.run PyStr.step].
  destruct (Ascii.eqb c "{"%char); [apply Hnext|].
  destruct (Ascii.eqb c "}"%char); [|apply Hnext].
  destruct k as [|[|k]]; [| |apply Hnext];
    destruct Hemit as (e & ->); cbn; eauto.
Qed.

(** A replacement field with an unknown argument name inside the format
    spec of a field, when the spec cannot be expanded from there on. *)
Lemma finish_nested_unknown_field (pre f : string) (cv : option ascii) (sp : string)
    (k : nat) (out name : string) (c : ascii) (post : string) :
  run PyStr.Text EmptyString pre = Ok (PyStr.Spec f cv sp k, out) ->
  plain_name name = true ->
  ends_arg_name c = true ->
  (exists e, expand (sp ++ String "{"%char name) = Raise e) ->
  (forall y, exists e, expand (sp ++ String "{"%char (name ++ String c y)) = Raise e) ->
  exists e,
    PyStr.finish (run PyStr.Text EmptyString
                    (pre ++ String "{"%char (name ++ String c post)))
    = Raise e.
Proof.
  intros Hpre Hp Hc Hcut Hexp. rewrite run_app, Hpre.
  cbn [PyStr.run PyStr.step].
  change (Ascii.eqb "{"%char "{"%char) with true. cbv iota.
  rewrite run_app, run_spec_plain by assumption.
  assert (Hb : PyStr.has_open_brace (PyStr.snoc sp "{"%char ++ name) = true).
  { unfold PyStr.snoc. rewrite !has_open_brace_app. cbn. now rewrite orb_true_r. }
  assert (Hsp : (PyStr.snoc sp "{"%char ++ name)%string
                = (sp ++ String "{"%char name)%string).
  { unfold PyStr.snoc. rewrite append_assoc, append_cons, append_empty_l. reflexivity. }
  assert (Hnext : forall k', exists e,
            PyStr.finish
              (run (PyStr.Spec f cv (PyStr.snoc (PyStr.snoc sp "{"%char ++ name) c) k')
                 out post) = Raise e).
  { intros k'. apply run_spec_doomed.
    - unfold PyStr.snoc at 1. rewrite has_open_brace_app, Hb. reflexivity.
    - intros y. rewrite Hsp. unfold PyStr.snoc. rewrite !append_assoc.
      rewrite !append_cons, !append_empty_l. apply Hexp. }
  cbn [PyStr.run PyStr.step].
  destruct (ends_arg_name_inv c Hc) as [->|[->|[->|[->| ->]]]];
    cbn [Ascii.eqb Bool.eqb]; try apply Hnext.
  destruct k as [|k]; [|apply Hnext].
  destruct (emit_spec_fails out f cv _ Hb) as (e & ->); [now rewrite Hsp|].
  cbn. eauto.
Qed.

End FormatFacts.

Section FormatLevels.
Context (str_of_int : Z -> string).
Context (render_extended :
           PyStr.pyval -> string -> option ascii ->
           PyStr.result (option string -> PyStr.result string)).
Context (kwargs : list (string * PyStr.pyval)).

Local Abbreviation build_string := (PyStr.build_string str_of_int render_extended).

(** [format] is the scanner with one level left for the format specs. *)
Lemma format_unfold (template : string) :
  PyStr.format str_of_int render_extended template kwargs
  = PyStr.finish (PyStr.run str_of_int render_extended (build_string 1 kwargs) kwargs
                    PyStr.Text EmptyString template).
Proof. reflexivity. Qed.

Lemma build_string_unfold (d : nat) (input : string) :
  build_string (S d) kwargs input
  = PyStr.finish (PyStr.run str_of_int render_extended (build_string d kwargs) kwargs
                    PyStr.Text EmptyString input).
Proof. reflexivity. Qed.

(** A template whose text before an unknown placeholder formats without
    error does not format: the lookup of the placeholder raises. *)
Lemma format_unknown_placeholder (pre name post out : string) :
  PyStr.format str_of_int render_extended pre kwargs = Ok out ->
  plain_name name = true ->
  PyStr.lookup_kw kwargs name = None ->
  PyStr.format str_of_int render_extended (with_placeholder pre name post) kwargs
  = Raise (unknown_placeholder_error name).
Proof.
  rewrite !format_unfold. unfold with_placeholder. intros Hpre Hp Hl.
  rewrite run_app.
  destruct (PyStr.run _ _ _ _ PyStr.Text EmptyString pre) as [[st o]|e|];
    try discriminate.
  destruct st; try discriminate. injection Hpre as ->.
  cbn [PyStr.run PyStr.step].
  change (Ascii.eqb "{"%char "{"%char) with true. cbv iota.
  rewrite run_unknown_placeholder by assumption. reflexivity.
Qed.

(** A template that has a placeholder with an unknown name does not format,
    whether the placeholder stands in the text or in the format spec of a
    field. *)
Lemma format_has_unknown_placeholder (name template : string) :
  has_placeholder str_of_int render_extended kwargs name template ->
  PyStr.lookup_kw kwargs name = None ->
  exists e, PyStr.format str_of_int render_extended template kwargs = Raise e.
Proof.
  intros (pre & c & post & -> & Hp & Hc & Hpos) Hl.
  assert (Hun : unknown_arg kwargs name) by (now right).
  rewrite format_unfold. cbv zeta in Hpos.
  destruct Hpos as [Hpos|(f & cv & sp & k & out & Hscan & Hpos)].
  - now apply finish_unknown_field.
  - eapply finish_nested_unknown_field; try eassumption.
    + rewrite build_string_unfold. now apply finish_open_field.
    + intros y. rewrite build_string_unfold. now apply finish_unknown_field.
Qed.

End FormatLevels.

Section FormatterClaims.
Context {W : Type} (youtube : Service W).
Context (strftime : string -> date -> string).
Context (str_of_int : Z -> string).
Context (render_extended :
           PyStr.pyval -> string -> option ascii ->
           PyStr.result (option string -> PyStr.result string)).

Lemma title_kwargs_unknown (category : string) (channels : list Config.ChannelConfig)
    (target_date : date) (name : string) :
  ~ In name ["category"; "date"; "channels"]%string ->
  PyStr.lookup_kw (PlaylistManager.title_kwargs strftime category channels target_date) name
  = None.
Proof.
  intros Hn.
  unfold PlaylistManager.title_kwargs, PlaylistManager.description_kwargs.
  cbn [PyStr.lookup_kw].
  repeat match goal with
         | |- context [String.eqb ?k name] =>
             destruct (String.eqb_spec k name) as [E|_];
             [exfalso; apply Hn; rewrite <- E; cbn [In]; tauto|]
         end.
  reflexivity.
Qed.

Lemma description_kwargs_unknown (category : string)
    (channels : list Config.ChannelConfig) (target_date : date) (video_count : Z)
    (name : string) :
  ~ In name ["category"; "date"; "channels"; "count"]%string ->
  PyStr.lookup_kw
    (PlaylistManager.description_kwargs strftime category channels target_date video_count)
    name = None.
Proof.
  intros Hn.
  unfold PlaylistManager.title_kwargs, PlaylistManager.description_kwargs.
  cbn [PyStr.lookup_kw].
  repeat match goal with
         | |- context [String.eqb ?k name] =>
             destruct (String.eqb_spec k name) as [E|_];
             [exfalso; apply Hn; rewrite <- E; cbn [In]; tauto|]
         end.
  reflexivity.
Qed.

(** C9, amended.  A template that has a placeholder outside the recognized
    set makes both formatters raise, whatever precedes and follows the
    placeholder, whether its name is followed by a conversion, a format
    spec, an attribute or an index, and whether it stands in the text or in
    the format spec of another field: [{count}] is unknown to the title,
    known to the description.  When the text before the placeholder formats
    and the placeholder is a bare [{name}], the error is that of the lookup:
    [KeyError] for a name; an empty or numeric one indexes the empty
    positional tuple and raises [IndexError], or [ValueError] beyond the
    largest index.  The title reads nothing but its arguments and leaves the
    world as it is; the description also reads the current date, and two
    calls with the same arguments agree when made on the same day. *)
Theorem formatters_reject_unknown_placeholders (category : string)
    (channels : list Config.ChannelConfig) (target_date : date) (video_count : Z) :
  (forall pre name post out : string,
      PyStr.format str_of_int render_extended pre
        (PlaylistManager.title_kwargs strftime category channels target_date) = Ok out ->
      plain_name name = true ->
      ~ In name ["category"; "date"; "channels"]%string ->
      PlaylistManager.generate_playlist_title strftime str_of_int render_extended
        category channels target_date (with_placeholder pre name post)
      = Raise (unknown_placeholder_error name))
  /\ (forall (pre name post out : string) (w : world W),
        PyStr.format str_of_int render_extended pre
          (PlaylistManager.description_kwargs strftime category channels target_date
             video_count) = Ok out ->
        plain_name name = true ->
        ~ In name ["category"; "date"; "channels"; "count"]%string ->
        PlaylistManager.generate_playlist_description youtube strftime str_of_int
          render_extended category channels target_date video_count
          (with_placeholder pre name post) w
        = (Raise (unknown_placeholder_error name), w))
  /\ (forall name template : string,
        has_placeholder str_of_int render_extended
          (PlaylistManager.title_kwargs strftime category channels target_date)
          name template ->
        ~ In name ["category"; "date"; "channels"]%string ->
        exists e : exn,
          PlaylistManager.generate_playlist_title strftime str_of_int render_extended
            category channels target_date template = Raise e)
  /\ (forall (name template : string) (w : world W),
        has_placeholder str_of_int render_extended
          (PlaylistManager.description_kwargs strftime category channels target_date
             video_count)
          name template ->
        ~ In name ["category"; "date"; "channels"; "count"]%string ->
        exists e : exn,
          PlaylistManager.generate_playlist_description youtube strftime str_of_int
            render_extended category channels target_date video_count template w
          = (Raise e, w))
  /\ (forall (template : string) (w1 w2 : world W),
        fst (clock_today youtube (remote w1)) = fst (clock_today youtube (remote w2)) ->
        fst (PlaylistManager.generate_playlist_description youtube strftime str_of_int
               render_extended category channels target_date video_count template w1)
        = fst (PlaylistManager.generate_playlist_description youtube strftime str_of_int
                 render_extended category channels target_date video_count template w2))
  /\ (forall (template : string) (w1 w2 : world W),
        fst (Config.lift
               (PlaylistManager.generate_playlist_title strftime str_of_int
                  render_extended category channels target_date template) w1)
        = fst (Config.lift
                 (PlaylistManager.generate_playlist_title strftime str_of_int
                    render_extended category channels target_date template) w2)
        /\ snd (Config.lift
                  (PlaylistManager.generate_playlist_title strftime str_of_int
                     render_extended category channels target_date template) w1)
           = w1).
Proof.
  split; [|split; [|split; [|split; [|split]]]].
  - intros pre name post out Hpre Hp Hn.
    unfold PlaylistManager.generate_playlist_title.
    eapply format_unknown_placeholder; eauto using title_kwargs_unknown.
  - intros pre name post out w Hpre Hp Hn.
    unfold PlaylistManager.generate_playlist_description, bind, Config.lift.
    erewrite format_unknown_placeholder; eauto using description_kwargs_unknown.
  - intros name template Hhas Hn.
    unfold PlaylistManager.generate_playlist_title.
    eapply format_has_unknown_placeholder; eauto using title_kwargs_unknown.
  - intros name template w Hhas Hn.
    unfold PlaylistManager.generate_playlist_description, bind, Config.lift.
    destruct (format_has_unknown_placeholder str_of_int render_extended _ name template
                Hhas (description_kwargs_unknown category channels target_date
                        video_count name Hn)) as (e & ->).
    eauto.
  - intros template w1 w2 Htoday.
    unfold PlaylistManager.generate_playlist_description, bind, Config.lift, read_clock, ret.
    destruct (PyStr.format str_of_int render_extended template _) as [d|e|];
      try reflexivity.
    destruct (clock_today youtube (remote w1)) as [t1 s1].
    destruct (clock_today youtube (remote w2)) as [t2 s2].
    cbn in Htoday. subst t2. reflexivity.
  - intros template w1 w2. split; reflexivity.
Qed.

End FormatterClaims.

(** C9, as the specification states it, fails for the description: the same
    arguments give two different texts on two different days. *)
Lemma description_depends_on_the_day :
  fst (PlaylistManager.generate_playlist_description Platform.service Platform.strftime
         Platform.str_of_int Platform.render_extended "news" Runs.cnbc Runs.may_first 3
         "{category} videos from {channels} uploaded on {date}"
         (Platform.start Runs.at_noon))
  = Ok ("news videos from CNBC uploaded on 2024-05-01" ++ PlaylistManager.nl
        ++ PlaylistManager.nl ++ "Total videos: 3" ++ PlaylistManager.nl
        ++ "Generated automatically on 2024-05-01")%string
  /\ fst (PlaylistManager.generate_playlist_description Platform.service Platform.strftime
            Platform.str_of_int Platform.render_extended "news" Runs.cnbc Runs.may_first 3
            "{category} videos from {channels} uploaded on {date}"
            (Platform.start Runs.a_day_later))
     = Ok ("news videos from CNBC uploaded on 2024-05-01" ++ PlaylistManager.nl
           ++ PlaylistManager.nl ++ "Total videos: 3" ++ PlaylistManager.nl
           ++ "Generated automatically on 2024-05-02")%string
  /\ fst (PlaylistManager.generate_playlist_description Platform.service Platform.strftime
            Platform.str_of_int Platform.render_extended "news" Runs.cnbc Runs.may_first 3
            "{category} videos from {channels} uploaded on {date}"
            (Platform.start Runs.at_noon))
     <> fst (PlaylistManager.generate_playlist_description Platform.service
               Platform.strftime Platform.str_of_int Platform.render_extended "news"
               Runs.cnbc Runs.may_first 3
               "{category} videos from {channels} uploaded on {date}"
               (Platform.start Runs.a_day_later)).
Proof.
  split; [vm_compute; reflexivity|]. split; [vm_compute; reflexivity|].
  vm_compute. discriminate.
Qed.

(** [{week}] in a title, [{count}] in a title, and an anonymous field in a
    description; then [week] with a conversion, [week] in the format spec of
    a known field, and [week] with an index after a field that fails. *)
Lemma formatters_reject_unknown_placeholders_witness :
  PlaylistManager.generate_playlist_title Platform.strftime Platform.str_of_int
    Platform.render_extended "news" Runs.cnbc Runs.may_first "{category}_{week}"
  = Raise (KeyError "week")
  /\ PlaylistManager.generate_playlist_title Platform.strftime Platform.str_of_int
       Platform.render_extended "news" Runs.cnbc Runs.may_first "{category}_{count}"
     = Raise (KeyError "count")
  /\ PlaylistManager.generate_playlist_description Platform.service Platform.strftime
       Platform.str_of_int Platform.render_extended "news" Runs.cnbc Runs.may_first 3
       "{count} videos, {}" (Platform.start Runs.at_noon)
     = (Raise IndexError, Platform.start Runs.at_noon)
  /\ (exists e : exn,
        PlaylistManager.generate_playlist_title Platform.strftime Platform.str_of_int
          Platform.render_extended "news" Runs.cnbc Runs.may_first "{category}_{week!r}"
        = Raise e)
  /\ (exists e : exn,
        PlaylistManager.generate_playlist_title Platform.strftime Platform.str_of_int
          Platform.render_extended "news" Runs.cnbc Runs.may_first
          "{category:{week}}_{date}"
        = Raise e)
  /\ (exists e : exn,
        PlaylistManager.generate_playlist_description Platform.service Platform.strftime
          Platform.str_of_int Platform.render_extended "news" Runs.cnbc Runs.may_first 3
          "{date.year} {week[0]}" (Platform.start Runs.at_noon)
        = (Raise e, Platform.start Runs.at_noon)).
Proof.
  destruct (formatters_reject_unknown_placeholders Platform.service Platform.strftime
              Platform.str_of_int Platform.render_extended "news" Runs.cnbc
              Runs.may_first 3) as (Htitle & Hdescription & Htitle' & Hdescription' & _).
  split; [|split; [|split; [|split; [|split]]]].
  - apply (Htitle "{category}_" "week" "" "news_")%string.
    + vm_compute. reflexivity.
    + vm_compute. reflexivity.
    + cbn. intros [H|[H|[H|[]]]]; discriminate H.
  - apply (Htitle "{category}_" "count" "" "news_")%string.
    + vm_compute. reflexivity.
    + vm_compute. reflexivity.
    + cbn. intros [H|[H|[H|[]]]]; discriminate H.
  - apply (Hdescription "{count} videos, " "" "" "3 videos, ")%string.
    + vm_compute. reflexivity.
    + vm_compute. reflexivity.
    + cbn. intros [H|[H|[H|[H|[]]]]]; discriminate H.
  - apply (Htitle' "week")%string.
    + exists "{category}_"%string, "!"%char, "r}"%string.
      split; [reflexivity|]. split; [reflexivity|]. split; [reflexivity|].
      left. vm_compute. exact I.
    + cbn. intros [H|[H|[H|[]]]]; discriminate H.
  - apply (Htitle' "week")%string.
    + exists "{category:"%string, "}"%char, "}_{date}"%string.
      split; [reflexivity|]. split; [reflexivity|]. split; [reflexivity|].
      right. exists "category"%string, None, EmptyString, 1%nat, EmptyString.
      split; [vm_compute; reflexivity | vm_compute; exact I].
    + cbn. intros [H|[H|[H|[]]]]; discriminate H.
  - apply (Hdescription' "week")%string.
    + exists "{date.year} "%string, "["%char, "0]}"%string.
      split; [reflexivity|]. split; [reflexivity|]. split; [reflexivity|].
      left. vm_compute. exact I.
    + cbn. intros [H|[H|[H|[H|[]]]]]; discriminate H.
Defined.

(** With the stand-in runtime, which would render [category] with an empty
    spec, the placeholder in the format spec is looked up, and is missing. *)
Example placeholder_in_a_format_spec :
  PlaylistManager.generate_playlist_title Platform.strftime Platform.str_of_int
    Platform.render_extended "news" Runs.cnbc Runs.may_first "{category:{week}}_{date}"
  = Raise (KeyError "week")
  /\ PlaylistManager.generate_playlist_title Platform.strftime Platform.str_of_int
       Platform.render_extended "news" Runs.cnbc Runs.may_first "{category:{{week}}}"
     = Raise ValueError
  /\ PlaylistManager.generate_playlist_title Platform.strftime Platform.str_of_int
       Platform.render_extended "news" Runs.cnbc Runs.may_first "{category:}{{week}}"
     = Ok "news{week}"%string
  /\ PlaylistManager.generate_playlist_title Platform.strftime Platform.str_of_int
       Platform.render_extended "news" Runs.cnbc Runs.may_first
       "{category:{date:{week}}}"
     = Raise ValueError.
Proof. repeat split; vm_compute; reflexivity. Qed.

(** ** Resolving the playlist *)

Section ResolutionFacts.
Context {W : Type} (youtube : Service W).

(** The lookup issues one request and never raises. *)
Lemma find_existing_playlist_returns (title : string) (w : world W) :
  exists r,
    PlaylistManager.find_existing_playlist youtube title w
    = (Ok r, {| remote := snd (playlists_list youtube 50 (remote w));
                trace := (trace w ++ [PlaylistsList 50])%list |}).
Proof.
  unfold PlaylistManager.find_existing_playlist, try_except_HttpError, bind, execute, ret.
  destruct (playlists_list youtube 50 (remote w)) as [[page|] s1]; cbn; eauto.
Qed.

(** Printing changes nothing in the world, whether it succeeds or not. *)
Lemma print_leaves_the_world (l : line) (w : world W) :
  snd (Main.print youtube l w) = w.
Proof. unfold Main.print. destruct (stdout_write youtube l (remote w)); reflexivity. Qed.

(** The description reads the clock and issues no request. *)
Lemma generate_playlist_description_trace (strftime : string -> date -> string)
    (str_of_int : Z -> string)
    (render_extended :
       PyStr.pyval -> string -> option ascii ->
       PyStr.result (option string -> PyStr.result string))
    (category : string) (channels : list Config.ChannelConfig) (target_date : date)
    (video_count : Z) (template : string) (w : world W) :
  trace (snd (PlaylistManager.generate_playlist_description youtube strftime str_of_int
                render_extended category channels target_date video_count template w))
  = trace w.
Proof.
  unfold PlaylistManager.generate_playlist_description, bind, Config.lift, read_clock, ret.
  destruct (PyStr.format str_of_int render_extended template _) as [d|e|];
    try reflexivity.
  destruct (clock_today youtube (remote w)) as [t s]. reflexivity.
Qed.

End ResolutionFacts.

Section ResolutionClaims.
Context {W : Type} (youtube : Service W).
Context (strftime : string -> date -> string).
Context (str_of_int : Z -> string).
Context (render_extended :
           PyStr.pyval -> string -> option ascii ->
           PyStr.result (option string -> PyStr.result string)).

(** C3, amended.  A lookup that is answered with an error counts as "not
    found": [get_or_create_playlist] goes on to create the playlist.  When
    the creation that follows a lookup without a match (failed or not) is
    answered with an error, [get_or_create_playlist] yields a null id and a
    null url with [existed = False], and [main] then issues no further
    request: the creation is the last entry of its trace, and no membership
    request follows. *)
Theorem failed_creation_leaves_no_playlist :
  (forall (title description privacy_status : string) (w : world W) (s1 : W),
      playlists_list youtube 50 (remote w) = (Failure, s1) ->
      PlaylistManager.find_existing_playlist youtube title w
      = (Ok (None, None),
         {| remote := s1; trace := (trace w ++ [PlaylistsList 50])%list |})
      /\ PlaylistManager.get_or_create_playlist youtube title description privacy_status w
         = bind (PlaylistManager.create_playlist youtube title description privacy_status)
             (fun created => ret (fst created, snd created, false))
             {| remote := s1; trace := (trace w ++ [PlaylistsList 50])%list |})
  /\ (forall (title description privacy_status : string) (w w1 : world W) (s2 : W),
        PlaylistManager.find_existing_playlist youtube title w = (Ok (None, None), w1) ->
        playlists_insert youtube title description privacy_status (remote w1)
        = (Failure, s2) ->
        PlaylistManager.get_or_create_playlist youtube title description privacy_status w
        = (Ok (None, None, false),
           {| remote := s2;
              trace := (trace w1
                        ++ [PlaylistsInsert title description privacy_status])%list |}))
  /\ (forall (fuel : nat) (category : string) (channel_configs : list Config.ChannelConfig)
             (target_date : date) (videos : list Video) (w w0 w1 : world W)
             (title description : string) (s2 : W),
        PlaylistManager.generate_playlist_title strftime str_of_int render_extended
          category channel_configs target_date
          (Config.name_template Config.PLAYLIST_CONFIG) = Ok title ->
        PlaylistManager.generate_playlist_description youtube strftime str_of_int
          render_extended category channel_configs target_date (Z.of_nat (length videos))
          (Config.description_template Config.PLAYLIST_CONFIG) w = (Ok description, w0) ->
        PlaylistManager.find_existing_playlist youtube title w0 = (Ok (None, None), w1) ->
        playlists_insert youtube title description
          (Config.privacy_status Config.PLAYLIST_CONFIG) (remote w1) = (Failure, s2) ->
        snd (Main.publish youtube strftime str_of_int render_extended fuel category
               channel_configs target_date videos w)
        = {| remote := s2;
             trace := (trace w
                       ++ [PlaylistsList 50;
                           PlaylistsInsert title description
                             (Config.privacy_status Config.PLAYLIST_CONFIG)])%list |}).
Proof.
  assert (Hcreate :
    forall (title description privacy_status : string) (w w1 : world W) (s2 : W),
      PlaylistManager.find_existing_playlist youtube title w = (Ok (None, None), w1) ->
      playlists_insert youtube title description privacy_status (remote w1)
      = (Failure, s2) ->
      PlaylistManager.get_or_create_playlist youtube title description privacy_status w
      = (Ok (None, None, false),
         {| remote := s2;
            trace := (trace w1
                      ++ [PlaylistsInsert title description privacy_status])%list |})).
  { intros title description privacy_status w w1 s2 Hfind Hins.
    unfold PlaylistManager.get_or_create_playlist, bind. rewrite Hfind. cbn [fst truthy].
    unfold PlaylistManager.create_playlist, try_except_HttpError, bind, execute, ret.
    rewrite Hins. reflexivity. }
  split; [|split].
  - intros title description privacy_status w s1 Hlist.
    assert (Hfind : PlaylistManager.find_existing_playlist youtube title w
                    = (Ok (None, None),
                       {| remote := s1; trace := (trace w ++ [PlaylistsList 50])%list |})).
    { unfold PlaylistManager.find_existing_playlist, try_except_HttpError, bind, execute,
        ret. rewrite Hlist. reflexivity. }
    split; [exact Hfind|].
    unfold PlaylistManager.get_or_create_playlist. unfold bind at 1.
    rewrite Hfind. reflexivity.
  - exact Hcreate.
  - intros fuel category channel_configs target_date videos w w0 w1 title description s2
      Htitle Hdescription Hfind Hins.
    unfold Main.publish, bind, Config.lift. rewrite Htitle, Hdescription.
    rewrite (Hcreate _ _ _ _ _ _ Hfind Hins). cbn [fst snd].
    rewrite print_leaves_the_world.
    f_equal.
    destruct (find_existing_playlist_returns youtube title w0) as (r & Hr).
    rewrite Hr in Hfind. injection Hfind as _ <-. cbn [trace].
    pose proof (generate_playlist_description_trace youtube strftime str_of_int
                  render_extended category channel_configs target_date
                  (Z.of_nat (length videos))
                  (Config.description_template Config.PLAYLIST_CONFIG) w) as Ht.
    rewrite Hdescription in Ht. cbn [snd] in Ht. rewrite Ht, <- app_assoc. reflexivity.
Qed.

End ResolutionClaims.

(** C3, as the specification states it, fails when the lookup is answered
    with an error and the creation is not: the playlist is created, its id
    is not null, and the videos are inserted. *)
Lemma lookup_error_is_not_fatal :
  playlists_list Platform.service 50 Runs.lookup_refused = (Failure, Runs.lookup_refused)
  /\ fst (PlaylistManager.get_or_create_playlist Platform.service "news_20240501"
            Runs.description_of_two "unlisted" (Platform.start Runs.lookup_refused))
     = Ok (Some "PL-news_20240501",
           Some "https://www.youtube.com/playlist?list=PL-news_20240501", false)
  /\ trace (snd (Main.publish Platform.service Platform.strftime Platform.str_of_int
                   Platform.render_extended 1 "news" Runs.cnbc Runs.may_first
                   Runs.found_videos (Platform.start Runs.lookup_refused)))
     = [ PlaylistsList 50;
         PlaylistsInsert "news_20240501" Runs.description_of_two "unlisted";
         PlaylistItemsList "PL-news_20240501" 50 None;
         PlaylistItemsInsert "PL-news_20240501" "v1";
         PlaylistItemsInsert "PL-news_20240501" "v2" ].
Proof. repeat split; vm_compute; reflexivity. Qed.

(** No playlist matches and the creation is refused. *)
Lemma failed_creation_leaves_no_playlist_witness :
  PlaylistManager.get_or_create_playlist Platform.service "news_20240501"
    Runs.description_of_two "unlisted" (Platform.start Runs.creation_refused)
  = (Ok (None, None, false),
     {| remote := Runs.creation_refused;
        trace := [ PlaylistsList 50;
                   PlaylistsInsert "news_20240501" Runs.description_of_two "unlisted" ] |})
  /\ snd (Main.publish Platform.service Platform.strftime Platform.str_of_int
            Platform.render_extended 1 "news" Runs.cnbc Runs.may_first Runs.found_videos
            (Platform.start Runs.creation_refused))
     = {| remote := Runs.creation_refused;
          trace := [ PlaylistsList 50;
                     PlaylistsInsert "news_20240501" Runs.description_of_two "unlisted" ] |}.
Proof.
  destruct (failed_creation_leaves_no_playlist Platform.service Platform.strftime
              Platform.str_of_int Platform.render_extended) as (_ & Hcreate & Hmain).
  split.
  - apply (Hcreate "news_20240501" Runs.description_of_two "unlisted"
             (Platform.start Runs.creation_refused)
             {| remote := Runs.creation_refused; trace := [PlaylistsList 50] |}
             Runs.creation_refused)%string.
    + vm_compute. reflexivity.
    + vm_compute. reflexivity.
  - apply (Hmain 1%nat "news" Runs.cnbc Runs.may_first Runs.found_videos
             (Platform.start Runs.creation_refused)
             (Platform.start Runs.creation_refused)
             {| remote := Runs.creation_refused; trace := [PlaylistsList 50] |}
             "news_20240501" Runs.description_of_two Runs.creation_refused)%string.
    + vm_compute. reflexivity.
    + vm_compute. reflexivity.
    + vm_compute. reflexivity.
    + vm_compute. reflexivity.
Defined.

(** On that platform the whole program ends without a playlist and without
    any membership request; [main] returns, so the interpreter leaves with
    status 0, whereas a bad date makes it leave with status 1. *)
Example run_without_playlist :
  Main.exit_status
    (fst (Main.main Platform.service Platform.strftime Platform.str_of_int
            Platform.render_extended Platform.isoformat Platform.strptime_date (ret tt)
            50 "news" None (Platform.start Runs.creation_refused)))
  = Some 0
  /\ Main.exit_status
       (fst (Main.main Platform.service Platform.strftime Platform.str_of_int
               Platform.render_extended Platform.isoformat Platform.strptime_date (ret tt)
               50 "news" (Some "yesterday") (Platform.start Runs.creation_refused)))
     = Some 1.
Proof. split; vm_compute; reflexivity. Qed.

(** * Further properties *)

(** ** Looking a playlist up *)

Lemma first_with_title_none (title : string) (l : list PlaylistResource) :
  none_titled title l -> PlaylistManager.first_with_title title l = (None, None).
Proof.
  induction 1 as [|p l Hp _ IH]; [reflexivity|].
  cbn [PlaylistManager.first_with_title].
  destruct (String.eqb_spec (pl_snippet_title p) title); [contradiction | exact IH].
Qed.

Lemma first_with_title_found (title : string) (before after : list PlaylistResource)
    (item : PlaylistResource) :
  none_titled title before ->
  pl_snippet_title item = title ->
  PlaylistManager.first_with_title title (before ++ item :: after)
  = (Some (pl_id item), Some (PlaylistManager._get_playlist_url (pl_id item))).
Proof.
  intros Hb Ht. induction Hb as [|p l Hp _ IH]; cbn [app PlaylistManager.first_with_title].
  - rewrite Ht, String.eqb_refl. reflexivity.
  - destruct (String.eqb_spec (pl_snippet_title p) title); [contradiction | exact IH].
Qed.

Section LookupProperties.
Context {W : Type} (youtube : Service W).

(** X1. [find_existing_playlist] asks for one page of fifty playlists and
    nothing more, whatever token the page carries.  It answers with the id
    and the url of the first playlist of that page whose title is the given
    one, character for character, and with [(None, None)] when the page has
    none. *)
Theorem find_existing_playlist_first_match (title : string) (w : world W)
    (page : Page PlaylistResource) (s1 : W) :
  playlists_list youtube 50 (remote w) = (Response page, s1) ->
  (forall (before after : list PlaylistResource) (item : PlaylistResource),
      items page = (before ++ item :: after)%list ->
      none_titled title before ->
      pl_snippet_title item = title ->
      PlaylistManager.find_existing_playlist youtube title w
      = (Ok (Some (pl_id item),
             Some ("https://www.youtube.com/playlist?list=" ++ pl_id item)%string),
         {| remote := s1; trace := (trace w ++ [PlaylistsList 50])%list |}))
  /\ (none_titled title (items page) ->
      PlaylistManager.find_existing_playlist youtube title w
      = (Ok (None, None),
         {| remote := s1; trace := (trace w ++ [PlaylistsList 50])%list |})).
Proof.
  intros Hlist.
  unfold PlaylistManager.find_existing_playlist, try_except_HttpError, bind, execute, ret.
  rewrite Hlist. split.
  - intros before after item Hitems Hb Ht.
    rewrite Hitems, first_with_title_found by assumption. reflexivity.
  - intros Hnone. rewrite first_with_title_none by assumption. reflexivity.
Qed.

(** X2. When the page of playlists shows one with the title and a non-empty
    id, [get_or_create_playlist] returns that id, its url and
    [existed = True], and creates nothing: the lookup is its only request. *)
Theorem get_or_create_playlist_reuses (title description privacy_status : string)
    (w : world W) (page : Page PlaylistResource) (s1 : W)
    (before after : list PlaylistResource) (item : PlaylistResource) :
  playlists_list youtube 50 (remote w) = (Response page, s1) ->
  items page = (before ++ item :: after)%list ->
  none_titled title before ->
  pl_snippet_title item = title ->
  pl_id item <> EmptyString ->
  PlaylistManager.get_or_create_playlist youtube title description privacy_status w
  = (Ok (Some (pl_id item),
         Some (PlaylistManager._get_playlist_url (pl_id item)), true),
     {| remote := s1; trace := (trace w ++ [PlaylistsList 50])%list |}).
Proof.
  intros Hlist Hitems Hb Ht Hid.
  unfold PlaylistManager.get_or_create_playlist. unfold bind at 1.
  unfold PlaylistManager.find_existing_playlist, try_except_HttpError, bind, execute, ret.
  rewrite Hlist, Hitems, first_with_title_found by assumption.
  cbn [fst snd truthy].
  destruct (String.eqb_spec (pl_id item) EmptyString); [contradiction|]. reflexivity.
Qed.

End LookupProperties.

(** Among "News", "news" and "news", the second is found. *)
Lemma find_existing_playlist_first_match_witness :
  PlaylistManager.find_existing_playlist Platform.service "news"
    (Platform.start Runs.three_playlists)
  = (Ok (Some "PL2", Some "https://www.youtube.com/playlist?list=PL2"),
     {| remote := Runs.three_playlists; trace := [PlaylistsList 50] |})%string
  /\ PlaylistManager.find_existing_playlist Platform.service "NEWS"
       (Platform.start Runs.three_playlists)
     = (Ok (None, None),
        {| remote := Runs.three_playlists; trace := [PlaylistsList 50] |}).
Proof.
  destruct (find_existing_playlist_first_match Platform.service "news"
              (Platform.start Runs.three_playlists)
              {| items := Platform.playlists Runs.three_playlists; nextPageToken := None |}
              Runs.three_playlists eq_refl) as [Hfound _].
  destruct (find_existing_playlist_first_match Platform.service "NEWS"
              (Platform.start Runs.three_playlists)
              {| items := Platform.playlists Runs.three_playlists; nextPageToken := None |}
              Runs.three_playlists eq_refl) as [_ Hnone].
  split.
  - apply (Hfound [ {| pl_id := "PL1"; pl_snippet_title := "News" |} ]
             [ {| pl_id := "PL3"; pl_snippet_title := "news" |} ]
             {| pl_id := "PL2"; pl_snippet_title := "news" |})%string.
    + reflexivity.
    + constructor; [discriminate | constructor].
    + reflexivity.
  - apply Hnone. repeat (constructor; [discriminate|]). constructor.
Defined.

(** The same three playlists: nothing is created for the title "news". *)
Lemma get_or_create_playlist_reuses_witness :
  PlaylistManager.get_or_create_playlist Platform.service "news" "d" "unlisted"
    (Platform.start Runs.three_playlists)
  = (Ok (Some "PL2", Some "https://www.youtube.com/playlist?list=PL2", true),
     {| remote := Runs.three_playlists; trace := [PlaylistsList 50] |})%string.
Proof.
  apply (get_or_create_playlist_reuses Platform.service "news" "d" "unlisted"
           (Platform.start Runs.three_playlists)
           {| items := Platform.playlists Runs.three_playlists; nextPageToken := None |}
           Runs.three_playlists
           [ {| pl_id := "PL1"; pl_snippet_title := "News" |} ]
           [ {| pl_id := "PL3"; pl_snippet_title := "news" |} ]
           {| pl_id := "PL2"; pl_snippet_title := "news" |})%string.
  - reflexivity.
  - reflexivity.
  - constructor; [discriminate | constructor].
  - reflexivity.
  - discriminate.
Defined.

(** ** Order and number of the inserts *)

Section InsertProperties.
Context {W : Type} (youtube : Service W).

(** The loop asks one insert for each video of [to_insert], in that order,
    and counts every other video as skipped. *)
Lemma add_videos_loop_requests (playlist_id : string) (skip : bool) (ids : gset string)
    (videos : list Video) :
  forall (n : PlaylistManager.Counters) (w : world W),
  exists (n' : PlaylistManager.Counters) (w' : world W),
    PlaylistManager.add_videos_loop youtube playlist_id skip ids videos n w = (Ok n', w')
    /\ trace w'
       = (trace w ++ insert_requests playlist_id (to_insert skip ids videos))%list
    /\ PlaylistManager.successful_adds n' + PlaylistManager.failed_adds n'
       = PlaylistManager.successful_adds n + PlaylistManager.failed_adds n
         + Z.of_nat (length (to_insert skip ids videos))
    /\ PlaylistManager.skipped_duplicates n' + Z.of_nat (length (to_insert skip ids videos))
       = PlaylistManager.skipped_duplicates n + Z.of_nat (length videos).
Proof.
  induction videos as [|v rest IH]; intros n w.
  - exists n, w. cbn. unfold ret. rewrite app_nil_r. repeat split; lia.
  - cbn [PlaylistManager.add_videos_loop to_insert List.filter].
    fold (to_insert skip ids rest).
    destruct (skip && bool_decide (video_id v ∈ ids)); cbn [negb].
    + edestruct IH as (n' & w' & -> & Ht & Ha & Hs).
      exists n', w'. cbn [length] in *. rewrite Nat2Z.inj_succ.
      cbn in Ha, Hs. repeat split; first [assumption | lia].
    + unfold bind.
      destruct (add_video_to_playlist_returns youtube playlist_id (video_id v) w)
        as (b & w1 & -> & Htr).
      destruct b; edestruct IH as (n' & w' & -> & Ht & Ha & Hs);
        exists n', w'; cbn [length insert_requests map] in *;
        rewrite !Nat2Z.inj_succ; cbn in Ha, Hs;
        (split; [reflexivity|]);
        (split; [rewrite Ht, Htr, <- app_assoc; reflexivity|]);
        split; lia.
Qed.

(** X3. Once the membership listing has returned the set [ids],
    [add_videos_to_playlist] asks exactly one insert for every video of the
    input whose id is not in [ids], in input order; a video that comes twice
    in the input and is not in [ids] is inserted twice, since [ids] is not
    updated on the way.  The skipped count is the number of the remaining
    videos, and each insert is counted as added or as failed. *)
Theorem add_videos_inserts_in_input_order (fuel : nat) (playlist_id : string)
    (videos : list Video) (w w1 : world W) (ids : gset string) :
  PlaylistManager.get_playlist_video_ids youtube fuel playlist_id w = (Ok ids, w1) ->
  exists (n : PlaylistManager.Counters) (w2 : world W),
    PlaylistManager.add_videos_to_playlist youtube fuel playlist_id videos true w
    = (Ok n, w2)
    /\ trace w2
       = (trace w1
          ++ map (fun v => PlaylistItemsInsert playlist_id (video_id v))
               (List.filter (fun v => negb (bool_decide (video_id v ∈ ids))) videos))%list
    /\ PlaylistManager.skipped_duplicates n
       = Z.of_nat (length (List.filter (fun v => bool_decide (video_id v ∈ ids)) videos))
    /\ PlaylistManager.successful_adds n + PlaylistManager.failed_adds n
       = Z.of_nat (length (List.filter
                             (fun v => negb (bool_decide (video_id v ∈ ids))) videos)).
Proof.
  intros Hlist. unfold PlaylistManager.add_videos_to_playlist, bind. rewrite Hlist.
  destruct (add_videos_loop_requests playlist_id true ids videos
              {| PlaylistManager.successful_adds := 0;
                 PlaylistManager.failed_adds := 0;
                 PlaylistManager.skipped_duplicates := 0 |} w1)
    as (n & w2 & -> & Ht & Ha & Hs).
  exists n, w2. unfold to_insert, insert_requests in *. cbn [andb] in *.
  cbn in Ha, Hs.
  split; [reflexivity|]. split; [exact Ht|]. split; [|lia].
  pose proof (List.filter_length (fun v => bool_decide (video_id v ∈ ids)) videos) as Hp.
  lia.
Qed.

(** X4. With [skip_duplicates=False] nothing is listed and nothing is
    skipped: the only requests are one insert per video, in input order, and
    the call returns whatever the platform answers. *)
Theorem add_videos_without_skip_inserts_all (fuel : nat) (playlist_id : string)
    (videos : list Video) (w : world W) :
  exists (n : PlaylistManager.Counters) (w2 : world W),
    PlaylistManager.add_videos_to_playlist youtube fuel playlist_id videos false w
    = (Ok n, w2)
    /\ trace w2
       = (trace w ++ map (fun v => PlaylistItemsInsert playlist_id (video_id v)) videos)%list
    /\ PlaylistManager.skipped_duplicates n = 0
    /\ PlaylistManager.successful_adds n + PlaylistManager.failed_adds n
       = Z.of_nat (length videos).
Proof.
  unfold PlaylistManager.add_videos_to_playlist, bind, ret.
  destruct (add_videos_loop_requests playlist_id false ∅ videos
              {| PlaylistManager.successful_adds := 0;
                 PlaylistManager.failed_adds := 0;
                 PlaylistManager.skipped_duplicates := 0 |} w)
    as (n & w2 & -> & Ht & Ha & Hs).
  assert (E : to_insert false ∅ videos = videos).
  { unfold to_insert. cbn [andb negb]. clear. induction videos as [|v l IH];
      [reflexivity | cbn; now rewrite IH]. }
  rewrite E in *. exists n, w2. cbn in Ha, Hs. unfold insert_requests in Ht.
  repeat split; first [assumption | lia].
Qed.

End InsertProperties.

(** The input [b; a; b] into a playlist that holds [a]: [b] is inserted
    twice, [a] is skipped. *)
Lemma add_videos_inserts_in_input_order_witness :
  exists n w2,
    PlaylistManager.add_videos_to_playlist Platform.service 1 "PL" Runs.b_a_b true
      (Platform.start Runs.holds_a) = (Ok n, w2)
    /\ trace w2 = [ PlaylistItemsList "PL" 50 None; PlaylistItemsInsert "PL" "b";
                    PlaylistItemsInsert "PL" "b" ]
    /\ PlaylistManager.skipped_duplicates n = 1.
Proof.
  destruct (add_videos_inserts_in_input_order Platform.service 1 "PL" Runs.b_a_b
              (Platform.start Runs.holds_a)
              {| remote := Runs.holds_a; trace := [PlaylistItemsList "PL" 50 None] |}
              {[ "a" ]})
    as (n & w2 & E & Ht & Hs & _).
  - vm_compute. reflexivity.
  - exists n, w2. split; [exact E|]. split.
    + rewrite Ht. vm_compute. reflexivity.
    + rewrite Hs. vm_compute. reflexivity.
Defined.

(** ** The synchronizer against a paginated store *)

(** X5. On the in-memory platform, which serves the members of a playlist
    fifty at a time, [get_playlist_video_ids] returns the ids of all members,
    however many pages that takes, as soon as the fuel covers the pages; it
    leaves the platform as it found it. *)
Theorem listing_collects_every_member (playlist_id : string) (fuel : nat)
    (w : world Platform.state) :
  accepts_everything (remote w) ->
  (length (Platform.members (remote w)) < 50 * fuel)%nat ->
  fst (PlaylistManager.get_playlist_video_ids Platform.service fuel playlist_id w)
  = Ok (listed_ids playlist_id (remote w))
  /\ remote (snd (PlaylistManager.get_playlist_video_ids Platform.service fuel
                    playlist_id w)) = remote w.
Proof.
  intros Hacc Hlen.
  destruct (platform_listing playlist_id fuel w Hacc Hlen) as (tr & ->).
  split; reflexivity.
Qed.

(** 120 members take three pages; the last member is in the result. *)
Lemma listing_collects_every_member_witness :
  fst (PlaylistManager.get_playlist_video_ids Platform.service 3 "PL"
         (Platform.start Runs.long_playlist))
  = Ok (listed_ids "PL" Runs.long_playlist)
  /\ Platform.unary 119 ∈ listed_ids "PL" Runs.long_playlist
  /\ trace (snd (PlaylistManager.get_playlist_video_ids Platform.service 3 "PL"
                   (Platform.start Runs.long_playlist)))
     = [ PlaylistItemsList "PL" 50 None;
         PlaylistItemsList "PL" 50 (Some (Platform.unary 50));
         PlaylistItemsList "PL" 50 (Some (Platform.unary 100)) ].
Proof.
  split; [|split].
  - apply (listing_collects_every_member "PL" 3 (Platform.start Runs.long_playlist)).
    + intros rq. reflexivity.
    + vm_compute. lia.
  - refine (bool_decide_unpack _ _). vm_compute. exact I.
  - vm_compute. reflexivity.
Defined.

Lemma firstn_short {A : Type} (n : nat) (l : list A) :
  (length l <= n)%nat -> firstn n l = l.
Proof. intros H. apply firstn_all2. exact H. Qed.

(** X6. On the in-memory platform with fewer than fifty playlists, none of
    them with the given title, two calls of [get_or_create_playlist] in a row
    create one playlist: the first call returns a new id with
    [existed = False], the second finds it and returns the same id and url
    with [existed = True]. *)
Theorem get_or_create_playlist_twice (title description privacy_status : string)
    (s : Platform.state) :
  accepts_everything s ->
  (length (Platform.playlists s) < 50)%nat ->
  none_titled title (Platform.playlists s) ->
  exists (id : string) (w1 w2 : world Platform.state),
    PlaylistManager.get_or_create_playlist Platform.service title description
      privacy_status (Platform.start s)
    = (Ok (Some id, Some (PlaylistManager._get_playlist_url id), false), w1)
    /\ PlaylistManager.get_or_create_playlist Platform.service title description
         privacy_status w1
       = (Ok (Some id, Some (PlaylistManager._get_playlist_url id), true), w2)
    /\ Platform.playlists (remote w2)
       = (Platform.playlists s ++ [ {| pl_id := id; pl_snippet_title := title |} ])%list
    /\ trace w2 = [ PlaylistsList 50; PlaylistsInsert title description privacy_status;
                    PlaylistsList 50 ].
Proof.
  intros Hacc Hlen Hnone.
  exists ("PL-" ++ title)%string.
  eexists. eexists.
  split; [|split; [|split]].
  - unfold PlaylistManager.get_or_create_playlist. unfold bind at 1.
    unfold PlaylistManager.find_existing_playlist, try_except_HttpError, bind, execute, ret.
    cbn [playlists_list Platform.service remote Platform.start].
    unfold Platform.answer. rewrite Hacc.
    unfold Platform.page_of. cbn [items Platform.offset_of]. rewrite drop_0.
    change (Z.to_nat 50) with 50%nat. rewrite firstn_short by lia.
    rewrite first_with_title_none by assumption. cbn [fst truthy].
    unfold PlaylistManager.create_playlist, try_except_HttpError, bind, execute, ret.
    cbn [playlists_insert Platform.service remote trace Platform.start].
    unfold Platform.answer. rewrite Hacc. cbn [fst snd]. reflexivity.
  - unfold PlaylistManager.get_or_create_playlist. unfold bind at 1.
    unfold PlaylistManager.find_existing_playlist, try_except_HttpError, bind, execute, ret.
    cbn [playlists_list Platform.service remote Platform.with_playlists
         Platform.rejects Platform.playlists].
    unfold Platform.answer.
    cbn [Platform.rejects Platform.with_playlists]. rewrite Hacc.
    unfold Platform.page_of.
    cbn [items Platform.offset_of Platform.playlists Platform.with_playlists].
    rewrite drop_0. change (Z.to_nat 50) with 50%nat.
    rewrite firstn_short by (rewrite length_app; cbn [length]; lia).
    rewrite first_with_title_found by (assumption || reflexivity).
    cbn [fst snd pl_id]. reflexivity.
  - reflexivity.
  - reflexivity.
Qed.

(** A first run on the quiet platform. *)
Lemma get_or_create_playlist_twice_witness :
  exists id w1 w2,
    PlaylistManager.get_or_create_playlist Platform.service "news_20240501" "d" "unlisted"
      (Platform.start Runs.at_noon)
    = (Ok (Some id, Some (PlaylistManager._get_playlist_url id), false), w1)
    /\ PlaylistManager.get_or_create_playlist Platform.service "news_20240501" "d"
         "unlisted" w1
       = (Ok (Some id, Some (PlaylistManager._get_playlist_url id), true), w2)
    /\ Platform.playlists (remote w2)
       = (Platform.playlists Runs.at_noon
          ++ [ {| pl_id := id; pl_snippet_title := "news_20240501" |} ])%list
    /\ trace w2 = [ PlaylistsList 50; PlaylistsInsert "news_20240501" "d" "unlisted";
                    PlaylistsList 50 ].
Proof.
  apply (get_or_create_playlist_twice "news_20240501" "d" "unlisted" Runs.at_noon).
  - intros rq. reflexivity.
  - vm_compute. lia.
  - constructor.
Defined.

(** ** What the search engine sends and returns *)

Lemma lstrip_at_idempotent (h : string) :
  PyStr.lstrip_at (PyStr.lstrip_at h) = PyStr.lstrip_at h.
Proof.
  induction h as [|c h IH]; [reflexivity|].
  cbn [PyStr.lstrip_at].
  destruct c as [[] [] [] [] [] [] [] []]; try reflexivity; exact IH.
Qed.

Section SearchProperties.
Context {W : Type} (youtube : Service W).

(** X7. A handle is looked up without its leading [@] signs: the query of
    the one request that [get_channel_id_from_handle] issues does not start
    with [@], and writing the handle with or without [@] makes no
    difference. *)
Theorem handle_lookup_ignores_at (h : string) (w : world W) :
  VideoSearcher.get_channel_id_from_handle youtube (String "@"%char h) w
  = VideoSearcher.get_channel_id_from_handle youtube h w
  /\ (exists q : string,
        trace (snd (VideoSearcher.get_channel_id_from_handle youtube h w))
        = (trace w ++ [SearchChannel q 1])%list
        /\ (forall rest : string, q <> String "@"%char rest)
        /\ exists k : nat, h = (String.concat "" (repeat "@" k) ++ q)%string).
Proof.
  split; [reflexivity|].
  exists (PyStr.lstrip_at h). split; [|split].
  - unfold VideoSearcher.get_channel_id_from_handle, try_except_HttpError, bind, execute,
      ret.
    destruct (search_channel youtube (PyStr.lstrip_at h) 1 (remote w)) as [[page|] s'];
      [destruct (items page)|]; reflexivity.
  - intros rest E. pose proof (lstrip_at_idempotent h) as Hi. rewrite E in Hi.
    cbn [PyStr.lstrip_at] in Hi.
    assert (Hlen : forall s, (String.length (PyStr.lstrip_at s) <= String.length s)%nat).
    { clear. induction s as [|c s IH]; [reflexivity|]. cbn [PyStr.lstrip_at].
      destruct c as [[] [] [] [] [] [] [] []]; cbn [String.length] in *; lia. }
    specialize (Hlen rest). rewrite Hi in Hlen. cbn [String.length] in Hlen. lia.
  - induction h as [|c h IH].
    + exists 0%nat. reflexivity.
    + destruct (Ascii.eqb_spec c "@"%char) as [->|Hc].
      * destruct IH as [k Hk]. exists (S k). cbn [PyStr.lstrip_at].
        rewrite Hk at 1. clear.
        destruct k; reflexivity.
      * exists 0%nat. cbn [repeat String.concat]. rewrite append_empty_l.
        cbn [PyStr.lstrip_at].
        destruct c as [[] [] [] [] [] [] [] []]; try reflexivity. contradiction.
Qed.

(** The requests of one channel's paging stay within the window and within
    the page sizes of the platform, whatever the outcome. *)
Lemma search_channel_videos_loop_requests (cid a b : string) (max_results : Z)
    (fuel : nat) :
  forall (videos : list VideoData) (tok : option string) (w : world W),
  exists rqs,
    trace (snd (VideoSearcher.search_channel_videos_loop youtube fuel cid a b max_results
                  videos tok w)) = (trace w ++ rqs)%list
    /\ Forall (fun rq => search_request a b rq /\ video_page rq) rqs.
Proof.
  induction fuel as [|fuel IH]; intros videos tok w; cbn [VideoSearcher.search_channel_videos_loop].
  - exists []. rewrite app_nil_r.
    destruct (Z.of_nat (length videos) <? max_results); split; (reflexivity || constructor).
  - destruct (Z.ltb_spec (Z.of_nat (length videos)) max_results) as [Hlt|Hge].
    + unfold bind, execute.
      destruct (search_video youtube cid a b
                  (Z.min 50 (max_results - Z.of_nat (length videos))) tok (remote w))
        as [[page|] s'].
      * destruct (truthy (nextPageToken page)).
        -- edestruct IH as (rqs & -> & Hall). cbn [trace].
           eexists. rewrite <- app_assoc. split; [reflexivity|].
           constructor; [|exact Hall]. cbn. repeat split; lia.
        -- eexists. split; [reflexivity|].
           constructor; [|constructor]. cbn. repeat split; lia.
      * eexists. split; [reflexivity|].
        constructor; [|constructor]. cbn. repeat split; lia.
    + exists []. rewrite app_nil_r. split; [reflexivity | constructor].
Qed.

Lemma search_channel_videos_requests (cid a b : string) (max_results : Z) (fuel : nat)
    (w : world W) :
  exists rqs,
    trace (snd (VideoSearcher.search_channel_videos youtube fuel cid a b max_results w))
    = (trace w ++ rqs)%list
    /\ Forall (fun rq => search_request a b rq /\ video_page rq) rqs.
Proof.
  unfold VideoSearcher.search_channel_videos, try_except_HttpError.
  destruct (search_channel_videos_loop_requests cid a b max_results fuel [] None w)
    as (rqs & Ht & Hall).
  destruct (VideoSearcher.search_channel_videos_loop youtube fuel cid a b max_results
              [] None w) as [[vs|[]|] w']; exists rqs; split; assumption.
Qed.

Lemma resolve_channel_id_requests (a b : string) (c : Config.ChannelConfig)
    (w : world W) :
  exists rqs,
    trace (snd (VideoSearcher.resolve_channel_id youtube c w)) = (trace w ++ rqs)%list
    /\ Forall (search_request a b) rqs
    /\ (truthy (Config.channel_id c) = true -> rqs = []).
Proof.
  unfold VideoSearcher.resolve_channel_id.
  destruct (truthy (Config.channel_id c)).
  - exists []. rewrite app_nil_r. repeat split. constructor.
  - destruct (Config.handle c) as [h|].
    + exists [SearchChannel (PyStr.lstrip_at h) 1]. split; [|split; [|discriminate]].
      * unfold bind, VideoSearcher.get_channel_id_from_handle, try_except_HttpError, bind,
          execute, ret.
        destruct (search_channel youtube (PyStr.lstrip_at h) 1 (remote w))
          as [[page|] s']; [destruct (items page) as [|first tl]|]; cbn [fst snd];
          try reflexivity.
        destruct (truthy (Some (cr_snippet_channelId first))); reflexivity.
      * constructor; [|constructor]. cbn. split; [reflexivity|apply lstrip_at_idempotent].
    + exists []. rewrite app_nil_r. unfold raise. repeat split. constructor.
Qed.

Lemma collect_channels_requests (fuel : nat) (a b : string) (max_results : Z)
    (cs : list Config.ChannelConfig) :
  forall (acc : list Video) (w : world W),
  exists rqs,
    trace (snd (VideoSearcher.collect_channels youtube fuel cs a b max_results acc w))
    = (trace w ++ rqs)%list
    /\ Forall (search_request a b) rqs
    /\ (Forall (fun c => truthy (Config.channel_id c) = true) cs ->
        Forall video_page rqs).
Proof.
  induction cs as [|c rest IH]; intros acc w; cbn [VideoSearcher.collect_channels].
  - exists []. rewrite app_nil_r. repeat split; constructor.
  - unfold bind.
    destruct (resolve_channel_id_requests a b c w) as (r1 & Ht1 & Hall1 & Hid1).
    destruct (VideoSearcher.resolve_channel_id youtube c w) as [[[cid|]|e|] w1];
      cbn [snd] in Ht1.
    + destruct (search_channel_videos_requests cid a b max_results fuel w1)
        as (r2 & Ht2 & Hall2).
      destruct (VideoSearcher.search_channel_videos youtube fuel cid a b max_results w1)
        as [[videos|e|] w2]; cbn [snd] in Ht2.
      * destruct (IH (acc ++ map (VideoSearcher.tag (Config.name c)) videos)%list w2)
          as (r3 & -> & Hall3 & Hid3).
        exists (r1 ++ r2 ++ r3)%list. rewrite Ht2, Ht1, <- !app_assoc.
        split; [reflexivity|]. split.
        -- apply Forall_app. split; [assumption|]. apply Forall_app.
           split; [|assumption].
           eapply List.Forall_impl; [|exact Hall2]. intros rq Hrq. apply Hrq.
        -- intros Hids. inversion Hids as [|c0 l0 Hc Hrest]; subst c0 l0.
           rewrite (Hid1 Hc). cbn [app]. apply Forall_app. split; [|apply Hid3, Hrest].
           eapply List.Forall_impl; [|exact Hall2]. intros rq Hrq. apply Hrq.
      * exists (r1 ++ r2)%list. cbn [snd]. rewrite Ht2, Ht1, <- app_assoc.
        split; [reflexivity|]. split.
        -- apply Forall_app. split; [assumption|].
           eapply List.Forall_impl; [|exact Hall2]. intros rq Hrq. apply Hrq.
        -- intros Hids. inversion Hids as [|c0 l0 Hc Hrest]; subst c0 l0.
           rewrite (Hid1 Hc). cbn [app].
           eapply List.Forall_impl; [|exact Hall2]. intros rq Hrq. apply Hrq.
      * exists (r1 ++ r2)%list. cbn [snd]. rewrite Ht2, Ht1, <- app_assoc.
        split; [reflexivity|]. split.
        -- apply Forall_app. split; [assumption|].
           eapply List.Forall_impl; [|exact Hall2]. intros rq Hrq. apply Hrq.
        -- intros Hids. inversion Hids as [|c0 l0 Hc Hrest]; subst c0 l0.
           rewrite (Hid1 Hc). cbn [app].
           eapply List.Forall_impl; [|exact Hall2]. intros rq Hrq. apply Hrq.
    + destruct (IH acc w1) as (r3 & -> & Hall3 & Hid3).
      exists (r1 ++ r3)%list. rewrite Ht1, <- app_assoc.
      split; [reflexivity|]. split.
      * apply Forall_app. split; assumption.
      * intros Hids. inversion Hids as [|c0 l0 Hc Hrest]; subst c0 l0.
        rewrite (Hid1 Hc). cbn [app]. apply Hid3, Hrest.
    + exists r1. cbn [snd]. split; [exact Ht1|]. split; [exact Hall1|].
      intros Hids. inversion Hids as [|c0 l0 Hc Hrest]; subst c0 l0.
      rewrite (Hid1 Hc). constructor.
    + exists r1. cbn [snd]. split; [exact Ht1|]. split; [exact Hall1|].
      intros Hids. inversion Hids as [|c0 l0 Hc Hrest]; subst c0 l0.
      rewrite (Hid1 Hc). constructor.
Qed.

(** X8. Whatever its outcome, [search_multiple_channels] issues nothing but
    search requests: handle lookups for one result, with a query free of
    leading [@], and video pages of one to fifty items carrying the window
    bounds it was given; it never touches a playlist.  When every descriptor
    has a channel id, no handle is looked up at all. *)
Theorem search_only_searches (fuel : nat) (cs : list Config.ChannelConfig)
    (a b : string) (max_results : Z) (w : world W) :
  exists rqs : list call,
    trace (snd (VideoSearcher.search_multiple_channels youtube fuel cs a b max_results w))
    = (trace w ++ rqs)%list
    /\ Forall (search_request a b) rqs
    /\ (Forall (fun c => truthy (Config.channel_id c) = true) cs ->
        Forall video_page rqs).
Proof.
  destruct (collect_channels_requests fuel a b max_results cs [] w)
    as (rqs & Ht & Hall & Hids).
  exists rqs. unfold VideoSearcher.search_multiple_channels, bind, ret.
  destruct (VideoSearcher.collect_channels youtube fuel cs a b max_results [] w)
    as [[all|e|] w']; cbn [snd] in *; repeat split; assumption.
Qed.

End SearchProperties.

(** Four pages asked from one channel given by id: no handle is looked up. *)
Lemma search_only_searches_witness :
  exists rqs : list call,
    trace (snd (VideoSearcher.search_multiple_channels Platform.service 50
                  [Runs.first_channel; Runs.down_channel] "a" "b" 50
                  (Platform.start Runs.two_channels)))
    = (trace (Platform.start Runs.two_channels) ++ rqs)%list
    /\ Forall video_page rqs.
Proof.
  destruct (search_only_searches Platform.service 50
              [Runs.first_channel; Runs.down_channel] "a" "b" 50
              (Platform.start Runs.two_channels)) as (rqs & Ht & _ & Hids).
  exists rqs. split; [exact Ht|]. apply Hids.
  constructor; [reflexivity|]. constructor; [reflexivity|]. constructor.
Defined.

Section TaggingProperties.
Context {W : Type} (youtube : Service W).

Lemma collect_channels_tagged (fuel : nat) (a b : string) (max_results : Z)
    (all_cs : list Config.ChannelConfig) (cs : list Config.ChannelConfig) :
  (forall c, In c cs -> In c all_cs) ->
  forall (acc : list Video) (w : world W) (out : list Video) (w' : world W),
    Forall (tagged_from all_cs) acc ->
    VideoSearcher.collect_channels youtube fuel cs a b max_results acc w = (Ok out, w') ->
    Forall (tagged_from all_cs) out.
Proof.
  induction cs as [|c rest IH]; intros Hsub acc w out w' Hacc;
    cbn [VideoSearcher.collect_channels].
  - unfold ret. intros [= <- _]. exact Hacc.
  - unfold bind.
    destruct (VideoSearcher.resolve_channel_id youtube c w) as [[[cid|]|e|] w1];
      try discriminate.
    + destruct (VideoSearcher.search_channel_videos youtube fuel cid a b max_results w1)
        as [[videos|e|] w2]; try discriminate.
      apply IH; [intros x Hx; apply Hsub; right; exact Hx|].
      apply Forall_app. split; [exact Hacc|].
      apply List.Forall_forall. intros v Hv. apply in_map_iff in Hv as (d & <- & _).
      unfold tagged_from. cbn [source_channel VideoSearcher.tag].
      apply in_map. apply Hsub. left. reflexivity.
    + apply IH; [intros x Hx; apply Hsub; right; exact Hx | exact Hacc].
Qed.

(** X9. Every record that [search_multiple_channels] returns carries, as
    [source_channel], the name of one of the descriptors it was given; the
    platform's own channel title stays in [channel_title] and plays no part.
    The records are as many as the channels contributed. *)
Theorem search_results_are_tagged (fuel : nat) (cs : list Config.ChannelConfig)
    (a b : string) (max_results : Z) (w w' : world W) (out : list Video) :
  VideoSearcher.search_multiple_channels youtube fuel cs a b max_results w = (Ok out, w') ->
  Forall (fun v => In (source_channel v) (map Config.name cs)) out
  /\ exists per : list (list Video),
       SearchSpec.each_channel youtube fuel cs a b max_results w = (Ok per, w')
       /\ length out = length (concat per).
Proof.
  intros Hsearch. split.
  - unfold VideoSearcher.search_multiple_channels, bind, ret in Hsearch.
    destruct (VideoSearcher.collect_channels youtube fuel cs a b max_results [] w)
      as [[all|e|] w1] eqn:Hc; try discriminate.
    injection Hsearch as <- <-.
    assert (Hall : Forall (tagged_from cs) all).
    { eapply collect_channels_tagged; [| |exact Hc]; [auto | constructor]. }
    apply List.Forall_forall. intros v Hv.
    rewrite List.Forall_forall in Hall. apply Hall.
    eapply Permutation_in; [apply sort_by_published_at_perm | exact Hv].
  - unfold VideoSearcher.search_multiple_channels in Hsearch.
    unfold bind at 1 in Hsearch. rewrite collect_channels_each_channel in Hsearch.
    unfold bind, ret in Hsearch.
    destruct (SearchSpec.each_channel youtube fuel cs a b max_results w)
      as [[per|e|] w1]; try discriminate.
    injection Hsearch as <- <-. exists per. split; [reflexivity|].
    cbn [app]. apply Permutation_length, sort_by_published_at_perm.
Qed.

(** X10. A descriptor that has neither a usable channel id nor a handle
    stops the whole search with [KeyError('handle')]: what the channels
    before it brought is lost, the channels after it are not searched, and
    no request is issued for it. *)
Theorem missing_handle_aborts_the_search (fuel : nat) (a b : string) (max_results : Z)
    (pre post : list Config.ChannelConfig) (c : Config.ChannelConfig)
    (w w1 : world W) (found : list Video) :
  truthy (Config.channel_id c) = false ->
  Config.handle c = None ->
  VideoSearcher.search_multiple_channels youtube fuel pre a b max_results w
  = (Ok found, w1) ->
  VideoSearcher.search_multiple_channels youtube fuel (pre ++ c :: post) a b max_results w
  = (Raise (KeyError "handle"), w1).
Proof.
  intros Hid Hh Hpre.
  unfold VideoSearcher.search_multiple_channels, bind in *.
  rewrite collect_channels_app.
  destruct (VideoSearcher.collect_channels youtube fuel pre a b max_results [] w)
    as [[all|e|] w0]; try discriminate.
  unfold ret in Hpre. injection Hpre as _ <-.
  cbn [VideoSearcher.collect_channels]. unfold bind, VideoSearcher.resolve_channel_id.
  rewrite Hid, Hh. reflexivity.
Qed.

End TaggingProperties.

(** A descriptor without id and handle between two healthy ones. *)
Lemma missing_handle_aborts_the_search_witness :
  VideoSearcher.search_multiple_channels Platform.service 50
    [Runs.first_channel; Runs.bare_channel; Runs.second_channel] "a" "b" 50
    (Platform.start Runs.two_channels)
  = (Raise (KeyError "handle"),
     {| remote := Runs.two_channels; trace := [SearchVideo "UC-a" "a" "b" 50 None] |}).
Proof.
  apply (missing_handle_aborts_the_search Platform.service 50 "a" "b" 50
           [Runs.first_channel] [Runs.second_channel] Runs.bare_channel
           (Platform.start Runs.two_channels)
           {| remote := Runs.two_channels; trace := [SearchVideo "UC-a" "a" "b" 50 None] |}
           [ Runs.tagged "First" "a2" "2024-05-01T01:00:00Z";
             Runs.tagged "First" "a1" "2024-05-01T02:00:00Z" ]).
  - reflexivity.
  - reflexivity.
  - vm_compute. reflexivity.
Defined.

(** The records of two channels carry the two names. *)
Lemma search_results_are_tagged_witness :
  exists out w',
    VideoSearcher.search_multiple_channels Platform.service 50
      [Runs.first_channel; Runs.second_channel] "a" "b" 50
      (Platform.start Runs.two_channels) = (Ok out, w')
    /\ Forall (fun v => In (source_channel v) ["First"; "Second"]%string) out
    /\ length out = 4%nat.
Proof.
  eexists. eexists. split; [vm_compute; reflexivity|].
  destruct (search_results_are_tagged Platform.service 50
              [Runs.first_channel; Runs.second_channel] "a" "b" 50
              (Platform.start Runs.two_channels)
              (snd (VideoSearcher.search_multiple_channels Platform.service 50
                      [Runs.first_channel; Runs.second_channel] "a" "b" 50
                      (Platform.start Runs.two_channels)))
              [ Runs.tagged "First" "a2" "2024-05-01T01:00:00Z";
                Runs.tagged "Second" "b1" "2024-05-01T01:00:00Z";
                Runs.tagged "First" "a1" "2024-05-01T02:00:00Z";
                Runs.tagged "Second" "b2" "2024-05-01T02:00:00Z" ])
    as [Htag _].
  - vm_compute. reflexivity.
  - split; [exact Htag | reflexivity].
Defined.

(** ** Sorting and capping, applied again *)

Lemma leb_true_ltb_false (s1 s2 : string) :
  String.leb s1 s2 = true -> String.ltb s2 s1 = false.
Proof.
  unfold String.ltb, String.leb. rewrite (String.compare_antisym s2 s1).
  destruct (String.compare s1 s2); simpl; intros H; first [reflexivity | discriminate H].
Qed.

Lemma sort_by_published_at_fixes_sorted (l : list Video) :
  StronglySorted SearchSpec.key_le l -> VideoSearcher.sort_by_published_at l = l.
Proof.
  induction 1 as [|x l Hs IH Hall]; [reflexivity|].
  cbn [VideoSearcher.sort_by_published_at]. rewrite IH.
  destruct l as [|y l']; [reflexivity|].
  cbn [VideoSearcher.insert_by_key].
  inversion Hall as [|y0 l0 Hxy _]; subst.
  unfold SearchSpec.key_le in Hxy. now rewrite (leb_true_ltb_false _ _ Hxy).
Qed.

(** X11. A list that is already in non-decreasing order of [published_at]
    comes out of the sort as it went in, ties included; so sorting a second
    time changes nothing. *)
Theorem sort_leaves_sorted_lists_alone (l : list Video) :
  (StronglySorted SearchSpec.key_le l -> VideoSearcher.sort_by_published_at l = l)
  /\ VideoSearcher.sort_by_published_at (VideoSearcher.sort_by_published_at l)
     = VideoSearcher.sort_by_published_at l.
Proof.
  split.
  - apply sort_by_published_at_fixes_sorted.
  - apply sort_by_published_at_fixes_sorted, sort_by_published_at_sorted.
Qed.

(** Two records with the same time stay as they are. *)
Lemma sort_leaves_sorted_lists_alone_witness :
  VideoSearcher.sort_by_published_at
    [ Runs.tagged "First" "a2" "2024-05-01T01:00:00Z";
      Runs.tagged "Second" "b1" "2024-05-01T01:00:00Z" ]
  = [ Runs.tagged "First" "a2" "2024-05-01T01:00:00Z";
      Runs.tagged "Second" "b1" "2024-05-01T01:00:00Z" ].
Proof.
  apply (proj1 (sort_leaves_sorted_lists_alone _)).
  constructor; [constructor; [constructor | constructor] |].
  constructor; [vm_compute; reflexivity | constructor].
Defined.

Lemma slice_to_app_exact (s1 s2 : string) :
  PyStr.slice_to (String.length s1) (s1 ++ s2) = s1.
Proof.
  unfold PyStr.slice_to. induction s1 as [|c s1 IH].
  - rewrite append_empty_l. destruct s2; reflexivity.
  - rewrite append_cons. cbn [String.length String.substring]. now rewrite IH.
Qed.

(** X12. The stored description never exceeds 103 characters, and capping a
    stored description again gives the same text: the mark that the first
    capping appended is cut off and appended anew. *)
Theorem stored_description_is_stable (description : string) :
  PyStr.len (VideoSearcher.stored_description description) <= 103
  /\ VideoSearcher.stored_description (VideoSearcher.stored_description description)
     = VideoSearcher.stored_description description.
Proof.
  unfold VideoSearcher.stored_description at 1 3 4.
  destruct (Z.gtb_spec (PyStr.len description) 100) as [Hlong|Hshort].
  - assert (L : String.length (PyStr.slice_to 100 description) = 100%nat)
      by (apply length_slice_to; unfold PyStr.len in Hlong; lia).
    split.
    + unfold PyStr.len. rewrite length_append, L. cbn. lia.
    + unfold VideoSearcher.stored_description.
      replace (PyStr.len (PyStr.slice_to 100 description ++ "...") >? 100) with true.
      2:{ symmetry. apply Z.gtb_lt. unfold PyStr.len. rewrite length_append, L. cbn. lia. }
      rewrite <- L at 1. rewrite slice_to_app_exact. reflexivity.
  - split; [lia|]. unfold VideoSearcher.stored_description.
    destruct (Z.gtb_spec (PyStr.len description) 100); [lia | reflexivity].
Qed.

(** ** The time window, further *)

Section WindowProperties.
Context {W : Type} (youtube : Service W).

(** X13. For a target date that is not the current date, the window does
    not depend on the clock: two runs at different instants resolve the same
    window.  Without an effective [hours_back] it is the whole day, from
    midnight to the last microsecond. *)
Theorem window_of_another_day_ignores_the_clock (cfg : Config.DateConfig)
    (w1 w2 : world W) :
  Config.date_eqb (Config.target_date cfg)
    (fst (clock_today youtube (snd (clock_now youtube (remote w1))))) = false ->
  Config.date_eqb (Config.target_date cfg)
    (fst (clock_today youtube (snd (clock_now youtube (remote w2))))) = false ->
  fst (Config.get_date_range youtube cfg w1) = fst (Config.get_date_range youtube cfg w2)
  /\ (Config.hours_back_set (Config.dc_hours_back cfg) = None ->
      exists start_time end_time,
        fst (Config.get_date_range youtube cfg w1) = Ok (start_time, end_time)
        /\ start_time = Config.combine (Config.target_date cfg) 0
        /\ end_time - start_time = Config.us_per_day - 1).
Proof.
  intros H1 H2. rewrite !get_date_range_reads_the_clock. cbn [fst].
  unfold Config.date_range. rewrite H1, H2. cbn [negb]. split; [reflexivity|].
  intros Hnone. rewrite Hnone. eexists _, _. split; [reflexivity|].
  split; [reflexivity|]. unfold Config.combine, Config.time_min, Config.time_max. lia.
Qed.

(** X14. A negative [hours_back] is taken as it is: the "start" of the
    window then lies that many hours after its end. *)
Theorem negative_hours_back_reverses_the_window (cfg : Config.DateConfig) (w : world W)
    (h : Z) :
  let now := fst (clock_now youtube (remote w)) in
  let today := fst (clock_today youtube (snd (clock_now youtube (remote w)))) in
  Config.dc_hours_back cfg = Some h ->
  h < 0 ->
  0 <= window_end cfg now today ->
  window_end cfg now today - h * Config.us_per_hour <= Config.datetime_max ->
  exists start_time end_time,
    fst (Config.get_date_range youtube cfg w) = Ok (start_time, end_time)
    /\ end_time = window_end cfg now today
    /\ start_time = end_time + (- h) * Config.us_per_hour
    /\ end_time < start_time.
Proof.
  cbv zeta. intros Hh Hneg Hlo Hhi.
  rewrite get_date_range_reads_the_clock. cbn [fst].
  set (now := fst (clock_now youtube (remote w))) in *.
  set (today := fst (clock_today youtube (snd (clock_now youtube (remote w))))) in *.
  unfold Config.date_range. rewrite Hh. unfold Config.hours_back_set.
  replace (h =? 0) with false by (symmetry; apply Z.eqb_neq; lia).
  assert (He : (if negb (Config.date_eqb (Config.target_date cfg) today)
                then Config.combine (Config.target_date cfg) Config.time_max
                else now) = window_end cfg now today).
  { unfold window_end. destruct (Config.date_eqb _ _); reflexivity. }
  rewrite He. set (e := window_end cfg now today) in *.
  rewrite us_per_hour_value, datetime_max_value in *.
  unfold Config.timedelta_hours.
  replace ((-999999999 <=? h / 24) && (h / 24 <=? 999999999)) with true.
  2:{ symmetry. apply andb_true_intro. split; apply Z.leb_le.
      - apply Z.div_le_lower_bound; lia.
      - apply Z.div_le_upper_bound; lia. }
  unfold Config.datetime_sub. rewrite us_per_hour_value, datetime_max_value.
  replace ((0 <=? e - h * 3600000000) && (e - h * 3600000000 <=? 315537897599999999))
    with true
    by (symmetry; apply andb_true_intro; split; apply Z.leb_le; lia).
  eexists _, _. split; [reflexivity|]. repeat split; lia.
Qed.

End WindowProperties.

(** The first of May seen from the second and from the eighth. *)
Lemma window_of_another_day_ignores_the_clock_witness :
  fst (Config.get_date_range Platform.service
         {| Config.target_date := Runs.may_first; Config.dc_hours_back := Some 7 |}
         (Platform.start Runs.a_day_later))
  = fst (Config.get_date_range Platform.service
           {| Config.target_date := Runs.may_first; Config.dc_hours_back := Some 7 |}
           (Platform.start Runs.a_week_later)).
Proof.
  apply (window_of_another_day_ignores_the_clock Platform.service
           {| Config.target_date := Runs.may_first; Config.dc_hours_back := Some 7 |}
           (Platform.start Runs.a_day_later) (Platform.start Runs.a_week_later)).
  - vm_compute. reflexivity.
  - vm_compute. reflexivity.
Defined.

(** Minus seven hours at noon: the window "starts" at seven in the evening. *)
Lemma negative_hours_back_reverses_the_window_witness :
  exists start_time end_time,
    fst (Config.get_date_range Platform.service
           {| Config.target_date := Runs.may_first; Config.dc_hours_back := Some (-7) |}
           (Platform.start Runs.at_noon)) = Ok (start_time, end_time)
    /\ end_time = Runs.may_first_noon
    /\ start_time = end_time + 7 * Config.us_per_hour
    /\ end_time < start_time.
Proof.
  apply (negative_hours_back_reverses_the_window Platform.service
           {| Config.target_date := Runs.may_first; Config.dc_hours_back := Some (-7) |}
           (Platform.start Runs.at_noon) (-7)).
  - reflexivity.
  - lia.
  - vm_compute. discriminate.
  - vm_compute. discriminate.
Defined.

(** ** The wire format of the window *)

Lemma replace_go_no_plus (body rest : string) :
  no_plus body = true ->
  PyStr.replace_go "+00:00" "Z" 0 (body ++ rest)
  = (body ++ PyStr.replace_go "+00:00" "Z" 0 rest)%string.
Proof.
  induction body as [|c body IH]; intros Hp; [reflexivity|].
  cbn [no_plus] in Hp. apply andb_prop in Hp as [Hc Hb].
  rewrite !append_cons. cbn [PyStr.replace_go String.prefix].
  destruct (ascii_dec "+" c) as [<-|_]; [discriminate Hc|].
  now rewrite IH.
Qed.

Lemma replace_offset_suffix (body : string) :
  no_plus body = true ->
  PyStr.replace "+00:00" "Z" (body ++ "+00:00") = (body ++ "Z")%string.
Proof.
  intros Hp. unfold PyStr.replace. rewrite replace_go_no_plus by assumption. reflexivity.
Qed.

Section WireProperties.
Context {W : Type} (youtube : Service W).
Context (isoformat : datetime -> string).

(** X15. When [isoformat] writes the two instants of the window with the
    offset [+00:00], as it does for UTC, [get_iso_format] hands them over
    with that offset replaced by [Z] and nothing else changed. *)
Theorem get_iso_format_ends_in_Z (cfg : Config.DateConfig) (w w' : world W)
    (start_time end_time : datetime) (s e : string) :
  Config.get_date_range youtube cfg w = (Ok (start_time, end_time), w') ->
  isoformat start_time = (s ++ "+00:00")%string ->
  isoformat end_time = (e ++ "+00:00")%string ->
  no_plus s = true ->
  no_plus e = true ->
  Config.get_iso_format youtube isoformat cfg w = (Ok (s ++ "Z", e ++ "Z")%string, w').
Proof.
  intros Hrange Hs He Hps Hpe.
  unfold Config.get_iso_format, bind, ret. rewrite Hrange. cbn [fst snd].
  rewrite Hs, He, !replace_offset_suffix by assumption. reflexivity.
Qed.

End WireProperties.

(** Seven hours back from noon, in the notation of the in-memory platform. *)
Lemma get_iso_format_ends_in_Z_witness :
  Config.get_iso_format Platform.service Platform.isoformat
    {| Config.target_date := Runs.may_first; Config.dc_hours_back := Some 7 |}
    (Platform.start Runs.at_noon)
  = (Ok ("63850136400000000Z", "63850161600000000Z")%string,
     Platform.start Runs.at_noon).
Proof.
  apply (get_iso_format_ends_in_Z Platform.service Platform.isoformat
           {| Config.target_date := Runs.may_first; Config.dc_hours_back := Some 7 |}
           (Platform.start Runs.at_noon) (Platform.start Runs.at_noon)
           63850136400000000 63850161600000000
           "63850136400000000" "63850161600000000")%string.
  - vm_compute. reflexivity.
  - vm_compute. reflexivity.
  - vm_compute. reflexivity.
  - reflexivity.
  - reflexivity.
Defined.

(** ** Titles and descriptions *)

Section FormatSteps.
Context (str_of_int : Z -> string).
Context (render_extended :
           PyStr.pyval -> string -> option ascii ->
           PyStr.result (option string -> PyStr.result string)).
Context (expand : string -> outcome string).
Context (kwargs : list (string * PyStr.pyval)).

Local Abbreviation run := (PyStr.run str_of_int render_extended expand kwargs).

(** A character other than a brace is copied. *)
Lemma run_literal_char (out rest : string) (c : ascii) :
  Ascii.eqb c "{"%char = false ->
  Ascii.eqb c "}"%char = false ->
  run PyStr.Text out (String c rest) = run PyStr.Text (out ++ String c EmptyString) rest.
Proof. intros H1 H2. cbn [PyStr.run PyStr.step]. rewrite H1, H2. reflexivity. Qed.

(** A doubled brace is copied once. *)
Lemma run_doubled_brace (out rest : string) (c : ascii) :
  (Ascii.eqb c "{"%char || Ascii.eqb c "}"%char)%bool = true ->
  run PyStr.Text out (String c (String c rest))
  = run PyStr.Text (out ++ String c EmptyString) rest.
Proof.
  intros H. apply orb_prop in H as [H|H]; apply Ascii.eqb_eq in H; subst c; reflexivity.
Qed.

(** A placeholder with a known name is replaced by the text of its value. *)
Lemma run_known_placeholder (out name rest : string) (v : PyStr.pyval) :
  plain_name name = true ->
  PyStr.all_digits name = false ->
  PyStr.lookup_kw kwargs name = Some v ->
  run PyStr.Text out (String "{"%char (name ++ String "}"%char rest))
  = run PyStr.Text (out ++ PyStr.str_of str_of_int v) rest.
Proof.
  intros Hp Hd Hl. destruct name as [|c name]; [discriminate Hd|].
  pose proof Hp as Hp'. cbn in Hp'. apply andb_prop in Hp' as [Hc Hn].
  destruct (plain_char_inv c Hc) as (Hbrace & _).
  rewrite append_cons. cbn [PyStr.run PyStr.step].
  change (Ascii.eqb "{"%char "{"%char) with true. cbv iota.
  cbn [PyStr.run PyStr.step].
  rewrite Hbrace, field_char_plain by assumption.
  rewrite run_app, run_plain_name by assumption.
  cbn [PyStr.run PyStr.step].
  change (PyStr.snoc EmptyString c ++ name)%string with (String c name).
  rewrite field_char_close. unfold PyStr.emit, PyStr.render_field.
  rewrite arg_name_plain by assumption. rewrite Hd, Hl, String.eqb_refl. reflexivity.
Qed.

(** The text written so far plays no part in what follows. *)
Lemma step_output (st : PyStr.fstate) (out : string) (c : ascii) :
  PyStr.step str_of_int render_extended expand kwargs st out c
  = match PyStr.step str_of_int render_extended expand kwargs st EmptyString c with
    | Ok (st', d) => Ok (st', out ++ d)%string
    | Raise e => Raise e
    | OutOfFuel => OutOfFuel
    end.
Proof.
  destruct st; cbn [PyStr.step]; unfold PyStr.field_char, PyStr.emit, PyStr.snoc;
    repeat match goal with
           | |- context [if ?b then _ else _] => destruct b
           | |- context [match ?d with O => _ | S _ => _ end] => destruct d
           | |- context [match PyStr.render_field ?a ?b ?c ?d ?e ?f ?g with _ => _ end] =>
               destruct (PyStr.render_field a b c d e f g)
           end;
    rewrite ?append_empty_l, ?append_empty_r; reflexivity.
Qed.

Lemma run_output (s : string) :
  forall (st : PyStr.fstate) (out : string),
    run st out s
    = match run st EmptyString s with
      | Ok (st', d) => Ok (st', out ++ d)%string
      | Raise e => Raise e
      | OutOfFuel => OutOfFuel
      end.
Proof.
  induction s as [|c s IH]; intros st out.
  - cbn. now rewrite append_empty_r.
  - cbn [PyStr.run]. rewrite step_output.
    destruct (PyStr.step str_of_int render_extended expand kwargs st EmptyString c)
      as [[st' d]|e|]; try reflexivity.
    rewrite IH. rewrite (IH st' d).
    destruct (run st' EmptyString s) as [[st'' d']|e|]; try reflexivity.
    now rewrite append_assoc.
Qed.

(** Two templates that format, written one after the other, format to the
    two texts one after the other. *)
Lemma finish_app (t1 t2 o1 o2 : string) :
  PyStr.finish (run PyStr.Text EmptyString t1) = Ok o1 ->
  PyStr.finish (run PyStr.Text EmptyString t2) = Ok o2 ->
  PyStr.finish (run PyStr.Text EmptyString (t1 ++ t2)) = Ok (o1 ++ o2)%string.
Proof.
  unfold PyStr.finish. intros H1 H2. rewrite run_app.
  destruct (run PyStr.Text EmptyString t1) as [[st d]|e|]; try discriminate.
  destruct st; try discriminate. injection H1 as ->.
  rewrite run_output.
  destruct (run PyStr.Text EmptyString t2) as [[st d]|e|]; try discriminate.
  destruct st; try discriminate. injection H2 as ->. reflexivity.
Qed.

(** A text with its braces doubled formats to itself. *)
Lemma finish_escape (s : string) :
  PyStr.finish (run PyStr.Text EmptyString (escape s)) = Ok s.
Proof.
  assert (H : forall out, run PyStr.Text out (escape s) = Ok (PyStr.Text, out ++ s)%string).
  { induction s as [|c s IH]; intros out.
    - cbn. now rewrite append_empty_r.
    - cbn [escape].
      destruct (Ascii.eqb c "{"%char || Ascii.eqb c "}"%char)%bool eqn:E.
      + rewrite run_doubled_brace by assumption. rewrite IH, append_assoc. reflexivity.
      + apply orb_false_elim in E as [E1 E2].
        rewrite run_literal_char by assumption. rewrite IH, append_assoc. reflexivity. }
  rewrite H. reflexivity.
Qed.

Lemma run_literal (lit : string) :
  brace_free lit = true ->
  forall out rest : string,
    run PyStr.Text out (lit ++ rest) = run PyStr.Text (out ++ lit) rest.
Proof.
  induction lit as [|c lit IH]; intros Hb out rest.
  - now rewrite append_empty_l, append_empty_r.
  - cbn [brace_free] in Hb. apply andb_prop in Hb as [Hc Hl].
    apply negb_true_iff, orb_false_elim in Hc as [H1 H2].
    rewrite append_cons, run_literal_char by assumption.
    rewrite IH by assumption. now rewrite append_assoc.
Qed.

End FormatSteps.

Section FormatComposition.
Context (str_of_int : Z -> string).
Context (render_extended :
           PyStr.pyval -> string -> option ascii ->
           PyStr.result (option string -> PyStr.result string)).
Context (kwargs : list (string * PyStr.pyval)).

Lemma format_app (t1 t2 o1 o2 : string) :
  PyStr.format str_of_int render_extended t1 kwargs = Ok o1 ->
  PyStr.format str_of_int render_extended t2 kwargs = Ok o2 ->
  PyStr.format str_of_int render_extended (t1 ++ t2) kwargs = Ok (o1 ++ o2)%string.
Proof. rewrite !format_unfold. apply finish_app. Qed.

Lemma format_escape (s : string) :
  PyStr.format str_of_int render_extended (escape s) kwargs = Ok s.
Proof. rewrite format_unfold. apply finish_escape. Qed.

End FormatComposition.

Section TemplateProperties.
Context {W : Type} (youtube : Service W).
Context (strftime : string -> date -> string).
Context (str_of_int : Z -> string).
Context (render_extended :
           PyStr.pyval -> string -> option ascii ->
           PyStr.result (option string -> PyStr.result string)).

(** The description is the formatted template followed by the trailer. *)
Lemma generate_playlist_description_trailer (category : string)
    (channels : list Config.ChannelConfig) (target_date : date) (video_count : Z)
    (template body : string) (w : world W) :
  PyStr.format str_of_int render_extended template
    (PlaylistManager.description_kwargs strftime category channels target_date video_count)
  = Ok body ->
  fst (PlaylistManager.generate_playlist_description youtube strftime str_of_int
         render_extended category channels target_date video_count template w)
  = Ok (body ++ trailer (str_of_int video_count)
                  (strftime "%Y-%m-%d" (fst (clock_today youtube (remote w)))))%string.
Proof.
  intros Hbody.
  unfold PlaylistManager.generate_playlist_description, bind, Config.lift, read_clock, ret.
  rewrite Hbody. destruct (clock_today youtube (remote w)) as [today s]. cbn [fst].
  unfold trailer. rewrite !append_assoc. reflexivity.
Qed.

Lemma name_template_formats (category : string) (channels : list Config.ChannelConfig)
    (target_date : date) :
  PlaylistManager.generate_playlist_title strftime str_of_int render_extended category
    channels target_date (Config.name_template Config.PLAYLIST_CONFIG)
  = Ok (category ++ "_" ++ strftime "%Y%m%d" target_date)%string.
Proof.
  unfold PlaylistManager.generate_playlist_title. rewrite format_unfold.
  unfold PyStr.finish.
  change (Config.name_template Config.PLAYLIST_CONFIG)
    with (String "{"%char
            ("category" ++ String "}"%char
               ("_" ++ String "{"%char ("date" ++ String "}"%char EmptyString))))%string.
  rewrite (run_known_placeholder _ _ _ _ _ "category" _ (PyStr.VStr category))
    by reflexivity.
  rewrite run_literal by reflexivity.
  rewrite (run_known_placeholder _ _ _ _ _ "date" _
             (PyStr.VStr (strftime "%Y%m%d" target_date))) by reflexivity.
  cbn [PyStr.run PyStr.str_of]. rewrite append_empty_l, !append_assoc. reflexivity.
Qed.

Lemma description_template_formats (category : string)
    (channels : list Config.ChannelConfig) (target_date : date) (video_count : Z) :
  PyStr.format str_of_int render_extended
    (Config.description_template Config.PLAYLIST_CONFIG)
    (PlaylistManager.description_kwargs strftime category channels target_date video_count)
  = Ok (category ++ " videos from "
        ++ PyStr.join ", " (map Config.name channels)
        ++ " uploaded on " ++ strftime "%Y-%m-%d" target_date)%string.
Proof.
  rewrite format_unfold. unfold PyStr.finish.
  change (Config.description_template Config.PLAYLIST_CONFIG)
    with (String "{"%char
            ("category" ++ String "}"%char
               (" videos from "
                ++ String "{"%char
                     ("channels" ++ String "}"%char
                        (" uploaded on "
                         ++ String "{"%char
                              ("date" ++ String "}"%char EmptyString))))))%string.
  rewrite (run_known_placeholder _ _ _ _ _ "category" _ (PyStr.VStr category))
    by reflexivity.
  rewrite run_literal by reflexivity.
  rewrite (run_known_placeholder _ _ _ _ _ "channels" _
             (PyStr.VStr (PyStr.join ", " (map Config.name channels)))) by reflexivity.
  rewrite run_literal by reflexivity.
  rewrite (run_known_placeholder _ _ _ _ _ "date" _
             (PyStr.VStr (strftime "%Y-%m-%d" target_date))) by reflexivity.
  cbn [PyStr.run PyStr.str_of]. rewrite append_empty_l, !append_assoc. reflexivity.
Qed.

(** X16. With the configured templates nothing can go wrong, whatever
    characters the category and the channel names contain (braces included:
    inserted values are not read as templates).  The title is the category,
    an underscore and the compact date; the description is the configured
    sentence followed by the count line and the generation line. *)
Theorem configured_templates_always_format (category : string)
    (channels : list Config.ChannelConfig) (target_date : date) (video_count : Z)
    (w : world W) :
  PlaylistManager.generate_playlist_title strftime str_of_int render_extended category
    channels target_date (Config.name_template Config.PLAYLIST_CONFIG)
  = Ok (category ++ "_" ++ strftime "%Y%m%d" target_date)%string
  /\ fst (PlaylistManager.generate_playlist_description youtube strftime str_of_int
            render_extended category channels target_date video_count
            (Config.description_template Config.PLAYLIST_CONFIG) w)
     = Ok ((category ++ " videos from "
            ++ PyStr.join ", " (map Config.name channels)
            ++ " uploaded on " ++ strftime "%Y-%m-%d" target_date)
           ++ trailer (str_of_int video_count)
                (strftime "%Y-%m-%d" (fst (clock_today youtube (remote w)))))%string.
Proof.
  split.
  - apply name_template_formats.
  - apply generate_playlist_description_trailer, description_template_formats.
Qed.

(** X17. A text in which every brace is doubled is a template for that very
    text: the title formatter returns the text, and the description
    formatter returns it followed by its two closing lines. *)
Theorem doubled_braces_stand_for_themselves (category : string)
    (channels : list Config.ChannelConfig) (target_date : date) (video_count : Z)
    (text : string) (w : world W) :
  PlaylistManager.generate_playlist_title strftime str_of_int render_extended category
    channels target_date (escape text) = Ok text
  /\ fst (PlaylistManager.generate_playlist_description youtube strftime str_of_int
            render_extended category channels target_date video_count (escape text) w)
     = Ok (text ++ trailer (str_of_int video_count)
                     (strftime "%Y-%m-%d" (fst (clock_today youtube (remote w)))))%string.
Proof.
  split.
  - apply format_escape.
  - apply generate_playlist_description_trailer, format_escape.
Qed.

(** X18. Templates compose: when two templates give two titles, the two
    templates written one after the other give the two titles one after the
    other. *)
Theorem titles_compose (category : string) (channels : list Config.ChannelConfig)
    (target_date : date) (t1 t2 o1 o2 : string) :
  PlaylistManager.generate_playlist_title strftime str_of_int render_extended category
    channels target_date t1 = Ok o1 ->
  PlaylistManager.generate_playlist_title strftime str_of_int render_extended category
    channels target_date t2 = Ok o2 ->
  PlaylistManager.generate_playlist_title strftime str_of_int render_extended category
    channels target_date (t1 ++ t2) = Ok (o1 ++ o2)%string.
Proof. apply format_app. Qed.

End TemplateProperties.

(** A prefix in escaped braces before the configured template. *)
Lemma titles_compose_witness :
  PlaylistManager.generate_playlist_title Platform.strftime Platform.str_of_int
    Platform.render_extended "news" Runs.cnbc Runs.may_first "{{daily}} {category}_{date}"
  = Ok "{daily} news_20240501"%string.
Proof.
  apply (titles_compose Platform.strftime Platform.str_of_int Platform.render_extended
           "news" Runs.cnbc Runs.may_first "{{daily}} " "{category}_{date}"
           "{daily} " "news_20240501")%string.
  - vm_compute. reflexivity.
  - vm_compute. reflexivity.
Defined.

(** ** How the program ends *)

Section ExitFacts.
Context {W : Type}.







End ExitFacts.

Section ExitProperties.
Context {W : Type} (youtube : Service W).
Context (strftime : string -> date -> string).
Context (str_of_int : Z -> string).
Context (render_extended :
           PyStr.pyval -> string -> option ascii ->
           PyStr.result (option string -> PyStr.result string)).
Context (isoformat : datetime -> string).
Context (strptime_date : string -> option date).
Context (get_authenticated_service : M W unit).

Local Abbreviation main :=
  (Main.main youtube strftime str_of_int render_extended isoformat strptime_date
     get_authenticated_service).


End ExitProperties.


(** *** No part of the program calls [sys.exit] but [main] itself *)




Section NoExit.
Context {W : Type} (youtube : Service W).












End NoExit.

Section ExitStatus.
Context {W : Type} (youtube : Service W).
Context (strftime : string -> date -> string).
Context (str_of_int : Z -> string).
Context (render_extended :
           PyStr.pyval -> string -> option ascii ->
           PyStr.result (option string -> PyStr.result string)).
Context (isoformat : datetime -> string).
Context (strptime_date : string -> option date).
Context (get_authenticated_service : M W unit).





End ExitStatus.



(** ** The membership listing only reads *)

Section ListingProperties.
Context {W : Type} (youtube : Service W).

Lemma get_playlist_video_ids_loop_requests (playlist_id : string) (fuel : nat) :
  forall (ids : gset string) (tok : option string) (w : world W),
  exists rqs,
    trace (snd (PlaylistManager.get_playlist_video_ids_loop youtube fuel playlist_id
                  ids tok w)) = (trace w ++ rqs)%list
    /\ Forall (fun rq => exists t, rq = PlaylistItemsList playlist_id 50 t) rqs
    /\ (length rqs <= fuel)%nat
    /\ (fuel <> O -> exists rest, rqs = PlaylistItemsList playlist_id 50 tok :: rest).
Proof.
  induction fuel as [|fuel IH]; intros ids tok w;
    cbn [PlaylistManager.get_playlist_video_ids_loop].
  - exists []. rewrite app_nil_r. split; [reflexivity|]. split; [constructor|].
    split; [cbn [length]; lia | congruence].
  - unfold bind, execute.
    destruct (playlistItems_list youtube playlist_id 50 tok (remote w)) as [[page|] s'].
    + destruct (truthy (nextPageToken page)).
      * edestruct IH as (rqs & -> & Hall & Hlen & _). cbn [trace].
        eexists. rewrite <- app_assoc. split; [reflexivity|].
        split; [constructor; [eexists; reflexivity | exact Hall]|].
        split; [cbn [length app]; lia | intros _; eexists; reflexivity].
      * eexists. split; [reflexivity|].
        split; [constructor; [eexists; reflexivity | constructor]|].
        split; [cbn [length app]; lia | intros _; eexists; reflexivity].
    + eexists. split; [reflexivity|].
      split; [constructor; [eexists; reflexivity | constructor]|].
      split; [cbn [length app]; lia | intros _; eexists; reflexivity].
Qed.

(** X22. Whatever the platform answers, [get_playlist_video_ids] issues
    nothing but listing requests for the given playlist, fifty items each,
    the first one without a page token; it never inserts and never raises. *)
Theorem listing_only_reads (fuel : nat) (playlist_id : string) (w : world W) :
  (exists rqs : list call,
      trace (snd (PlaylistManager.get_playlist_video_ids youtube fuel playlist_id w))
      = (trace w ++ rqs)%list
      /\ Forall (fun rq => exists t, rq = PlaylistItemsList playlist_id 50 t) rqs
      /\ (length rqs <= fuel)%nat
      /\ (fuel <> O -> exists rest, rqs = PlaylistItemsList playlist_id 50 None :: rest))
  /\ forall e, fst (PlaylistManager.get_playlist_video_ids youtube fuel playlist_id w)
               <> Raise e.
Proof.
  split.
  - destruct (get_playlist_video_ids_loop_requests playlist_id fuel ∅ None w)
      as (rqs & Ht & Hall). exists rqs.
    unfold PlaylistManager.get_playlist_video_ids, try_except_HttpError.
    destruct (PlaylistManager.get_playlist_video_ids_loop youtube fuel playlist_id ∅ None w)
      as [[ids|[]|] w']; cbn [snd] in *; split; assumption.
  - intros e.
    destruct (get_playlist_video_ids_outcome youtube fuel playlist_id w)
      as [(ids & w' & ->)|(w' & ->)]; discriminate.
Qed.

End ListingProperties.

(** A listing of the long playlist with fuel for it. *)
Lemma listing_only_reads_witness :
  exists rest,
    trace (snd (PlaylistManager.get_playlist_video_ids Platform.service 3 "PL"
                  (Platform.start Runs.long_playlist)))
    = PlaylistItemsList "PL" 50 None :: rest.
Proof.
  destruct (proj1 (listing_only_reads Platform.service 3 "PL"
                     (Platform.start Runs.long_playlist)))
    as (rqs & Ht & _ & _ & Hfirst).
  destruct (Hfirst ltac:(discriminate)) as (rest & ->).
  exists rest. exact Ht.
Defined.
